(** * Mahanka dead-stock predictor: the transform pipeline of
      [utils/processing.py]

    The development embeds [load_data] and [process_inventory] and proves
    the properties of the risk pipeline: aggregation of the sales log,
    the left join with the inventory snapshot, the derived metrics and the
    logistic risk score.

    Numbers.  The pandas columns are float64.  A cell is modelled by
    [fnum]: a real number, one of the two infinities, or NaN (a blank
    cell).  Finite values are exact reals, so rounding and overflow are
    idealised away; the rules for the special values follow IEEE 754.
    Zero carries no sign: the only zero divisor the pipeline can meet is
    [1 - Margin] at [Margin = 1], which is [+0.0].  Text in a numeric
    column has no counterpart in [fnum].

    Tables.  A table is the list of its rows, each a record of the
    columns that the caller's validation has found present. *)

From Stdlib Require Import Reals Lra Lia ZArith List String Bool.
From Stdlib Require Import DecimalString DecimalPos DecimalZ.
From Stdlib Require Import Permutation Sorted.
Import ListNotations.

(** ** Float cells *)

Module F.

Inductive fnum : Type :=
| Fin (x : R)
| PInf
| NInf
| NaN.

Definition isna (a : fnum) : bool :=
  match a with NaN => true | _ => false end.

Definition neg (a : fnum) : fnum :=
  match a with
  | Fin x => Fin (- x)
  | PInf => NInf
  | NInf => PInf
  | NaN => NaN
  end.

Definition add (a b : fnum) : fnum :=
  match a, b with
  | NaN, _ | _, NaN => NaN
  | Fin x, Fin y => Fin (x + y)
  | PInf, NInf | NInf, PInf => NaN
  | PInf, _ | _, PInf => PInf
  | NInf, _ | _, NInf => NInf
  end.

Definition sub (a b : fnum) : fnum := add a (neg b).

(** [scale_inf s x]: an infinity of sign [s] multiplied (or divided) by the
    finite [x]; [x = 0] is handled by the callers. *)
Definition scale_inf (positive : bool) (x : R) : fnum :=
  if Rlt_dec 0 x then (if positive then PInf else NInf)
  else (if positive then NInf else PInf).

Definition mul (a b : fnum) : fnum :=
  match a, b with
  | NaN, _ | _, NaN => NaN
  | Fin x, Fin y => Fin (x * y)
  | PInf, PInf | NInf, NInf => PInf
  | PInf, NInf | NInf, PInf => NInf
  | PInf, Fin x | Fin x, PInf =>
      if Req_dec_T x 0 then NaN else scale_inf true x
  | NInf, Fin x | Fin x, NInf =>
      if Req_dec_T x 0 then NaN else scale_inf false x
  end.

Definition div (a b : fnum) : fnum :=
  match a, b with
  | NaN, _ | _, NaN => NaN
  | Fin x, Fin y =>
      if Req_dec_T y 0
      then (if Req_dec_T x 0 then NaN else scale_inf true x)
      else Fin (x / y)
  | Fin _, (PInf | NInf) => Fin 0
  | (PInf | NInf), (PInf | NInf) => NaN
  | PInf, Fin y => if Rlt_dec y 0 then NInf else PInf
  | NInf, Fin y => if Rlt_dec y 0 then PInf else NInf
  end.

(** [a < b]; every comparison with NaN is false. *)
Definition ltb (a b : fnum) : bool :=
  match a, b with
  | NaN, _ | _, NaN => false
  | Fin x, Fin y => if Rlt_dec x y then true else false
  | NInf, (Fin _ | PInf) => true
  | Fin _, PInf => true
  | _, _ => false
  end.

Definition gtb (a b : fnum) : bool := ltb b a.

(** [a == b] *)
Definition eqb (a b : fnum) : bool :=
  match a, b with
  | Fin x, Fin y => if Req_dec_T x y then true else false
  | PInf, PInf | NInf, NInf => true
  | _, _ => false
  end.

(** [Series.fillna(v)] on one cell *)
Definition fillna (v : R) (a : fnum) : fnum :=
  match a with NaN => Fin v | _ => a end.

(** [Series.replace(old, new)] on one cell *)
Definition replace (old new : R) (a : fnum) : fnum :=
  if eqb a (Fin old) then Fin new else a.

(** [scipy.special.expit]: the logistic function [1 / (1 + e^(-x))] *)
Definition logistic (x : R) : R := / (1 + exp (- x)).

Definition expit (a : fnum) : fnum :=
  match a with
  | Fin x => Fin (logistic x)
  | PInf => Fin 1
  | NInf => Fin 0
  | NaN => NaN
  end.

(** [Series.clip(lo, hi)] on one cell; NaN stays NaN. *)
Definition clip (lo hi : R) (a : fnum) : fnum :=
  match a with
  | Fin x => Fin (Rmin (Rmax x lo) hi)
  | PInf => Fin hi
  | NInf => Fin lo
  | NaN => NaN
  end.

(** The [sum] aggregation of a group: missing values are skipped and the
    empty sum is 0. *)
Definition sum (l : list fnum) : fnum :=
  fold_left (fun acc x => if isna x then acc else add acc x) l (Fin 0).

End F.

Import F.

Definition ofZ (n : Z) : fnum := Fin (IZR n).

(** ** Cells of the key and date columns *)

(** A cell of a [SKU] column as [pd.read_excel] delivers it: a number cell
    holding a whole number, a text cell or a blank one.  (Float keys are left
    out: no cell holds a fraction, and a column that pandas holds as float64,
    see [float64_keys] below, is outside what [str] prints.) *)
Inductive sku_cell : Type :=
| SkuInt (n : Z)
| SkuStr (s : string)
| SkuNaN.

Definition sku_eq_dec (a b : sku_cell) : {a = b} + {a <> b}.
Proof. decide equality; [apply Z.eq_dec | apply string_dec]. Defined.

Definition sku_eqb (a b : sku_cell) : bool :=
  if sku_eq_dec a b then true else false.

Definition sku_notna (a : sku_cell) : bool :=
  match a with SkuNaN => false | _ => true end.

(** Python's [str] on a key, as [Series.astype(str)] applies it to a cell
    that holds a Python object or an int64: a whole number prints as its
    digits, a blank as "nan". *)
Definition str (a : sku_cell) : string :=
  match a with
  | SkuInt n => NilZero.string_of_int (Z.to_int n)
  | SkuStr s => s
  | SkuNaN => "nan"
  end.

Definition astype_str (a : sku_cell) : sku_cell := SkuStr (str a).

(** The dtype of a key column.  A column of whole numbers is int64, a column
    that holds a text cell is object and keeps each number as the integer it
    is; in both [astype(str)] prints a number as [str] does.  A column of
    numbers with a blank and no text is float64: there [astype(str)] prints
    7 as "7.0", which [str] does not model. *)
Definition is_number_key (a : sku_cell) : bool :=
  match a with SkuInt _ => true | _ => false end.

Definition is_text_key (a : sku_cell) : bool :=
  match a with SkuStr _ => true | _ => false end.

Definition is_blank_key (a : sku_cell) : bool :=
  match a with SkuNaN => true | _ => false end.

Definition float64_keys (col : list sku_cell) : bool :=
  existsb is_number_key col && existsb is_blank_key col
  && negb (existsb is_text_key col).

(** A cell of the [Date] column.  [Timestamp ns] is a datetime, in
    nanoseconds since the epoch (text that pandas can parse is identified
    with the timestamp it parses to); [Unparsed] is any other content, which
    [errors='coerce'] turns into [NaT]. *)
Inductive date_cell : Type :=
| Timestamp (ns : Z)
| Unparsed (raw : string)
| NaT.

Definition to_datetime (d : date_cell) : date_cell :=
  match d with
  | Timestamp ns => Timestamp ns
  | Unparsed _ => NaT
  | NaT => NaT
  end.

Definition ts_of (d : date_cell) : option Z :=
  match d with Timestamp ns => Some ns | _ => None end.

Definition ns_per_day : Z := 86400000000000.

(** [Timedelta.days]: whole days, rounded towards minus infinity *)
Definition timedelta_days (delta : Z) : Z := (delta / ns_per_day)%Z.

(** ** Tables *)

(** A row of the validated [Sales] sheet *)
Record SalesRecord : Type := mkSale {
  s_SKU : sku_cell;
  s_Date : date_cell;
  s_Units_Sold : fnum;
  s_Revenue : fnum
}.

(** A row of the validated [Inventory] sheet *)
Record InventoryRecord : Type := mkInv {
  i_SKU : sku_cell;
  i_Current_Stock : fnum;
  i_Cost_Price : fnum;
  i_Margin : fnum
}.

(** A row of [sales_grouped]; a missing date is [None]. *)
Record SkuRollup : Type := mkRollup {
  g_SKU : sku_cell;
  g_Total_Units_Sold : fnum;
  g_Total_Revenue : fnum;
  g_Min_Date : option Z;
  g_Max_Date : option Z;
  g_Period_Days : Z;
  g_Avg_Daily_Velocity : fnum
}.

(** A row of [merged_df] when [process_inventory] returns *)
Record EnrichedItem : Type := mkItem {
  SKU : sku_cell;
  Current_Stock : fnum;
  Cost_Price : fnum;
  Margin : fnum;
  Total_Units_Sold : fnum;
  Total_Revenue : fnum;
  Min_Date : option Z;
  Max_Date : option Z;
  Period_Days : option Z;
  Avg_Daily_Velocity : fnum;
  Days_of_Cover : fnum;
  Sell_Through_Rate : fnum;
  Selling_Price : fnum;
  Stock_Value : fnum;
  Death_Risk_Base : fnum;
  Risk_Penalty : fnum;
  Death_Risk_Score : fnum
}.

(** ** [process_inventory] *)

Module Pipeline.

(** *** 1. Date parsing: [sales_df['Date'] = pd.to_datetime(..., errors='coerce')]

    The assignment writes into the caller's table. *)
Definition parse_dates (sales_df : list SalesRecord) : list SalesRecord :=
  map (fun r => mkSale (s_SKU r) (to_datetime (s_Date r))
                       (s_Units_Sold r) (s_Revenue r)) sales_df.

(** *** 2. Velocity: [groupby('SKU').agg(sum, sum, [min, max])] *)

(** The group keys: the distinct non-missing values of the key column
    ([groupby] drops missing keys).  pandas sorts the keys; their order is
    left as [nodup] gives it, since it only shows in the relative order of
    output rows that the join repeats. *)
Definition group_keys (sales_df : list SalesRecord) : list sku_cell :=
  nodup sku_eq_dec (filter sku_notna (map s_SKU sales_df)).

Definition group_rows (k : sku_cell) (sales_df : list SalesRecord)
  : list SalesRecord :=
  filter (fun r => sku_eqb (s_SKU r) k) sales_df.

Definition opt_min (acc : option Z) (t : Z) : option Z :=
  match acc with None => Some t | Some m => Some (Z.min m t) end.

Definition opt_max (acc : option Z) (t : Z) : option Z :=
  match acc with None => Some t | Some m => Some (Z.max m t) end.

(** [min] and [max] of a group skip [NaT]: the folds, from any
    accumulator.  A group without any date has [NaT]. *)
Definition min_from (acc : option Z) (l : list date_cell) : option Z :=
  fold_left (fun acc d => match ts_of d with
                          | Some t => opt_min acc t
                          | None => acc
                          end) l acc.

Definition max_from (acc : option Z) (l : list date_cell) : option Z :=
  fold_left (fun acc d => match ts_of d with
                          | Some t => opt_max acc t
                          | None => acc
                          end) l acc.

Definition date_min (l : list date_cell) : option Z := min_from None l.

Definition date_max (l : list date_cell) : option Z := max_from None l.

(** [(Max_Date - Min_Date).dt.days + 1]; missing when a date is [NaT] *)
Definition period_days_raw (mn mx : option Z) : option Z :=
  match mn, mx with
  | Some a, Some b => Some (timedelta_days (b - a) + 1)%Z
  | _, _ => None
  end.

(** [lambda x: x if x > 0 else 1]; [NaN > 0] is false. *)
Definition positive_or_1 (x : option Z) : Z :=
  match x with
  | Some v => if (0 <? v)%Z then v else 1%Z
  | None => 1%Z
  end.

(** One row of [sales_grouped], with [Period_Days] and
    [Avg_Daily_Velocity] added; the key is still the raw one. *)
Definition rollup (sales_df : list SalesRecord) (k : sku_cell) : SkuRollup :=
  let rows := group_rows k sales_df in
  let total_units := F.sum (map s_Units_Sold rows) in
  let total_revenue := F.sum (map s_Revenue rows) in
  let mn := date_min (map s_Date rows) in
  let mx := date_max (map s_Date rows) in
  let period := positive_or_1 (period_days_raw mn mx) in
  mkRollup k total_units total_revenue mn mx period
           (F.div total_units (ofZ period)).

Definition sales_grouped (sales_df : list SalesRecord) : list SkuRollup :=
  map (rollup sales_df) (group_keys sales_df).

(** *** 3. Merge with the inventory *)

(** [sales_grouped['SKU'] = sales_grouped['SKU'].astype(str)] *)
Definition rollup_astype_str (g : SkuRollup) : SkuRollup :=
  mkRollup (astype_str (g_SKU g)) (g_Total_Units_Sold g) (g_Total_Revenue g)
           (g_Min_Date g) (g_Max_Date g) (g_Period_Days g)
           (g_Avg_Daily_Velocity g).

(** [inventory_df['SKU'] = inventory_df['SKU'].astype(str)]: this one
    writes into the caller's table. *)
Definition inventory_astype_str (i : InventoryRecord) : InventoryRecord :=
  mkInv (astype_str (i_SKU i)) (i_Current_Stock i) (i_Cost_Price i)
        (i_Margin i).

(** The columns of a merged row before the derived ones are computed *)
Record MergedRow : Type := mkMerged {
  m_inv : InventoryRecord;
  m_Total_Units_Sold : fnum;
  m_Total_Revenue : fnum;
  m_Min_Date : option Z;
  m_Max_Date : option Z;
  m_Period_Days : option Z;
  m_Avg_Daily_Velocity : fnum
}.

Definition matched (i : InventoryRecord) (g : SkuRollup) : MergedRow :=
  mkMerged i (g_Total_Units_Sold g) (g_Total_Revenue g) (g_Min_Date g)
           (g_Max_Date g) (Some (g_Period_Days g)) (g_Avg_Daily_Velocity g).

Definition unmatched (i : InventoryRecord) : MergedRow :=
  mkMerged i NaN NaN None None None NaN.

Definition matches (i : InventoryRecord) (right : list SkuRollup)
  : list SkuRollup :=
  filter (fun g => sku_eqb (g_SKU g) (i_SKU i)) right.

(** [pd.merge(left, right, on='SKU', how='left')]: the left rows in order,
    each one once per right row with the same key, or once with missing
    right columns when there is none. *)
Definition merge_left (left : list InventoryRecord) (right : list SkuRollup)
  : list MergedRow :=
  flat_map (fun i => match matches i right with
                     | [] => [unmatched i]
                     | ms => map (matched i) ms
                     end) left.

(** The three [fillna(0)] *)
Definition fill_sales (m : MergedRow) : MergedRow :=
  mkMerged (m_inv m)
           (F.fillna 0 (m_Total_Units_Sold m))
           (F.fillna 0 (m_Total_Revenue m))
           (m_Min_Date m) (m_Max_Date m) (m_Period_Days m)
           (F.fillna 0 (m_Avg_Daily_Velocity m)).

(** *** 4. Derived metrics and 5. the death risk *)

Definition sell_through (units stock : fnum) : fnum :=
  if F.gtb (F.add units stock) (Fin 0)
  then F.div units (F.add units stock)
  else Fin 0.

Definition risk_penalty (velocity : fnum) : fnum :=
  if F.ltb velocity (Fin (5 / 10)) then Fin 30 else Fin 0.

Definition derive (m : MergedRow) : EnrichedItem :=
  let stock := i_Current_Stock (m_inv m) in
  let velocity := m_Avg_Daily_Velocity m in
  let safe_velocity := F.replace 0 (1 / 1000) velocity in
  let days_of_cover := F.div stock safe_velocity in
  let rate := sell_through (m_Total_Units_Sold m) stock in
  let selling_price :=
    F.div (i_Cost_Price (m_inv m)) (F.sub (Fin 1) (i_Margin (m_inv m))) in
  let stock_value := F.mul stock selling_price in
  let base :=
    F.mul (F.expit (F.div (F.sub days_of_cover (Fin 60)) (Fin 30))) (Fin 100) in
  let penalty := risk_penalty velocity in
  let score := F.clip 0 100 (F.add base penalty) in
  mkItem (i_SKU (m_inv m)) stock (i_Cost_Price (m_inv m)) (i_Margin (m_inv m))
         (m_Total_Units_Sold m) (m_Total_Revenue m)
         (m_Min_Date m) (m_Max_Date m) (m_Period_Days m) velocity
         days_of_cover rate selling_price stock_value base penalty score.

(** *** The whole function

    Python passes the two tables by reference and two of the assignments
    above write into them, so a call is a step on the caller's tables that
    also yields the returned [merged_df].  The row-wise [apply] of the
    sell-through is a map over the rows; what pandas makes of it on a table
    without rows is not modelled. *)
Record outcome : Type := mkOutcome {
  sales_after : list SalesRecord;
  inventory_after : list InventoryRecord;
  merged_df : list EnrichedItem
}.

Definition process_inventory (sales_df : list SalesRecord)
    (inventory_df : list InventoryRecord) : outcome :=
  let sales_df := parse_dates sales_df in
  let grouped := map rollup_astype_str (sales_grouped sales_df) in
  let inventory_df := map inventory_astype_str inventory_df in
  let merged := map fill_sales (merge_left inventory_df grouped) in
  mkOutcome sales_df inventory_df (map derive merged).

(** The returned table *)
Definition enriched (sales_df : list SalesRecord)
    (inventory_df : list InventoryRecord) : list EnrichedItem :=
  merged_df (process_inventory sales_df inventory_df).

End Pipeline.

Import Pipeline.

(** ** [load_data] *)

Module Loader.

(** What [pd.read_excel] returns for a sheet: the column labels and the
    body of the table. *)
Record DataFrame : Type := mkFrame {
  columns : list string;
  body : list (list string)
}.

(** A computation that may raise: the message of the exception, or a
    value. *)
Inductive result (A : Type) : Type :=
| Raise (msg : string)
| Return (a : A).

Arguments Raise {A} msg.
Arguments Return {A} a.

Definition bind {A B : Type} (c : result A) (k : A -> result B) : result B :=
  match c with
  | Raise msg => Raise msg
  | Return a => k a
  end.

Notation "x <- c ;; k" := (bind c (fun x => k))
  (at level 61, c at next level, right associativity).

(** The uploaded file, as [pd.read_excel(f, sheet_name, header)] sees it. *)
Definition workbook : Type := string -> nat -> result DataFrame.

(** [required_cols.issubset(df.columns)] with [required_cols = {'SKU'}] *)
Definition has_required_cols (df : DataFrame) : bool :=
  if in_dec string_dec "SKU"%string (columns df) then true else false.

Definition read_sheet (f : workbook) (sheet : string) : result DataFrame :=
  df <- f sheet 0%nat ;;
  if has_required_cols df then Return df
  else
    df <- f sheet 1%nat ;;
    if has_required_cols df then Return df
    else f sheet 0%nat.

(** The returned triple [(sales_df, inventory_df, error)] *)
Definition load_data (file : workbook)
  : option DataFrame * option DataFrame * option string :=
  match (sales_df <- read_sheet file "Sales" ;;
         inventory_df <- read_sheet file "Inventory" ;;
         Return (sales_df, inventory_df)) with
  | Return (sales_df, inventory_df) => (Some sales_df, Some inventory_df, None)
  | Raise e => (None, None, Some e)
  end.

End Loader.

(** ** Vocabulary of the properties *)

Open Scope R_scope.

(** A cell that holds a non-negative number *)
Definition is_nonneg (a : fnum) : Prop :=
  match a with Fin u => 0 <= u | _ => False end.

(** No sales row carries the (normalised) key [key]: the item has no row
    in the rollup. *)
Definition no_sales (sales_df : list SalesRecord) (key : sku_cell) : Prop :=
  forall x, In x sales_df -> s_SKU x <> SkuNaN -> astype_str (s_SKU x) <> key.

(** The right table of the join *)
Definition right_table (sales_df : list SalesRecord) : list SkuRollup :=
  map rollup_astype_str (sales_grouped (parse_dates sales_df)).

(** [clamp(x, 0, 100)] *)
Definition clamp_0_100 (x : R) : R := Rmin (Rmax x 0) 100.

(** The stock from which a never-sold item scores 100: the base reaches 70
    when [(1000 s - 60) / 30 >= ln (7/3)]. *)
Definition saturation_stock : R := (60 + 30 * ln (7 / 3)) / 1000.

(** Midnight of the day [d] days after the epoch *)
Definition midnight (d : Z) : date_cell := Timestamp (d * ns_per_day).

(** Scenario A: three sales of item A1 in January 2024 (1 January 2024 is
    day 19723 of the epoch). *)
Definition scenario_A_sales : list SalesRecord :=
  [ mkSale (SkuStr "A1") (midnight 19723) (Fin 10) (Fin 100);
    mkSale (SkuStr "A1") (midnight 19732) (Fin 20) (Fin 200);
    mkSale (SkuStr "A1") (midnight 19742) (Fin 5) (Fin 50) ].

Definition item_A1 : InventoryRecord :=
  mkInv (SkuStr "A1") (Fin 100) (Fin 40) (Fin (5 / 10)).

Definition scenario_A_inventory : list InventoryRecord := [ item_A1 ].

Definition scenario_A_row : EnrichedItem :=
  derive (fill_sales
    (matched (inventory_astype_str item_A1)
       (rollup_astype_str
          (rollup (parse_dates scenario_A_sales) (SkuStr "A1"))))).

(** Scenario B: item B2 was never sold. *)
Definition item_B2 : InventoryRecord :=
  mkInv (SkuStr "B2") (Fin 10) (Fin 5) (Fin (2 / 10)).


Definition scenario_B_inventory : list InventoryRecord := [ item_B2 ].

(** A never-sold item with a twentieth of a unit in stock, and one with
    none *)
Definition item_small_stock : InventoryRecord :=
  mkInv (SkuStr "Z9") (Fin (5 / 100)) (Fin 1) (Fin 0).

Definition item_no_stock : InventoryRecord :=
  mkInv (SkuStr "Z0") (Fin 0) (Fin 1) (Fin 0).

(** The output row of an item that the join leaves without sales *)
Definition never_sold_row (i : InventoryRecord) : EnrichedItem :=
  derive (fill_sales (unmatched (inventory_astype_str i))).

(** An item whose stock cell is blank *)
Definition item_null_stock : InventoryRecord :=
  mkInv (SkuStr "N1") NaN (Fin 5) (Fin (2 / 10)).

(** A sales sheet whose key column holds the number 101 in one row and the
    text "101" in another; the inventory sheet keys the item by the
    number. *)
Definition mixed_key_sales : list SalesRecord :=
  [ mkSale (SkuInt 101) (midnight 19723) (Fin 3) (Fin 30);
    mkSale (SkuStr "101") (midnight 19724) (Fin 4) (Fin 40) ].

Definition mixed_key_inventory : list InventoryRecord :=
  [ mkInv (SkuInt 101) (Fin 50) (Fin 2) (Fin (5 / 10)) ].

(** Tables as a workbook may deliver them: number keys, and a date cell
    that holds no date. *)
Definition raw_sales : list SalesRecord :=
  [ mkSale (SkuInt 7) (midnight 19723) (Fin 3) (Fin 30);
    mkSale (SkuInt 7) (Unparsed "n/a") (Fin 4) (Fin 40) ].

Definition raw_inventory : list InventoryRecord :=
  [ mkInv (SkuInt 7) (Fin 50) (Fin 2) (Fin (5 / 10)) ].

(** An inventory sheet that keys the same item by the text "7" *)
Definition text_key_inventory : list InventoryRecord :=
  [ mkInv (SkuStr "7") (Fin 50) (Fin 2) (Fin (5 / 10)) ].

(** The key column of a sales table is not mixed: apart from blanks, its
    cells are all numbers or all text. *)
Definition unmixed_keys (sales_df : list SalesRecord) : Prop :=
  (forall x, In x sales_df ->
     s_SKU x = SkuNaN \/ exists n, s_SKU x = SkuInt n) \/
  (forall x, In x sales_df ->
     s_SKU x = SkuNaN \/ exists s, s_SKU x = SkuStr s).

(** What a call leaves in a sales row and in an inventory row *)
Definition sale_rewritten (before after : SalesRecord) : Prop :=
  s_SKU after = s_SKU before /\
  s_Date after = to_datetime (s_Date before) /\
  s_Units_Sold after = s_Units_Sold before /\
  s_Revenue after = s_Revenue before.

Definition item_rewritten (before after : InventoryRecord) : Prop :=
  i_SKU after = astype_str (i_SKU before) /\
  i_Current_Stock after = i_Current_Stock before /\
  i_Cost_Price after = i_Cost_Price before /\
  i_Margin after = i_Margin before.

(** Two workbooks.  In the first the [Sales] sheet has a banner line above
    its header and the [Inventory] sheet has none; the second has no
    [Inventory] sheet. *)
Definition banner_frame : Loader.DataFrame :=
  Loader.mkFrame ["Mahanka export"%string] [].

Definition sample_sales_frame : Loader.DataFrame :=
  Loader.mkFrame ["SKU"; "Date"; "Units_Sold"; "Revenue"]%string [].

Definition sample_inventory_frame : Loader.DataFrame :=
  Loader.mkFrame ["SKU"; "Current_Stock"; "Cost_Price"; "Margin"]%string [].

Definition sample_workbook : Loader.workbook :=
  fun sheet header =>
    if String.eqb sheet "Sales" then
      match header with
      | O => Loader.Return banner_frame
      | _ => Loader.Return sample_sales_frame
      end
    else Loader.Return sample_inventory_frame.

Definition broken_workbook : Loader.workbook :=
  fun sheet header =>
    if String.eqb sheet "Sales" then sample_workbook sheet header
    else Loader.Raise "Worksheet named 'Inventory' not found".

(** ** The dashboard of [app.py] *)

Module App.

(** *** From the upload to the call of [process_inventory] *)

Definition req_sales : list string :=
  ["SKU"; "Date"; "Units_Sold"; "Revenue"]%string.

Definition req_inv : list string :=
  ["SKU"; "Current_Stock"; "Cost_Price"; "Margin"]%string.

(** [req - set(df.columns)]: the required labels that the frame lacks *)
Definition missing_columns (req : list string) (df : Loader.DataFrame)
  : list string :=
  filter (fun c => if in_dec string_dec c (Loader.columns df)
                   then false else true) req.

(** Truth value of a set, and of the [error] that [load_data] returns
    ([None] and the empty string are false) *)
Definition nonempty (l : list string) : bool :=
  match l with [] => false | _ => true end.

Definition truthy (error : option string) : bool :=
  match error with
  | Some (String _ _) => true
  | _ => false
  end.

(** What a run of the script shows, up to the call of
    [process_inventory]. *)
Inductive page : Type :=
| UploadHint
| ReadError (error : string)
| MissingColumns (missing_sales missing_inv : list string)
| Process (sales_df inventory_df : Loader.DataFrame)
| Uncaught.

(** The sample file is [None] when [os.path.exists(sample_path)] is
    false.  A table that is [None] has no [columns]: the column check
    raises [AttributeError], which nothing catches. *)
Definition run (uploaded_file : option Loader.workbook) (use_sample : bool)
    (sample : option Loader.workbook) : page :=
  if match uploaded_file with Some _ => true | None => use_sample end then
    let '(sales_df, inventory_df, error) :=
      match uploaded_file with
      | None =>
          match sample with
          | Some f => Loader.load_data f
          | None => (None, None, Some "Sample file not found."%string)
          end
      | Some f => Loader.load_data f
      end in
    if truthy error then
      ReadError (match error with Some e => e | None => EmptyString end)
    else
      match sales_df, inventory_df with
      | Some s, Some i =>
          let missing_sales := missing_columns req_sales s in
          let missing_inv := missing_columns req_inv i in
          if nonempty missing_sales || nonempty missing_inv
          then MissingColumns missing_sales missing_inv
          else Process s i
      | _, _ => Uncaught
      end
  else UploadHint.

(** *** The metric cards *)

(** [result_df[result_df['Death_Risk_Score'] > 70]] *)
Definition high_risk (result_df : list EnrichedItem) : list EnrichedItem :=
  filter (fun r => F.gtb (Death_Risk_Score r) (Fin 70)) result_df.

Definition total_risk_value (result_df : list EnrichedItem) : fnum :=
  F.sum (map Stock_Value (high_risk result_df)).

Definition risk_count (result_df : list EnrichedItem) : nat :=
  List.length (high_risk result_df).

(** [Series.mean]: missing values are skipped; the mean of nothing is
    NaN. *)
Definition mean (l : list fnum) : fnum :=
  match filter (fun x => negb (F.isna x)) l with
  | [] => NaN
  | xs => F.div (F.sum xs) (Fin (INR (List.length xs)))
  end.

Definition avg_sell_through (result_df : list EnrichedItem) : fnum :=
  F.mul (mean (map Sell_Through_Rate result_df)) (Fin 100).

(** [risk_count / len(result_df) * 100] on Python integers: [None] stands
    for the [ZeroDivisionError] of an empty table. *)
Definition risk_share (result_df : list EnrichedItem) : option R :=
  match List.length result_df with
  | O => None
  | n => Some (INR (risk_count result_df) / INR n * 100)
  end.

(** *** The colour of a score cell *)

Definition color_risk (val : fnum) : string :=
  let color :=
    if F.gtb val (Fin 70) then "red"%string
    else if F.gtb val (Fin 50) then "orange"%string
    else "green"%string in
  String.append "background-color: "
    (String.append color "; color: white").

(** *** The rows listed first

    [df.sort_values('Death_Risk_Score', ascending=False)] orders the rows
    by falling score with the blank scores last; the order among equal
    scores is not fixed by the default sort.  [score_before a b]: a row
    of score [a] may stand before a row of score [b]. *)
Definition score_before (a b : fnum) : bool :=
  match a, b with
  | _, NaN => true
  | NaN, _ => false
  | _, _ => negb (F.ltb a b)
  end.

(** [sorted] is a result of the sort on [df]. *)
Definition sorted_by_risk (df sorted : list EnrichedItem) : Prop :=
  Permutation df sorted /\
  StronglySorted
    (fun a b => score_before (Death_Risk_Score a) (Death_Risk_Score b) = true)
    sorted.

(** [.head(n)]: 5 rows for the PDF report, 10 for the bar chart *)
Definition head (n : nat) (df : list EnrichedItem) : list EnrichedItem :=
  firstn n df.

End App.

(** ** More vocabulary *)

(** The inventory columns of an output row *)
Definition inventory_part (r : EnrichedItem) : InventoryRecord :=
  mkInv (SKU r) (Current_Stock r) (Cost_Price r) (Margin r).

(** A cell that holds a number *)
Definition is_number (a : fnum) : Prop :=
  match a with Fin _ => True | _ => False end.

(** The sum of the numbers of a column, blanks skipped *)
Definition total (l : list fnum) : R :=
  fold_right (fun a acc => match a with Fin x => x + acc | _ => acc end) 0 l.

(** A cell that is a number or blank, not an infinity *)
Definition finite_or_blank (a : fnum) : Prop :=
  match a with PInf | NInf => False | _ => True end.

(** An inventory row with a non-negative stock and cost and a margin
    below 1 *)
Definition priced_item (i : InventoryRecord) : Prop :=
  exists s c mg,
    i_Current_Stock i = Fin s /\ 0 <= s /\
    i_Cost_Price i = Fin c /\ 0 <= c /\
    i_Margin i = Fin mg /\ mg < 1.

(** The days of cover at which a row becomes high risk: the score passes 70
    when the base passes 40 (with the penalty) or 70 (without). *)
Definition cover_threshold (slow_mover : bool) : R :=
  if slow_mover then 60 + 30 * ln (2 / 3) else 60 + 30 * ln (7 / 3).

(** The score of a row with stock [s] and velocity [v], both numbers: the
    velocity 0 is replaced by 0.001, the penalty is 30 below 0.5. *)
Definition risk_score (s v : R) : R :=
  clamp_0_100
    (logistic ((s / (if Req_dec_T v 0 then 1 / 1000 else v) - 60) / 30) * 100
     + (if Rlt_dec v (5 / 10) then 30 else 0)).

(** An item that sold one unit in 2724 days, with ten units in stock *)
Definition trickle_sales : list SalesRecord :=
  [ mkSale (SkuStr "T1") (midnight 17000) (Fin 1) (Fin 9);
    mkSale (SkuStr "T1") (midnight 19723) (Fin 0) (Fin 0) ].

Definition item_T1 : InventoryRecord :=
  mkInv (SkuStr "T1") (Fin 10) (Fin 5) (Fin (2 / 10)).

Definition trickle_row : EnrichedItem :=
  derive (fill_sales
    (matched (inventory_astype_str item_T1)
       (rollup_astype_str (rollup (parse_dates trickle_sales) (SkuStr "T1"))))).

(** The item of scenario A with ten units in stock: it sells 35 units in
    20 days *)
Definition item_A1_ten : InventoryRecord :=
  mkInv (SkuStr "A1") (Fin 10) (Fin 40) (Fin (5 / 10)).

Definition brisk_row : EnrichedItem :=
  derive (fill_sales
    (matched (inventory_astype_str item_A1_ten)
       (rollup_astype_str
          (rollup (parse_dates scenario_A_sales) (SkuStr "A1"))))).

(** An item priced with a margin of 1, and one with a margin of 1.5 *)
Definition item_margin_one : InventoryRecord :=
  mkInv (SkuStr "M1") (Fin 10) (Fin 5) (Fin 1).

(** A workbook whose reads raise an exception without a message *)
Definition silent_workbook : Loader.workbook :=
  fun _ _ => Loader.Raise EmptyString.

(** A workbook whose [Sales] sheet has a header in neither row *)
Definition headerless_workbook : Loader.workbook :=
  fun sheet header =>
    if String.eqb sheet "Sales" then Loader.Return banner_frame
    else Loader.Return sample_inventory_frame.

(** ** Dates of a key *)

(** Some sales row of the key [k] is dated [t]: its [Date] cell holds that
    timestamp. *)
Definition dated (sales_df : list SalesRecord) (k : sku_cell) (t : Z) : Prop :=
  exists x, In x sales_df /\ s_SKU x = k /\ s_Date x = Timestamp t.

(** [a] is the earliest, [b] the latest date among the sales rows of [k]. *)
Definition earliest (sales_df : list SalesRecord) (k : sku_cell) (a : Z)
  : Prop :=
  dated sales_df k a /\ forall t, dated sales_df k t -> (a <= t)%Z.

Definition latest (sales_df : list SalesRecord) (k : sku_cell) (b : Z)
  : Prop :=
  dated sales_df k b /\ forall t, dated sales_df k t -> (t <= b)%Z.

(** * Properties *)

(** ** Float cells *)

Lemma sum_from_nonneg (l : list fnum) : forall acc : R,
  0 <= acc -> Forall is_nonneg l ->
  exists t, fold_left (fun a x => if F.isna x then a else F.add a x) l (Fin acc)
            = Fin t /\ acc <= t.
Proof.
  induction l as [|x l IH]; intros acc Hacc Hall.
  - exists acc. split; [reflexivity | lra].
  - inversion Hall as [|? ? Hx Hl]; subst.
    destruct x as [u| | |]; simpl in Hx; try contradiction.
    simpl. destruct (IH (acc + u)) as [t [Ht Hle]]; [lra | assumption |].
    exists t. split; [exact Ht | lra].
Qed.

Lemma sum_nonneg (l : list fnum) :
  Forall is_nonneg l -> exists t, F.sum l = Fin t /\ 0 <= t.
Proof. intro H. apply (sum_from_nonneg l 0); [lra | exact H]. Qed.

(** ** The aggregator *)

Lemma parse_dates_SKU (S : list SalesRecord) :
  map s_SKU (parse_dates S) = map s_SKU S.
Proof. unfold parse_dates. rewrite map_map. reflexivity. Qed.

Lemma group_rows_parse (k : sku_cell) (S : list SalesRecord) :
  group_rows k (parse_dates S) = parse_dates (group_rows k S).
Proof.
  unfold group_rows, parse_dates.
  induction S as [|r S IH]; simpl; [reflexivity|].
  destruct (sku_eqb (s_SKU r) k); simpl; rewrite IH; reflexivity.
Qed.

Lemma parse_dates_units (S : list SalesRecord) :
  map s_Units_Sold (parse_dates S) = map s_Units_Sold S.
Proof. unfold parse_dates. rewrite map_map. reflexivity. Qed.

Lemma parse_dates_revenue (S : list SalesRecord) :
  map s_Revenue (parse_dates S) = map s_Revenue S.
Proof. unfold parse_dates. rewrite map_map. reflexivity. Qed.

Lemma sku_eqb_eq (a b : sku_cell) : sku_eqb a b = true <-> a = b.
Proof.
  unfold sku_eqb. destruct (sku_eq_dec a b); split; congruence.
Qed.

Lemma group_keys_spec (S : list SalesRecord) (k : sku_cell) :
  In k (group_keys S) <-> In k (map s_SKU S) /\ k <> SkuNaN.
Proof.
  unfold group_keys. rewrite nodup_In, filter_In.
  destruct k; simpl; intuition congruence.
Qed.

Lemma group_keys_NoDup (S : list SalesRecord) : NoDup (group_keys S).
Proof. apply NoDup_nodup. Qed.

Lemma in_sales_grouped (S : list SalesRecord) (g : SkuRollup) :
  In g (sales_grouped S) <-> exists k, In k (group_keys S) /\ g = rollup S k.
Proof.
  unfold sales_grouped. rewrite in_map_iff.
  split; intros [k [H1 H2]]; exists k; intuition congruence.
Qed.

Lemma min_max_from (l : list date_cell) : forall a b : Z,
  (a <= b)%Z ->
  exists a' b', min_from (Some a) l = Some a' /\ max_from (Some b) l = Some b'
                /\ (a' <= a)%Z /\ (b <= b')%Z.
Proof.
  induction l as [|d l IH]; intros a b Hab.
  - exists a, b. simpl. repeat split; lia.
  - unfold min_from, max_from in *. simpl.
    destruct (ts_of d) as [t|]; simpl.
    + destruct (IH (Z.min a t) (Z.max b t)) as (a' & b' & H1 & H2 & H3 & H4);
        [lia|].
      exists a', b'. repeat split; try assumption; lia.
    + apply IH. exact Hab.
Qed.

(** Either the group has no date at all, or its earliest date is not after
    its latest one. *)
Lemma date_min_max (l : list date_cell) :
  (date_min l = None /\ date_max l = None) \/
  (exists a b, date_min l = Some a /\ date_max l = Some b /\ (a <= b)%Z).
Proof.
  unfold date_min, date_max, min_from, max_from.
  induction l as [|d l IH]; simpl.
  - left. split; reflexivity.
  - destruct (ts_of d) as [t|]; simpl.
    + right. destruct (min_max_from l t t) as
        (a' & b' & H1 & H2 & H3 & H4); [lia|].
      exists a', b'. unfold min_from, max_from in *.
      repeat split; try assumption; lia.
    + exact IH.
Qed.

Lemma timedelta_days_nonneg (delta : Z) :
  (0 <= delta)%Z -> (0 <= timedelta_days delta)%Z.
Proof.
  intro H. unfold timedelta_days, ns_per_day. apply Z.div_pos; lia.
Qed.

Lemma positive_or_1_ge_1 (x : option Z) : (1 <= positive_or_1 x)%Z.
Proof.
  destruct x as [v|]; simpl; [|lia].
  destruct (Z.ltb_spec 0 v); lia.
Qed.

Lemma in_group_rows (k : sku_cell) (S : list SalesRecord) (r : SalesRecord) :
  In r (group_rows k S) <-> In r S /\ s_SKU r = k.
Proof. unfold group_rows. rewrite filter_In, sku_eqb_eq. reflexivity. Qed.

Lemma ts_of_some (d : date_cell) (t : Z) : ts_of d = Some t <-> d = Timestamp t.
Proof. destruct d; simpl; split; intro H; congruence. Qed.

Lemma to_datetime_ts (d : date_cell) (t : Z) :
  to_datetime d = Timestamp t <-> d = Timestamp t.
Proof. destruct d; simpl; split; intro H; congruence. Qed.

(** What the fold for [min] returns, from any accumulator *)
Lemma min_from_spec (l : list date_cell) : forall acc : option Z,
  match min_from acc l with
  | None => acc = None /\ (forall t, ~ In (Timestamp t) l)
  | Some m =>
      (acc = Some m \/ In (Timestamp m) l) /\
      (forall a, acc = Some a -> (m <= a)%Z) /\
      (forall t, In (Timestamp t) l -> (m <= t)%Z)
  end.
Proof.
  induction l as [|d l IH]; intro acc.
  - destruct acc as [a|]; simpl.
    + split; [left; reflexivity|]. split; [|intros t []].
      intros a' E. injection E as <-. lia.
    + split; [reflexivity | intros t []].
  - change (min_from acc (d :: l))
      with (min_from (match ts_of d with
                      | Some t => opt_min acc t
                      | None => acc
                      end) l).
    destruct (ts_of d) as [t0|] eqn:Ed.
    + apply ts_of_some in Ed. subst d.
      specialize (IH (opt_min acc t0)).
      destruct (min_from (opt_min acc t0) l) as [m|].
      * destruct IH as (Hin & Hacc & Hall).
        assert (Hm : (m <= t0)%Z /\ forall a, acc = Some a -> (m <= a)%Z).
        { destruct acc as [a0|]; simpl in Hacc.
          - pose proof (Hacc _ eq_refl). split; [lia|].
            intros a E. injection E as <-. lia.
          - pose proof (Hacc _ eq_refl). split; [lia|].
            intros a E. discriminate E. }
        destruct Hm as [Hm0 Hma].
        split; [|split; [exact Hma|]].
        -- destruct Hin as [Hin | Hin]; [|right; right; exact Hin].
           destruct acc as [a0|]; simpl in Hin; injection Hin as Hin.
           ++ destruct (Z.min_spec a0 t0) as [[_ E] | [_ E]];
                rewrite E in Hin; subst m;
                [left; reflexivity | right; left; reflexivity].
           ++ subst m. right. left. reflexivity.
        -- intros t [E | Ht]; [injection E as <-; exact Hm0 | apply Hall, Ht].
      * destruct IH as [E _]. destruct acc; discriminate E.
    + specialize (IH acc).
      assert (Hnot : forall t, d <> Timestamp t).
      { intros t E. apply ts_of_some in E. congruence. }
      destruct (min_from acc l) as [m|].
      * destruct IH as (Hin & Hacc & Hall).
        split; [|split; [exact Hacc|]].
        -- destruct Hin as [Hin | Hin]; [left; exact Hin | right; right; exact Hin].
        -- intros t [E | Ht]; [destruct (Hnot t E) | apply Hall, Ht].
      * destruct IH as [E Hno]. split; [exact E|].
        intros t [E' | Ht]; [exact (Hnot t E') | exact (Hno t Ht)].
Qed.

(** The same for [max] *)
Lemma max_from_spec (l : list date_cell) : forall acc : option Z,
  match max_from acc l with
  | None => acc = None /\ (forall t, ~ In (Timestamp t) l)
  | Some m =>
      (acc = Some m \/ In (Timestamp m) l) /\
      (forall a, acc = Some a -> (a <= m)%Z) /\
      (forall t, In (Timestamp t) l -> (t <= m)%Z)
  end.
Proof.
  induction l as [|d l IH]; intro acc.
  - destruct acc as [a|]; simpl.
    + split; [left; reflexivity|]. split; [|intros t []].
      intros a' E. injection E as <-. lia.
    + split; [reflexivity | intros t []].
  - change (max_from acc (d :: l))
      with (max_from (match ts_of d with
                      | Some t => opt_max acc t
                      | None => acc
                      end) l).
    destruct (ts_of d) as [t0|] eqn:Ed.
    + apply ts_of_some in Ed. subst d.
      specialize (IH (opt_max acc t0)).
      destruct (max_from (opt_max acc t0) l) as [m|].
      * destruct IH as (Hin & Hacc & Hall).
        assert (Hm : (t0 <= m)%Z /\ forall a, acc = Some a -> (a <= m)%Z).
        { destruct acc as [a0|]; simpl in Hacc.
          - pose proof (Hacc _ eq_refl). split; [lia|].
            intros a E. injection E as <-. lia.
          - pose proof (Hacc _ eq_refl). split; [lia|].
            intros a E. discriminate E. }
        destruct Hm as [Hm0 Hma].
        split; [|split; [exact Hma|]].
        -- destruct Hin as [Hin | Hin]; [|right; right; exact Hin].
           destruct acc as [a0|]; simpl in Hin; injection Hin as Hin.
           ++ destruct (Z.max_spec a0 t0) as [[_ E] | [_ E]];
                rewrite E in Hin; subst m;
                [right; left; reflexivity | left; reflexivity].
           ++ subst m. right. left. reflexivity.
        -- intros t [E | Ht]; [injection E as <-; exact Hm0 | apply Hall, Ht].
      * destruct IH as [E _]. destruct acc; discriminate E.
    + specialize (IH acc).
      assert (Hnot : forall t, d <> Timestamp t).
      { intros t E. apply ts_of_some in E. congruence. }
      destruct (max_from acc l) as [m|].
      * destruct IH as (Hin & Hacc & Hall).
        split; [|split; [exact Hacc|]].
        -- destruct Hin as [Hin | Hin]; [left; exact Hin | right; right; exact Hin].
        -- intros t [E | Ht]; [destruct (Hnot t E) | apply Hall, Ht].
      * destruct IH as [E Hno]. split; [exact E|].
        intros t [E' | Ht]; [exact (Hnot t E') | exact (Hno t Ht)].
Qed.

(** [min] of a group is its earliest date, [max] its latest; both are
    [NaT] exactly when the group has no date. *)
Lemma date_min_some (l : list date_cell) (a : Z) :
  date_min l = Some a <->
  In (Timestamp a) l /\ forall t, In (Timestamp t) l -> (a <= t)%Z.
Proof.
  unfold date_min. pose proof (min_from_spec l None) as H.
  destruct (min_from None l) as [m|].
  - destruct H as ([E | Hin] & _ & Hall); [discriminate E|]. split.
    + intro E. injection E as <-. split; assumption.
    + intros [Ha Hlow]. f_equal.
      pose proof (Hall a Ha). pose proof (Hlow m Hin). lia.
  - destruct H as [_ Hno]. split; [intro E; discriminate E|].
    intros [Ha _]. destruct (Hno a Ha).
Qed.

Lemma date_max_some (l : list date_cell) (b : Z) :
  date_max l = Some b <->
  In (Timestamp b) l /\ forall t, In (Timestamp t) l -> (t <= b)%Z.
Proof.
  unfold date_max. pose proof (max_from_spec l None) as H.
  destruct (max_from None l) as [m|].
  - destruct H as ([E | Hin] & _ & Hall); [discriminate E|]. split.
    + intro E. injection E as <-. split; assumption.
    + intros [Hb Hup]. f_equal.
      pose proof (Hall b Hb). pose proof (Hup m Hin). lia.
  - destruct H as [_ Hno]. split; [intro E; discriminate E|].
    intros [Hb _]. destruct (Hno b Hb).
Qed.

Lemma date_min_none (l : list date_cell) :
  date_min l = None <-> forall t, ~ In (Timestamp t) l.
Proof.
  unfold date_min. pose proof (min_from_spec l None) as H.
  destruct (min_from None l) as [m|].
  - destruct H as ([E | Hin] & _); [discriminate E|].
    split; [intro E; discriminate E | intro Hno; destruct (Hno m Hin)].
  - destruct H as [_ Hno]. split; [intros _; exact Hno | reflexivity].
Qed.

Lemma date_max_none (l : list date_cell) :
  date_max l = None <-> forall t, ~ In (Timestamp t) l.
Proof.
  unfold date_max. pose proof (max_from_spec l None) as H.
  destruct (max_from None l) as [m|].
  - destruct H as ([E | Hin] & _); [discriminate E|].
    split; [intro E; discriminate E | intro Hno; destruct (Hno m Hin)].
  - destruct H as [_ Hno]. split; [intros _; exact Hno | reflexivity].
Qed.

(** The dates that the aggregation of a key sees are the dates of the
    sales rows of that key. *)
Lemma in_group_dates (S : list SalesRecord) (k : sku_cell) (t : Z) :
  In (Timestamp t) (map s_Date (group_rows k (parse_dates S))) <-> dated S k t.
Proof.
  unfold dated. rewrite group_rows_parse. unfold parse_dates.
  rewrite map_map. simpl. rewrite in_map_iff. split.
  - intros [x [E Hx]]. apply (proj1 (to_datetime_ts _ _)) in E.
    apply in_group_rows in Hx. exists x. tauto.
  - intros [x (Hx & Hk & E)]. exists x. split.
    + rewrite E. reflexivity.
    + apply in_group_rows. tauto.
Qed.

(** C4: every key with a sales row has a rollup row.  Its [Min_Date] and
    [Max_Date] are the earliest and the latest date among the sales rows of
    the key, blank when none of them has a date.  Its [Period_Days] is the
    whole days between the two plus one, or 1 when that value is missing or
    not positive, hence at least 1; its [Avg_Daily_Velocity] is the total of
    units over [Period_Days], and is a non-negative number when the units of
    the key are all non-negative. *)
Theorem aggregator_period_and_velocity :
  forall (S : list SalesRecord) (k : sku_cell),
    In k (map s_SKU S) -> k <> SkuNaN ->
    exists g,
      In g (sales_grouped (parse_dates S)) /\ g_SKU g = k /\
      g_Total_Units_Sold g = F.sum (map s_Units_Sold (group_rows k S)) /\
      (forall a, g_Min_Date g = Some a <-> earliest S k a) /\
      (forall b, g_Max_Date g = Some b <-> latest S k b) /\
      (g_Min_Date g = None <-> forall t, ~ dated S k t) /\
      (g_Max_Date g = None <-> forall t, ~ dated S k t) /\
      (forall a b, earliest S k a -> latest S k b ->
         let computed := ((b - a) / ns_per_day + 1)%Z in
         g_Period_Days g = (if (0 <? computed)%Z then computed else 1%Z) /\
         g_Period_Days g = computed) /\
      ((forall t, ~ dated S k t) -> g_Period_Days g = 1%Z) /\
      (forall a b, g_Min_Date g = Some a -> g_Max_Date g = Some b ->
         let computed := ((b - a) / ns_per_day + 1)%Z in
         g_Period_Days g = (if (0 <? computed)%Z then computed else 1%Z) /\
         g_Period_Days g = computed) /\
      (g_Min_Date g = None \/ g_Max_Date g = None -> g_Period_Days g = 1%Z) /\
      (1 <= g_Period_Days g)%Z /\
      g_Avg_Daily_Velocity g
        = F.div (g_Total_Units_Sold g) (Fin (IZR (g_Period_Days g))) /\
      (Forall is_nonneg (map s_Units_Sold (group_rows k S)) ->
         exists t, g_Total_Units_Sold g = Fin t /\
                   g_Avg_Daily_Velocity g = Fin (t / IZR (g_Period_Days g)) /\
                   0 <= t / IZR (g_Period_Days g)).
Proof.
  intros S k Hin Hna.
  exists (rollup (parse_dates S) k).
  assert (Hp : (1 <= g_Period_Days (rollup (parse_dates S) k))%Z)
    by apply positive_or_1_ge_1.
  assert (Hu : g_Total_Units_Sold (rollup (parse_dates S) k)
               = F.sum (map s_Units_Sold (group_rows k S))).
  { simpl. rewrite group_rows_parse, parse_dates_units. reflexivity. }
  assert (Hmin : forall a, g_Min_Date (rollup (parse_dates S) k) = Some a
                           <-> earliest S k a).
  { intro a. simpl. rewrite date_min_some. unfold earliest.
    rewrite in_group_dates. split; intros [Ha Hlow]; (split; [exact Ha|]);
      intros t Ht; apply Hlow; apply in_group_dates; exact Ht. }
  assert (Hmax : forall b, g_Max_Date (rollup (parse_dates S) k) = Some b
                           <-> latest S k b).
  { intro b. simpl. rewrite date_max_some. unfold latest.
    rewrite in_group_dates. split; intros [Hb Hup]; (split; [exact Hb|]);
      intros t Ht; apply Hup; apply in_group_dates; exact Ht. }
  assert (Hminn : g_Min_Date (rollup (parse_dates S) k) = None
                  <-> forall t, ~ dated S k t).
  { simpl. rewrite date_min_none. split; intros H t Ht;
      apply (H t); apply in_group_dates; exact Ht. }
  assert (Hmaxn : g_Max_Date (rollup (parse_dates S) k) = None
                  <-> forall t, ~ dated S k t).
  { simpl. rewrite date_max_none. split; intros H t Ht;
      apply (H t); apply in_group_dates; exact Ht. }
  assert (Hperiod : forall a b,
            g_Min_Date (rollup (parse_dates S) k) = Some a ->
            g_Max_Date (rollup (parse_dates S) k) = Some b ->
            let computed := ((b - a) / ns_per_day + 1)%Z in
            g_Period_Days (rollup (parse_dates S) k)
              = (if (0 <? computed)%Z then computed else 1%Z) /\
            g_Period_Days (rollup (parse_dates S) k) = computed).
  { intros a b Ha Hb computed. simpl in Ha, Hb |- *.
    rewrite Ha, Hb. simpl. fold computed.
    destruct (date_min_max (map s_Date (group_rows k (parse_dates S))))
      as [[Hn _] | (a' & b' & H1 & H2 & Hle)]; [congruence|].
    assert (a' = a) by congruence. assert (b' = b) by congruence. subst.
    assert (0 <= timedelta_days (b - a))%Z
      by (apply timedelta_days_nonneg; lia).
    unfold timedelta_days in *.
    subst computed.
    assert (Hc : (0 <? (b - a) / ns_per_day + 1)%Z = true)
      by (apply Z.ltb_lt; lia).
    rewrite !Hc. split; reflexivity. }
  assert (Hblank : g_Min_Date (rollup (parse_dates S) k) = None \/
                   g_Max_Date (rollup (parse_dates S) k) = None ->
                   g_Period_Days (rollup (parse_dates S) k) = 1%Z).
  { simpl. intros [H | H]; rewrite H; [reflexivity|].
    destruct (date_min _); reflexivity. }
  split; [|split; [reflexivity | split; [exact Hu|]]].
  { apply in_sales_grouped. exists k. split; [|reflexivity].
    apply group_keys_spec. rewrite parse_dates_SKU. split; assumption. }
  split; [exact Hmin|]. split; [exact Hmax|].
  split; [exact Hminn|]. split; [exact Hmaxn|].
  split; [intros a b Ha Hb; apply Hperiod; [apply Hmin | apply Hmax];
          assumption|].
  split; [intro Hno; apply Hblank; left; apply Hminn; exact Hno|].
  split; [exact Hperiod|]. split; [exact Hblank|].
  split; [exact Hp|]. split; [reflexivity|].
  intro Hall. destruct (sum_nonneg _ Hall) as [t [Ht Ht0]].
  exists t. rewrite Hu.
  assert (Hpos : 0 < IZR (g_Period_Days (rollup (parse_dates S) k)))
    by (apply IZR_lt; lia).
  split; [exact Ht|]. split.
  + change (g_Avg_Daily_Velocity (rollup (parse_dates S) k))
      with (F.div (g_Total_Units_Sold (rollup (parse_dates S) k))
                  (ofZ (g_Period_Days (rollup (parse_dates S) k)))).
    rewrite Hu, Ht. unfold ofZ, F.div.
    destruct (Req_dec_T _ 0) as [E|_]; [lra | reflexivity].
  + unfold Rdiv. apply Rmult_le_pos; [exact Ht0|].
    left. apply Rinv_0_lt_compat. exact Hpos.
Qed.

Lemma scenario_A_first_sale :
  earliest scenario_A_sales (SkuStr "A1") (19723 * ns_per_day).
Proof.
  split.
  - eexists. split; [left; reflexivity|]. split; reflexivity.
  - intros t (x & Hx & _ & Hd).
    destruct Hx as [<- | [<- | [<- | []]]]; injection Hd as <-;
      vm_compute; discriminate.
Defined.

Lemma scenario_A_last_sale :
  latest scenario_A_sales (SkuStr "A1") (19742 * ns_per_day).
Proof.
  split.
  - eexists. split; [right; right; left; reflexivity|]. split; reflexivity.
  - intros t (x & Hx & _ & Hd).
    destruct Hx as [<- | [<- | [<- | []]]]; injection Hd as <-;
      vm_compute; discriminate.
Defined.

Lemma aggregator_period_and_velocity_witness :
  exists g t,
    In g (sales_grouped (parse_dates scenario_A_sales)) /\
    g_SKU g = SkuStr "A1" /\
    g_Min_Date g = Some (19723 * ns_per_day)%Z /\
    g_Max_Date g = Some (19742 * ns_per_day)%Z /\
    g_Period_Days g = 20%Z /\
    g_Avg_Daily_Velocity g = Fin (t / IZR (g_Period_Days g)) /\
    0 <= t / IZR (g_Period_Days g).
Proof.
  destruct (aggregator_period_and_velocity scenario_A_sales (SkuStr "A1")
              (or_introl eq_refl) ltac:(discriminate))
    as (g & Hin & Hk & _ & Hmin & Hmax & _ & _ & Hperiod & _ & _ & _ & _
        & _ & Hv).
  destruct Hv as (t & _ & Hvel & Hpos).
  { cbn. repeat constructor; simpl; lra. }
  destruct (Hperiod _ _ scenario_A_first_sale scenario_A_last_sale)
    as [_ H20].
  exists g, t.
  split; [exact Hin|]. split; [exact Hk|].
  split; [apply Hmin; exact scenario_A_first_sale|].
  split; [apply Hmax; exact scenario_A_last_sale|].
  split; [exact H20|]. split; assumption.
Defined.

(** ** Float cells, continued *)

Lemma div_fin (x y : R) : y <> 0 -> F.div (Fin x) (Fin y) = Fin (x / y).
Proof.
  intro Hy. unfold F.div. destruct (Req_dec_T y 0); [contradiction | reflexivity].
Qed.

Lemma ltb_fin_true (x y : R) : x < y -> F.ltb (Fin x) (Fin y) = true.
Proof. intro H. unfold F.ltb. destruct (Rlt_dec x y); [reflexivity | contradiction]. Qed.

Lemma ltb_fin_false (x y : R) : y <= x -> F.ltb (Fin x) (Fin y) = false.
Proof. intro H. unfold F.ltb. destruct (Rlt_dec x y); [lra | reflexivity]. Qed.

Lemma ltb_fin_inv (x y : R) : F.ltb (Fin x) (Fin y) = true -> x < y.
Proof. unfold F.ltb. destruct (Rlt_dec x y); [trivial | discriminate]. Qed.

Lemma fillna_not_nan (v : R) (a : fnum) : F.fillna v a <> NaN.
Proof. destruct a; simpl; discriminate. Qed.

Lemma logistic_pos (x : R) : 0 < logistic x.
Proof.
  unfold logistic. apply Rinv_0_lt_compat.
  pose proof (exp_pos (- x)). lra.
Qed.

Lemma logistic_lt_1 (x : R) : logistic x < 1.
Proof.
  unfold logistic. pose proof (exp_pos (- x)) as He.
  rewrite <- Rinv_1 at 2. apply Rinv_lt_contravar; lra.
Qed.

Lemma clamp_bounds (x : R) : 0 <= clamp_0_100 x <= 100.
Proof.
  unfold clamp_0_100. split.
  - apply Rmin_glb; [apply Rmax_r | lra].
  - apply Rmin_r.
Qed.

Lemma clamp_id (x : R) : 0 <= x <= 100 -> clamp_0_100 x = x.
Proof.
  intros [H0 H1]. unfold clamp_0_100.
  rewrite Rmax_left by lra. rewrite Rmin_left by lra. reflexivity.
Qed.

Lemma clamp_top (x : R) : 100 <= x -> clamp_0_100 x = 100.
Proof.
  intro H. unfold clamp_0_100.
  rewrite Rmax_left by lra. rewrite Rmin_right by lra. reflexivity.
Qed.

(** ** The rows of the output *)

Lemma in_merge_left (L : list InventoryRecord) (Rt : list SkuRollup)
    (m : MergedRow) :
  In m (merge_left L Rt) <->
  exists i, In i L /\
    ((matches i Rt = [] /\ m = unmatched i) \/
     (exists g, In g (matches i Rt) /\ m = matched i g)).
Proof.
  unfold merge_left. rewrite in_flat_map. split.
  - intros [i [Hi Hm]]. exists i. split; [exact Hi|].
    destruct (matches i Rt) as [|g0 ms] eqn:E.
    + left. destruct Hm as [Hm|[]]. split; congruence.
    + right. apply in_map_iff in Hm. destruct Hm as [g [Hg Hin]].
      exists g. split; congruence.
  - intros [i [Hi [[E Hm] | [g [Hg Hm]]]]]; exists i; (split; [exact Hi|]).
    + rewrite E. left. congruence.
    + destruct (matches i Rt) as [|g0 ms] eqn:E; [destruct Hg|].
      apply in_map_iff. exists g. split; congruence.
Qed.

Lemma in_matches (i : InventoryRecord) (Rt : list SkuRollup) (g : SkuRollup) :
  In g (matches i Rt) <-> In g Rt /\ g_SKU g = i_SKU i.
Proof. unfold matches. rewrite filter_In, sku_eqb_eq. reflexivity. Qed.

Lemma in_right_table (S : list SalesRecord) (g : SkuRollup) :
  In g (right_table S) <->
  exists k, In k (map s_SKU S) /\ k <> SkuNaN /\
            g = rollup_astype_str (rollup (parse_dates S) k).
Proof.
  unfold right_table. rewrite in_map_iff. split.
  - intros [g0 [E Hg0]]. apply in_sales_grouped in Hg0.
    destruct Hg0 as [k [Hk Eg]]. apply group_keys_spec in Hk.
    rewrite parse_dates_SKU in Hk. exists k. subst. tauto.
  - intros [k [Hk [Hna E]]]. exists (rollup (parse_dates S) k).
    split; [congruence|]. apply in_sales_grouped. exists k.
    split; [|reflexivity]. apply group_keys_spec.
    rewrite parse_dates_SKU. tauto.
Qed.

(** Every row of the output comes from one inventory row, joined either
    with nothing or with one rollup row of the same normalised key. *)
Lemma in_enriched (S : list SalesRecord) (I : list InventoryRecord)
    (r : EnrichedItem) :
  In r (enriched S I) <->
  exists i, In i I /\
    ((matches (inventory_astype_str i) (right_table S) = [] /\
      r = derive (fill_sales (unmatched (inventory_astype_str i)))) \/
     (exists g, In g (right_table S) /\ g_SKU g = astype_str (i_SKU i) /\
        r = derive (fill_sales (matched (inventory_astype_str i) g)))).
Proof.
  unfold enriched, process_inventory. simpl merged_df.
  fold (right_table S). rewrite map_map, in_map_iff. split.
  - intros [m [Er Hm]]. apply in_merge_left in Hm.
    destruct Hm as [i' [Hi' Hcase]]. apply in_map_iff in Hi'.
    destruct Hi' as [i [Ei Hi]]. subst i'. exists i. split; [exact Hi|].
    destruct Hcase as [[E Hm] | [g [Hg Hm]]].
    + left. split; congruence.
    + right. exists g. apply in_matches in Hg. destruct Hg as [Hg Hk].
      repeat split; [exact Hg | exact Hk | congruence].
  - intros [i [Hi Hcase]].
    destruct Hcase as [[E Er] | [g [Hg [Hk Er]]]].
    + exists (unmatched (inventory_astype_str i)). split; [congruence|].
      apply in_merge_left. exists (inventory_astype_str i).
      split; [apply in_map; exact Hi | left; split; [exact E | reflexivity]].
    + exists (matched (inventory_astype_str i) g). split; [congruence|].
      apply in_merge_left. exists (inventory_astype_str i).
      split; [apply in_map; exact Hi|]. right. exists g.
      split; [|reflexivity]. apply in_matches. split; assumption.
Qed.

(** A weaker view: a row is [derive] of a merged row whose sales columns
    were filled. *)
Lemma enriched_derive (S : list SalesRecord) (I : list InventoryRecord)
    (r : EnrichedItem) :
  In r (enriched S I) -> exists m, r = derive (fill_sales m).
Proof.
  intro H. apply in_enriched in H. destruct H as [i [_ [[_ E] | [g [_ [_ E]]]]]];
    eexists; exact E.
Qed.

(** An item without sales is joined with nothing. *)
Lemma enriched_no_sales (S : list SalesRecord) (I : list InventoryRecord)
    (r : EnrichedItem) :
  In r (enriched S I) -> no_sales S (SKU r) ->
  exists i, In i I /\
    r = derive (fill_sales (unmatched (inventory_astype_str i))).
Proof.
  intros H Hno. apply in_enriched in H.
  destruct H as [i [Hi [[_ E] | [g [Hg [Hk E]]]]]].
  - exists i. split; assumption.
  - exfalso. apply in_right_table in Hg.
    destruct Hg as [k [Hin [Hna Eg]]].
    apply in_map_iff in Hin. destruct Hin as [x [Ex Hx]].
    apply (Hno x Hx); [congruence|].
    rewrite E. simpl. rewrite Ex, <- Hk, Eg. reflexivity.
Qed.

(** [Days_of_Cover] is a number as soon as the stock is one. *)
Lemma days_of_cover_fin (s : R) (v : fnum) :
  v <> NaN -> exists d, F.div (Fin s) (F.replace 0 (1 / 1000) v) = Fin d.
Proof.
  intro Hv. destruct v as [x| | |]; try contradiction.
  - unfold F.replace, F.eqb. destruct (Req_dec_T x 0).
    + exists (s / (1 / 1000)). apply div_fin. lra.
    + exists (s / x). apply div_fin. assumption.
  - exists 0. reflexivity.
  - exists 0. reflexivity.
Qed.

Lemma risk_penalty_cases (v : fnum) :
  (F.ltb v (Fin (5 / 10)) = true /\ risk_penalty v = Fin 30) \/
  (F.ltb v (Fin (5 / 10)) = false /\ risk_penalty v = Fin 0).
Proof. unfold risk_penalty. destruct (F.ltb v _); [left | right]; split; reflexivity. Qed.

(** The score of a row in closed form *)
Lemma derive_score (m : MergedRow) (s : R) :
  i_Current_Stock (m_inv m) = Fin s -> m_Avg_Daily_Velocity m <> NaN ->
  exists d p,
    Days_of_Cover (derive m) = Fin d /\
    Death_Risk_Base (derive m) = Fin (logistic ((d - 60) / 30) * 100) /\
    Risk_Penalty (derive m) = Fin p /\
    ((F.ltb (m_Avg_Daily_Velocity m) (Fin (5 / 10)) = true /\ p = 30) \/
     (F.ltb (m_Avg_Daily_Velocity m) (Fin (5 / 10)) = false /\ p = 0)) /\
    Death_Risk_Score (derive m)
      = Fin (clamp_0_100 (logistic ((d - 60) / 30) * 100 + p)).
Proof.
  intros Hs Hv.
  destruct (days_of_cover_fin s _ Hv) as [d Hd].
  assert (Hbase : Death_Risk_Base (derive m)
                  = Fin (logistic ((d - 60) / 30) * 100)).
  { simpl. rewrite Hs, Hd. unfold F.sub, F.neg, F.add.
    rewrite div_fin by lra. reflexivity. }
  assert (Hscore : Death_Risk_Score (derive m)
                   = F.clip 0 100 (F.add (Death_Risk_Base (derive m))
                                         (Risk_Penalty (derive m))))
    by reflexivity.
  destruct (risk_penalty_cases (m_Avg_Daily_Velocity m)) as [[Hl Hp] | [Hl Hp]].
  - exists d, 30. rewrite Hscore, Hbase.
    change (Risk_Penalty (derive m)) with
      (risk_penalty (m_Avg_Daily_Velocity m)). rewrite Hp.
    repeat split; try reflexivity; [simpl; rewrite Hs; exact Hd | tauto].
  - exists d, 0. rewrite Hscore, Hbase.
    change (Risk_Penalty (derive m)) with
      (risk_penalty (m_Avg_Daily_Velocity m)). rewrite Hp.
    repeat split; try reflexivity; [simpl; rewrite Hs; exact Hd | tauto].
Qed.

(** ** Numerical bounds on the exponential

    [1 + x <= exp x <= 1 / (1 - x)] near 0, carried to larger arguments by
    repeated squaring with outward rounding. *)

Lemma exp_base_bounds (x : R) : x < 1 -> 1 + x <= exp x <= / (1 - x).
Proof.
  intro Hx. split; [apply exp_ineq1_le|].
  pose proof (exp_ineq1_le (- x)) as Hn.
  rewrite <- (Ropp_involutive x) at 1. rewrite exp_Ropp.
  apply Rinv_le_contravar; lra.
Qed.

Lemma exp_square_bounds (x lo hi lo' hi' : R) :
  lo <= exp x <= hi -> 0 <= lo -> lo' <= lo * lo -> hi * hi <= hi' ->
  lo' <= exp (2 * x) <= hi'.
Proof.
  intros [Hlo Hhi] H0 Hl Hh.
  replace (2 * x) with (x + x) by lra. rewrite exp_plus.
  split; nra.
Qed.

Lemma exp_2_bounds : 7374 / 1000 <= exp 2 <= 7404 / 1000.
Proof.
  assert (H0 : 513 / 512 <= exp (2 / 1024) <= 512 / 511).
  { pose proof (exp_base_bounds (2 / 1024)) as H.
    replace (1 + 2 / 1024) with (513 / 512) in H by lra.
    replace (/ (1 - 2 / 1024)) with (512 / 511) in H by lra.
    apply H. lra. }
  assert (H1 : 5019550323 / 5000000000 <= exp (2 / 512) <= 250979431 / 250000000).
  { replace (2 / 512) with (2 * (2 / 1024)) by lra.
    apply exp_square_bounds with (1 := H0); lra. }
  assert (H2 : 5039177089 / 5000000000 <= exp (2 / 256) <= 5039253983 / 5000000000).
  { replace (2 / 256) with (2 * (2 / 512)) by lra.
    apply exp_square_bounds with (1 := H1); lra. }
  assert (H3 : 10157322293 / 10000000000 <= exp (2 / 128) <= 10157632283 / 10000000000).
  { replace (2 / 128) with (2 * (2 / 256)) by lra.
    apply exp_square_bounds with (1 := H2); lra. }
  assert (H4 : 80602497 / 78125000 <= exp (2 / 64) <= 128971867 / 125000000).
  { replace (2 / 64) with (2 * (2 / 128)) by lra.
    apply exp_square_bounds with (1 := H3); lra. }
  assert (H5 : 10644295717 / 10000000000 <= exp (2 / 32) <= 5322797593 / 5000000000).
  { replace (2 / 32) with (2 * (2 / 64)) by lra.
    apply exp_square_bounds with (1 := H4); lra. }
  assert (H6 : 11330103131 / 10000000000 <= exp (2 / 16) <= 11332869687 / 10000000000).
  { replace (2 / 16) with (2 * (2 / 32)) by lra.
    apply exp_square_bounds with (1 := H5); lra. }
  assert (H7 : 2567424739 / 2000000000 <= exp (2 / 8) <= 2568678707 / 2000000000).
  { replace (2 / 8) with (2 * (2 / 16)) by lra.
    apply exp_square_bounds with (1 := H6); lra. }
  assert (H8 : 4119793619 / 2500000000 <= exp (2 / 4) <= 65981103 / 40000000).
  { replace (2 / 4) with (2 * (2 / 8)) by lra.
    apply exp_square_bounds with (1 := H7); lra. }
  assert (H9 : 27156319141 / 10000000000 <= exp (2 / 2) <= 27209412207 / 10000000000).
  { replace (2 / 2) with (2 * (2 / 4)) by lra.
    apply exp_square_bounds with (1 := H8); lra. }
  assert (H10 : 4609160433 / 625000000 <= exp (2 / 1) <= 37017605633 / 5000000000).
  { replace (2 / 1) with (2 * (2 / 2)) by lra.
    apply exp_square_bounds with (1 := H9); lra. }
  replace 2 with (2 / 1) by lra. lra.
Qed.

Lemma exp_2_21_bounds : 10993 / 10000 <= exp (2 / 21) <= 11006 / 10000.
Proof.
  assert (H0 : 85 / 84 <= exp (2 / 168) <= 84 / 83).
  { pose proof (exp_base_bounds (2 / 168)) as H.
    replace (1 + 2 / 168) with (85 / 84) in H by lra.
    replace (/ (1 - 2 / 168)) with (84 / 83) in H by lra.
    apply H. lra. }
  assert (H1 : 10239512471 / 10000000000 <= exp (2 / 84) <= 2048483089 / 2000000000).
  { replace (2 / 84) with (2 * (2 / 168)) by lra.
    apply exp_square_bounds with (1 := H0); lra. }
  assert (H2 : 2621190391 / 2500000000 <= exp (2 / 42) <= 2098141483 / 2000000000).
  { replace (2 / 42) with (2 * (2 / 84)) by lra.
    apply exp_square_bounds with (1 := H1); lra. }
  assert (H3 : 2198604501 / 2000000000 <= exp (2 / 21) <= 11005494207 / 10000000000).
  { replace (2 / 21) with (2 * (2 / 42)) by lra.
    apply exp_square_bounds with (1 := H2); lra. }
  lra.
Qed.

Lemma logistic_ge (x c : R) : 0 < c -> / c <= exp x -> / (1 + c) <= logistic x.
Proof.
  intros Hc H. unfold logistic. rewrite exp_Ropp.
  pose proof (exp_pos x) as He.
  assert (Hi : / exp x <= c).
  { rewrite <- (Rinv_inv c). apply Rinv_le_contravar;
      [apply Rinv_0_lt_compat; exact Hc | exact H]. }
  pose proof (Rinv_0_lt_compat _ He).
  apply Rinv_le_contravar; lra.
Qed.

Lemma logistic_le (x c : R) : 0 < c -> exp x <= / c -> logistic x <= / (1 + c).
Proof.
  intros Hc H. unfold logistic. rewrite exp_Ropp.
  pose proof (exp_pos x) as He.
  assert (Hi : c <= / exp x).
  { rewrite <- (Rinv_inv c). apply Rinv_le_contravar; [exact He | exact H]. }
  apply Rinv_le_contravar; lra.
Qed.

(** ** Risk score *)

(** C1, as the code has it: in every output row the base is the logistic
    of [(Days_of_Cover - 60) / 30] times 100, the penalty is 30 when
    [Avg_Daily_Velocity < 0.5] and 0 otherwise, and the score is their sum
    clipped to [0, 100]; when the stock of the row is a number, all three
    are numbers and the score lies between 0 and 100. *)
Theorem risk_score_formula :
  forall (S : list SalesRecord) (I : list InventoryRecord) (r : EnrichedItem),
    In r (enriched S I) ->
    Death_Risk_Base r
      = F.mul (F.expit (F.div (F.sub (Days_of_Cover r) (Fin 60)) (Fin 30)))
              (Fin 100) /\
    Risk_Penalty r
      = (if F.ltb (Avg_Daily_Velocity r) (Fin (5 / 10)) then Fin 30 else Fin 0) /\
    Death_Risk_Score r
      = F.clip 0 100 (F.add (Death_Risk_Base r) (Risk_Penalty r)) /\
    forall s, Current_Stock r = Fin s ->
      exists d p v,
        Days_of_Cover r = Fin d /\
        Death_Risk_Base r = Fin (/ (1 + exp (- ((d - 60) / 30))) * 100) /\
        Risk_Penalty r = Fin p /\
        ((F.ltb (Avg_Daily_Velocity r) (Fin (5 / 10)) = true /\ p = 30) \/
         (F.ltb (Avg_Daily_Velocity r) (Fin (5 / 10)) = false /\ p = 0)) /\
        Death_Risk_Score r = Fin v /\
        v = Rmin (Rmax (/ (1 + exp (- ((d - 60) / 30))) * 100 + p) 0) 100 /\
        0 <= v <= 100.
Proof.
  intros S I r Hin.
  destruct (enriched_derive _ _ _ Hin) as [m Er]. subst r.
  split; [reflexivity | split; [reflexivity | split; [reflexivity|]]].
  intros s Hs.
  destruct (derive_score (fill_sales m) s Hs (fillna_not_nan 0 _))
    as (d & p & Hd & Hb & Hp & Hv & Hsc).
  exists d, p, (clamp_0_100 (logistic ((d - 60) / 30) * 100 + p)).
  repeat split; try assumption; try reflexivity; apply clamp_bounds.
Qed.

Lemma risk_score_formula_witness :
  exists r v, In r (enriched [] scenario_B_inventory) /\
              Death_Risk_Score r = Fin v /\ 0 <= v <= 100.
Proof.
  pose (r := never_sold_row item_B2).
  assert (Hin : In r (enriched [] scenario_B_inventory))
    by (left; reflexivity).
  destruct (risk_score_formula [] scenario_B_inventory r Hin)
    as (_ & _ & _ & H).
  destruct (H 10 eq_refl) as (d & p & v & _ & _ & _ & _ & Hv & _ & Hb).
  exists r, v. split; [exact Hin | split; [exact Hv | exact Hb]].
Defined.

(** C1 as stated fails: the row of an item whose stock cell is blank has a
    blank score, which is no number between 0 and 100. *)
Lemma blank_stock_score_out_of_range :
  In (never_sold_row item_null_stock) (enriched [] [item_null_stock]) /\
  Death_Risk_Score (never_sold_row item_null_stock) = NaN /\
  ~ (exists v, Death_Risk_Score (never_sold_row item_null_stock) = Fin v /\
               0 <= v <= 100).
Proof.
  split; [left; reflexivity|]. split; [reflexivity|].
  intros [v [H _]]. discriminate H.
Qed.

(** The score of a slow mover: the penalty survives the clip. *)
Lemma slow_mover_score (m : MergedRow) (s : R) :
  i_Current_Stock (m_inv m) = Fin s -> m_Avg_Daily_Velocity m <> NaN ->
  F.ltb (m_Avg_Daily_Velocity m) (Fin (5 / 10)) = true ->
  exists v, Death_Risk_Score (derive m) = Fin v /\ 30 <= v <= 100.
Proof.
  intros Hs Hv Hl.
  destruct (derive_score m s Hs Hv) as (d & p & _ & _ & _ & Hp & Hsc).
  destruct Hp as [[_ Hp] | [Hf _]]; [subst p | congruence].
  eexists. split; [exact Hsc|].
  pose proof (logistic_pos ((d - 60) / 30)) as Hpos.
  pose proof (clamp_bounds (logistic ((d - 60) / 30) * 100 + 30)) as [_ Hhi].
  split; [|exact Hhi].
  unfold clamp_0_100. apply Rmin_glb; [|lra].
  apply Rle_trans with (logistic ((d - 60) / 30) * 100 + 30); [lra | apply Rmax_l].
Qed.

(** The columns of a never-sold item *)
Lemma never_sold_columns (i : InventoryRecord) :
  let r := derive (fill_sales (unmatched i)) in
  Total_Units_Sold r = Fin 0 /\ Total_Revenue r = Fin 0 /\
  Avg_Daily_Velocity r = Fin 0 /\ Period_Days r = None /\
  Current_Stock r = i_Current_Stock i /\
  Days_of_Cover r = F.div (i_Current_Stock i) (Fin (1 / 1000)) /\
  Risk_Penalty r = Fin 30.
Proof.
  simpl. repeat split; try reflexivity.
  - unfold F.replace, F.eqb. destruct (Req_dec_T 0 0); [reflexivity | lra].
  - unfold risk_penalty. rewrite ltb_fin_true by lra. reflexivity.
Qed.

(** The score of a never-sold item whose stock is the number [s] *)
Lemma never_sold_score (i : InventoryRecord) (s : R) :
  i_Current_Stock i = Fin s ->
  let r := derive (fill_sales (unmatched i)) in
  Days_of_Cover r = Fin (s / (1 / 1000)) /\
  Death_Risk_Score r
    = Fin (clamp_0_100 (logistic ((s / (1 / 1000) - 60) / 30) * 100 + 30)).
Proof.
  intros Hs r.
  assert (Hv : m_Avg_Daily_Velocity (fill_sales (unmatched i)) <> NaN)
    by apply fillna_not_nan.
  destruct (derive_score (fill_sales (unmatched i)) s Hs Hv)
    as (d & p & Hd & _ & Hp & _ & Hsc).
  destruct (never_sold_columns i) as (_ & _ & _ & _ & _ & Hd' & Hp').
  fold r in Hd, Hp, Hsc, Hd', Hp'.
  rewrite Hs, div_fin in Hd' by lra.
  assert (d = s / (1 / 1000)) by congruence.
  assert (p = 30) by congruence. subst d p.
  split; assumption.
Qed.

Lemma logistic_ge_07 (x : R) : 7 / 10 <= logistic x <-> ln (7 / 3) <= x.
Proof.
  assert (H73 : exp (ln (7 / 3)) = 7 / 3) by (apply exp_ln; lra).
  pose proof (exp_pos x) as He. pose proof (exp_pos (- x)) as Hn.
  assert (Hinv : exp (- x) * exp x = 1).
  { rewrite <- exp_plus. replace (- x + x) with 0 by lra. apply exp_0. }
  assert (Hl : logistic x * (1 + exp (- x)) = 1).
  { unfold logistic. apply Rinv_l. lra. }
  pose proof (logistic_pos x) as Hlp.
  split; intro H.
  - destruct (Rle_or_lt (ln (7 / 3)) x) as [Hle | Hlt]; [exact Hle|].
    exfalso. apply exp_increasing in Hlt. rewrite H73 in Hlt. nra.
  - assert (Hx : 7 / 3 <= exp x).
    { destruct H as [H | H].
      - apply exp_increasing in H. lra.
      - rewrite <- H. lra. }
    nra.
Qed.

Lemma saturation_stock_below_tenth : saturation_stock < 1 / 10.
Proof.
  unfold saturation_stock.
  assert (ln (7 / 3) < 4 / 3); [|lra].
  apply exp_lt_inv. rewrite exp_ln by lra.
  pose proof (exp_ineq1 (4 / 3)). lra.
Qed.

Lemma ln_7_3_pos : 0 < ln (7 / 3).
Proof. rewrite <- ln_1. apply ln_increasing; lra. Qed.

Lemma saturation_stock_above_twentieth : 5 / 100 < saturation_stock.
Proof. unfold saturation_stock. pose proof ln_7_3_pos. lra. Qed.

Lemma never_sold_saturated (i : InventoryRecord) (s : R) :
  i_Current_Stock i = Fin s ->
  (Death_Risk_Score (derive (fill_sales (unmatched i))) = Fin 100
   <-> saturation_stock <= s).
Proof.
  intro Hs. destruct (never_sold_score i s Hs) as [_ Hsc]. rewrite Hsc.
  set (x := (s / (1 / 1000) - 60) / 30).
  pose proof (logistic_pos x) as Hp. pose proof (logistic_lt_1 x) as H1.
  pose proof (logistic_ge_07 x) as Hiff.
  assert (Hx : ln (7 / 3) <= x <-> saturation_stock <= s).
  { unfold x, saturation_stock. split; intro H; lra. }
  rewrite <- Hx, <- Hiff.
  split; intro H.
  - destruct (Rle_or_lt (7 / 10) (logistic x)) as [Hle | Hlt]; [exact Hle|].
    exfalso. rewrite clamp_id in H by lra.
    assert (logistic x * 100 + 30 = 100) by congruence. lra.
  - rewrite clamp_top by lra. reflexivity.
Qed.

Lemma no_sales_nil (key : sku_cell) : no_sales [] key.
Proof. intros x []. Qed.

Lemma logistic_neg_2 : logistic ((0 / (1 / 1000) - 60) / 30) = logistic (-2).
Proof. f_equal. lra. Qed.

Lemma logistic_neg_2_bounds :
  1189 / 10000 < logistic (-2) < 1195 / 10000.
Proof.
  pose proof exp_2_bounds as [Hlo Hhi].
  assert (Hl : logistic (-2) * (1 + exp 2) = 1).
  { unfold logistic. replace (- (-2)) with 2 by lra. apply Rinv_l.
    pose proof (exp_pos 2). lra. }
  pose proof (logistic_pos (-2)) as Hp.
  split; nra.
Qed.

(** C10, as the code has it: a row whose velocity is below 0.5 and whose
    stock is a number scores at least 30; a never-sold item with no stock
    has no cover and scores [100 * logistic(-2) + 30], about 41.9. *)
Theorem slow_mover_floor :
  forall (S : list SalesRecord) (I : list InventoryRecord) (r : EnrichedItem)
         (s : R),
    In r (enriched S I) -> Current_Stock r = Fin s ->
    (F.ltb (Avg_Daily_Velocity r) (Fin (5 / 10)) = true ->
       exists v, Death_Risk_Score r = Fin v /\ 30 <= v <= 100) /\
    (no_sales S (SKU r) -> s = 0 ->
       Avg_Daily_Velocity r = Fin 0 /\
       Days_of_Cover r = Fin 0 /\
       Death_Risk_Score r = Fin (100 * / (1 + exp (- (-2))) + 30) /\
       4189 / 100 < 100 * / (1 + exp (- (-2))) + 30 < 4195 / 100).
Proof.
  intros S I r s Hin Hs. split.
  - intro Hl. destruct (enriched_derive _ _ _ Hin) as [m Er]. subst r.
    apply slow_mover_score with (s := s);
      [exact Hs | apply fillna_not_nan | exact Hl].
  - intros Hno H0. subst s.
    destruct (enriched_no_sales S I r Hin Hno) as [i [_ Er]]. subst r.
    destruct (never_sold_columns (inventory_astype_str i))
      as (_ & _ & Hv & _ & _ & _ & _).
    destruct (never_sold_score (inventory_astype_str i) 0 Hs) as [Hd Hsc].
    pose proof logistic_neg_2_bounds as Hb. fold (logistic (-2)).
    split; [exact Hv|]. split; [|split; [|lra]].
    + rewrite Hd. f_equal. lra.
    + rewrite Hsc, logistic_neg_2, clamp_id by lra. f_equal. lra.
Qed.

Lemma slow_mover_floor_witness :
  exists r v, In r (enriched [] [item_no_stock]) /\
              Days_of_Cover r = Fin 0 /\
              Death_Risk_Score r = Fin v /\ 30 <= v <= 100.
Proof.
  pose (r := never_sold_row item_no_stock).
  assert (Hin : In r (enriched [] [item_no_stock])) by (left; reflexivity).
  destruct (slow_mover_floor [] [item_no_stock] r 0 Hin eq_refl) as [Hslow Hnone].
  destruct (Hnone (no_sales_nil (SKU r)) eq_refl) as (Hv & Hd & _ & _).
  destruct (Hslow (eq_trans (f_equal (fun a => F.ltb a (Fin (5 / 10))) Hv)
                            (ltb_fin_true 0 (5 / 10) ltac:(lra))))
    as [v [Hsc Hb]].
  exists r, v. repeat split; try assumption; apply Hb.
Defined.

(** C10 as stated fails: the row of a never-sold item whose stock cell is
    blank has a velocity of 0, below 0.5, and a blank score, which is no
    number of at least 30. *)
Lemma blank_stock_slow_mover_unscored :
  In (never_sold_row item_null_stock) (enriched [] [item_null_stock]) /\
  Avg_Daily_Velocity (never_sold_row item_null_stock) = Fin 0 /\
  0 < 5 / 10 /\
  Death_Risk_Score (never_sold_row item_null_stock) = NaN /\
  ~ (exists v, Death_Risk_Score (never_sold_row item_null_stock) = Fin v /\
               30 <= v).
Proof.
  split; [left; reflexivity|]. split; [reflexivity|]. split; [lra|].
  split; [reflexivity|]. intros [v [H _]]. discriminate H.
Qed.

(** ** Items without sales *)

(** C3, as the code has it: an item that matches no row of the rollup gets
    zero units, revenue and velocity and [Current_Stock / 0.001] days of
    cover; its score is exactly 100 when, and only when, the stock is at
    least [(60 + 30 ln (7/3)) / 1000], which is less than 0.1. *)
Theorem never_sold_saturation :
  forall (S : list SalesRecord) (I : list InventoryRecord) (r : EnrichedItem),
    In r (enriched S I) -> no_sales S (SKU r) ->
    Total_Units_Sold r = Fin 0 /\ Total_Revenue r = Fin 0 /\
    Avg_Daily_Velocity r = Fin 0 /\
    Days_of_Cover r = F.div (Current_Stock r) (Fin (1 / 1000)) /\
    forall s, Current_Stock r = Fin s ->
      Days_of_Cover r = Fin (s / (1 / 1000)) /\
      (Death_Risk_Score r = Fin 100 <-> saturation_stock <= s) /\
      (1 / 10 <= s -> Death_Risk_Score r = Fin 100).
Proof.
  intros S I r Hin Hno.
  destruct (enriched_no_sales S I r Hin Hno) as [i [_ Er]]. subst r.
  destruct (never_sold_columns (inventory_astype_str i))
    as (Hu & Hr & Hv & _ & Hc & Hd & _).
  split; [exact Hu|]. split; [exact Hr|]. split; [exact Hv|].
  split; [exact Hd|].
  intros s Hs.
  destruct (never_sold_score (inventory_astype_str i) s Hs) as [Hd' _].
  pose proof (never_sold_saturated (inventory_astype_str i) s Hs) as Hiff.
  split; [exact Hd' | split; [exact Hiff|]].
  intro H10. apply Hiff. pose proof saturation_stock_below_tenth. lra.
Qed.

Lemma never_sold_saturation_witness :
  In (never_sold_row item_B2) (enriched [] scenario_B_inventory) /\
  Days_of_Cover (never_sold_row item_B2) = Fin (10 / (1 / 1000)) /\
  Death_Risk_Score (never_sold_row item_B2) = Fin 100.
Proof.
  assert (Hin : In (never_sold_row item_B2) (enriched [] scenario_B_inventory))
    by (left; reflexivity).
  destruct (never_sold_saturation [] scenario_B_inventory
              (never_sold_row item_B2) Hin (no_sales_nil _))
    as (_ & _ & _ & _ & H).
  destruct (H 10 eq_refl) as (Hd & _ & H100).
  split; [exact Hin | split; [exact Hd | apply H100; lra]].
Defined.

(** C3 as stated fails: a never-sold item with 0.05 units in stock has a
    positive stock and a score below 100. *)
Lemma never_sold_small_stock_below_100 :
  exists r s,
    In r (enriched [] [item_small_stock]) /\ no_sales [] (SKU r) /\
    Current_Stock r = Fin s /\ 0 < s /\
    Death_Risk_Score r <> Fin 100.
Proof.
  exists (never_sold_row item_small_stock), (5 / 100).
  split; [left; reflexivity|]. split; [apply no_sales_nil|].
  split; [reflexivity|]. split; [lra|].
  intro H.
  apply (never_sold_saturated (inventory_astype_str item_small_stock)
           (5 / 100) eq_refl) in H.
  pose proof ln_7_3_pos as Hp. unfold saturation_stock in H. lra.
Qed.

(** ** Sell-through *)

Lemma sell_through_fin (t c : R) :
  (0 < t + c -> sell_through (Fin t) (Fin c) = Fin (t / (t + c))) /\
  (t + c <= 0 -> sell_through (Fin t) (Fin c) = Fin 0).
Proof.
  unfold sell_through, F.gtb. simpl F.add. split; intro H.
  - rewrite ltb_fin_true by exact H. apply div_fin. lra.
  - rewrite ltb_fin_false by exact H. reflexivity.
Qed.

Lemma sell_through_unit_interval (t c : R) :
  0 <= t -> 0 <= c ->
  exists q, sell_through (Fin t) (Fin c) = Fin q /\ 0 <= q <= 1.
Proof.
  intros Ht Hc. destruct (sell_through_fin t c) as [Hpos Hzero].
  destruct (Rlt_or_le 0 (t + c)) as [H | H].
  - exists (t / (t + c)). split; [apply Hpos; exact H|].
    assert (Hi : 0 < / (t + c)) by (apply Rinv_0_lt_compat; exact H).
    assert (E : (t + c) * / (t + c) = 1) by (apply Rinv_r; lra).
    unfold Rdiv. split; nra.
  - exists 0. split; [apply Hzero; exact H | lra].
Qed.

Lemma Forall_group_rows (P : fnum -> Prop) (k : sku_cell)
    (S : list SalesRecord) :
  Forall P (map s_Units_Sold S) ->
  Forall P (map s_Units_Sold (group_rows k S)).
Proof.
  rewrite !Forall_forall. intros H u Hu.
  apply in_map_iff in Hu. destruct Hu as [x [Ex Hx]].
  apply in_group_rows in Hx. apply H. apply in_map_iff.
  exists x. tauto.
Qed.

(** The total of an output row is a non-negative number when the units of
    the sales rows are. *)
Lemma enriched_total_units (S : list SalesRecord) (I : list InventoryRecord)
    (r : EnrichedItem) :
  In r (enriched S I) -> Forall is_nonneg (map s_Units_Sold S) ->
  exists t, Total_Units_Sold r = Fin t /\ 0 <= t.
Proof.
  intros Hin Hall. apply in_enriched in Hin.
  destruct Hin as [i [_ [[_ Er] | [g [Hg [_ Er]]]]]]; subst r.
  - exists 0. split; [reflexivity | lra].
  - apply in_right_table in Hg. destruct Hg as [k [_ [_ Eg]]]. subst g.
    destruct (sum_nonneg (map s_Units_Sold (group_rows k S)))
      as [t [Ht Ht0]]; [apply Forall_group_rows; exact Hall|].
    exists t. split; [|exact Ht0].
    simpl. rewrite group_rows_parse, parse_dates_units, Ht. reflexivity.
Qed.

(** C5: the sell-through rate of a row is its total over total plus stock
    when that sum is positive and 0 otherwise, so a row with no units sold
    and no stock gets 0; with non-negative units and stock it lies between 0
    and 1. *)
Theorem sell_through_rate_spec :
  forall (S : list SalesRecord) (I : list InventoryRecord) (r : EnrichedItem),
    In r (enriched S I) ->
    Sell_Through_Rate r
      = (if F.gtb (F.add (Total_Units_Sold r) (Current_Stock r)) (Fin 0)
         then F.div (Total_Units_Sold r)
                    (F.add (Total_Units_Sold r) (Current_Stock r))
         else Fin 0) /\
    (forall t c, Total_Units_Sold r = Fin t -> Current_Stock r = Fin c ->
       (0 < t + c -> Sell_Through_Rate r = Fin (t / (t + c))) /\
       (t + c <= 0 -> Sell_Through_Rate r = Fin 0)) /\
    (Total_Units_Sold r = Fin 0 -> Current_Stock r = Fin 0 ->
       Sell_Through_Rate r = Fin 0) /\
    (Forall is_nonneg (map s_Units_Sold S) -> is_nonneg (Current_Stock r) ->
       exists q, Sell_Through_Rate r = Fin q /\ 0 <= q <= 1).
Proof.
  intros S I r Hin.
  assert (Hdef : Sell_Through_Rate r
                 = sell_through (Total_Units_Sold r) (Current_Stock r)).
  { destruct (enriched_derive _ _ _ Hin) as [m Er]. subst r. reflexivity. }
  split; [exact Hdef|]. split; [|split].
  - intros t c Ht Hc. rewrite Hdef, Ht, Hc. apply sell_through_fin.
  - intros Ht Hc. rewrite Hdef, Ht, Hc. apply sell_through_fin. lra.
  - intros Hall Hc.
    destruct (enriched_total_units S I r Hin Hall) as [t [Ht Ht0]].
    destruct (Current_Stock r) as [c| | |] eqn:Ec; simpl in Hc;
      try contradiction.
    rewrite Hdef, Ht. apply sell_through_unit_interval; assumption.
Qed.

Lemma sell_through_rate_spec_witness :
  In (never_sold_row item_B2) (enriched [] scenario_B_inventory) /\
  Sell_Through_Rate (never_sold_row item_B2) = Fin (0 / (0 + 10)) /\
  exists q, Sell_Through_Rate (never_sold_row item_B2) = Fin q /\ 0 <= q <= 1.
Proof.
  assert (Hin : In (never_sold_row item_B2) (enriched [] scenario_B_inventory))
    by (left; reflexivity).
  destruct (sell_through_rate_spec [] scenario_B_inventory
              (never_sold_row item_B2) Hin) as (_ & Hnum & _ & Hunit).
  destruct (Hnum 0 10 eq_refl eq_refl) as [Hpos _].
  split; [exact Hin|]. split; [apply Hpos; lra|].
  apply Hunit; [constructor | simpl; lra].
Defined.

(** ** Row count *)

Lemma str_int_inj (a b : Z) : str (SkuInt a) = str (SkuInt b) -> a = b.
Proof.
  simpl. intro H.
  assert (Hn : forall n, Z.to_int n <> Decimal.Pos Decimal.Nil /\
                         Z.to_int n <> Decimal.Neg Decimal.Nil).
  { intro n. destruct n as [|p|p]; simpl; split; try discriminate;
      intro E; injection E as E; exact (DecimalPos.Unsigned.to_uint_nonnil p E). }
  assert (E : Some (Z.to_int a) = Some (Z.to_int b)).
  { rewrite <- (NilZero.isi (Z.to_int a)), <- (NilZero.isi (Z.to_int b))
      by apply Hn.
    rewrite H. reflexivity. }
  injection E as E.
  rewrite <- (DecimalZ.of_to a), <- (DecimalZ.of_to b), E. reflexivity.
Qed.

Lemma right_table_keys (S : list SalesRecord) :
  map g_SKU (right_table S) = map astype_str (group_keys (parse_dates S)).
Proof.
  unfold right_table, sales_grouped. rewrite !map_map. reflexivity.
Qed.

(** With an unmixed key column the normalised keys of the rollup stay
    distinct. *)
Lemma unmixed_keys_distinct (S : list SalesRecord) :
  unmixed_keys S -> NoDup (map g_SKU (right_table S)).
Proof.
  intro Hu. rewrite right_table_keys.
  apply NoDup_map_NoDup_ForallPairs; [|apply group_keys_NoDup].
  intros a b Ha Hb E.
  apply group_keys_spec in Ha. apply group_keys_spec in Hb.
  rewrite parse_dates_SKU in Ha, Hb.
  destruct Ha as [Ha Hna], Hb as [Hb Hnb].
  apply in_map_iff in Ha. destruct Ha as [x [Ex Hx]].
  apply in_map_iff in Hb. destruct Hb as [y [Ey Hy]].
  unfold astype_str in E. injection E as E.
  destruct Hu as [Hu | Hu];
    destruct (Hu x Hx) as [Hx' | [u Hx']]; try congruence;
    destruct (Hu y Hy) as [Hy' | [v Hy']]; try congruence;
    subst a b; rewrite Hx', Hy' in E |- *.
  - f_equal. apply str_int_inj. exact E.
  - simpl in E. congruence.
Qed.

Lemma matches_at_most_one (i : InventoryRecord) (Rt : list SkuRollup) :
  NoDup (map g_SKU Rt) -> (List.length (matches i Rt) <= 1)%nat.
Proof.
  unfold matches. induction Rt as [|g Rt IH]; simpl; intro Hnd; [lia|].
  inversion Hnd as [|? ? Hnotin Hnd']; subst.
  destruct (sku_eqb (g_SKU g) (i_SKU i)) eqn:E; [|apply IH; exact Hnd'].
  apply sku_eqb_eq in E.
  assert (Hempty : filter (fun g0 => sku_eqb (g_SKU g0) (i_SKU i)) Rt = []).
  { destruct (filter _ Rt) as [|g' l] eqn:Ef; [reflexivity|].
    exfalso. apply Hnotin.
    assert (Hg' : In g' (filter (fun g0 => sku_eqb (g_SKU g0) (i_SKU i)) Rt))
      by (rewrite Ef; left; reflexivity).
    apply filter_In in Hg'. destruct Hg' as [Hg' Hk].
    apply sku_eqb_eq in Hk. rewrite E, <- Hk. apply in_map. exact Hg'. }
  rewrite Hempty. simpl. lia.
Qed.

Lemma merge_left_length_ge (L : list InventoryRecord) (Rt : list SkuRollup) :
  (List.length L <= List.length (merge_left L Rt))%nat.
Proof.
  unfold merge_left. set (f := fun i : InventoryRecord => _).
  induction L as [|i L IH]; simpl; [lia|].
  rewrite length_app.
  assert (1 <= List.length (f i))%nat
    by (unfold f; destruct (matches i Rt); simpl; lia).
  lia.
Qed.

Lemma merge_left_length (L : list InventoryRecord) (Rt : list SkuRollup) :
  NoDup (map g_SKU Rt) -> List.length (merge_left L Rt) = List.length L.
Proof.
  intro Hnd. unfold merge_left. set (f := fun i : InventoryRecord => _).
  induction L as [|i L IH]; simpl; [reflexivity|].
  rewrite length_app, IH.
  assert (List.length (f i) = 1)%nat; [|lia].
  pose proof (matches_at_most_one i Rt Hnd) as H1. unfold f.
  destruct (matches i Rt) as [|g [|g' ms]]; simpl in *; lia.
Qed.

Lemma enriched_length (S : list SalesRecord) (I : list InventoryRecord) :
  List.length (enriched S I)
  = List.length (merge_left (map inventory_astype_str I) (right_table S)).
Proof.
  unfold enriched, process_inventory. simpl merged_df.
  rewrite !length_map. reflexivity.
Qed.

(** No inventory row is ever dropped. *)
Lemma row_count_at_least (S : list SalesRecord) (I : list InventoryRecord) :
  (List.length I <= List.length (enriched S I))%nat.
Proof.
  rewrite enriched_length.
  pose proof (merge_left_length_ge (map inventory_astype_str I) (right_table S)) as H.
  rewrite length_map in H. exact H.
Qed.

(** The row count is the inventory's whenever the key column of the sales
    table is not mixed. *)
Lemma row_count_unmixed (S : list SalesRecord) (I : list InventoryRecord) :
  unmixed_keys S -> List.length (enriched S I) = List.length I.
Proof.
  intro Hu. rewrite enriched_length, merge_left_length, length_map;
    [reflexivity | apply unmixed_keys_distinct; exact Hu].
Qed.

(** C2 at the failing input: the sales sheet holds the key 101 as a number
    in one row and as text in another; grouping runs on the raw keys and the
    conversion to text follows it, so the rollup has two rows keyed "101"
    and the one inventory row comes out twice. *)
Theorem mixed_keys_duplicate_inventory_row :
  List.length mixed_key_inventory = 1%nat /\
  map g_SKU (right_table mixed_key_sales) = [SkuStr "101"; SkuStr "101"] /\
  map SKU (enriched mixed_key_sales mixed_key_inventory)
    = [SkuStr "101"; SkuStr "101"] /\
  List.length (enriched mixed_key_sales mixed_key_inventory) = 2%nat.
Proof.
  split; [reflexivity|]. split; [reflexivity|]. split; reflexivity.
Qed.

(** ** Blank cells in the numeric columns *)

Lemma inventory_item_reaches_output (S : list SalesRecord)
    (I : list InventoryRecord) (i : InventoryRecord) :
  In i I ->
  exists r, In r (enriched S I) /\
    SKU r = astype_str (i_SKU i) /\
    Current_Stock r = i_Current_Stock i /\
    Cost_Price r = i_Cost_Price i /\
    Margin r = i_Margin i.
Proof.
  intro Hi.
  destruct (matches (inventory_astype_str i) (right_table S)) as [|g ms] eqn:E.
  - exists (never_sold_row i). split; [|repeat split].
    apply in_enriched. exists i. split; [exact Hi|]. left.
    split; [exact E | reflexivity].
  - exists (derive (fill_sales (matched (inventory_astype_str i) g))).
    split; [|repeat split].
    assert (Hg : In g (matches (inventory_astype_str i) (right_table S)))
      by (rewrite E; left; reflexivity).
    apply in_matches in Hg. destruct Hg as [Hg Hk].
    apply in_enriched. exists i. split; [exact Hi|]. right.
    exists g. repeat split; assumption.
Qed.

Lemma blank_stock_propagates (m : MergedRow) :
  i_Current_Stock (m_inv m) = NaN ->
  Days_of_Cover (derive m) = NaN /\ Stock_Value (derive m) = NaN /\
  Death_Risk_Base (derive m) = NaN /\ Death_Risk_Score (derive m) = NaN /\
  Sell_Through_Rate (derive m) = Fin 0.
Proof.
  intro H. simpl. rewrite H. repeat split; try reflexivity.
  unfold sell_through, F.gtb.
  destruct (m_Total_Units_Sold m); reflexivity.
Qed.

Lemma blank_price_propagates (m : MergedRow) :
  i_Cost_Price (m_inv m) = NaN \/ i_Margin (m_inv m) = NaN ->
  Selling_Price (derive m) = NaN /\ Stock_Value (derive m) = NaN.
Proof.
  intro H.
  assert (Hmul : forall a, F.mul a NaN = NaN) by (intros [ | | | ]; reflexivity).
  assert (Hsp : Selling_Price (derive m)
                = F.div (i_Cost_Price (m_inv m))
                        (F.sub (Fin 1) (i_Margin (m_inv m)))) by reflexivity.
  assert (Hsv : Stock_Value (derive m)
                = F.mul (i_Current_Stock (m_inv m)) (Selling_Price (derive m)))
    by reflexivity.
  assert (Hnan : Selling_Price (derive m) = NaN).
  { rewrite Hsp. destruct H as [H | H]; rewrite H; [reflexivity|].
    destruct (i_Cost_Price (m_inv m)); reflexivity. }
  split; [exact Hnan | rewrite Hsv, Hnan; apply Hmul].
Qed.

(** C7, as the code has it: a blank cell in a numeric column raises
    nothing.  Every inventory item reaches the output with its stock, cost
    and margin cells as they were; a blank stock leaves blank days of cover,
    stock value, base and score, and a sell-through of 0; a blank cost or
    margin leaves a blank selling price and stock value. *)
Theorem blank_cells_propagate :
  forall (S : list SalesRecord) (I : list InventoryRecord),
    (forall i, In i I ->
       exists r, In r (enriched S I) /\
         SKU r = astype_str (i_SKU i) /\
         Current_Stock r = i_Current_Stock i /\
         Cost_Price r = i_Cost_Price i /\
         Margin r = i_Margin i) /\
    (forall r, In r (enriched S I) ->
       (Current_Stock r = NaN ->
          Days_of_Cover r = NaN /\ Stock_Value r = NaN /\
          Death_Risk_Base r = NaN /\ Death_Risk_Score r = NaN /\
          Sell_Through_Rate r = Fin 0) /\
       (Cost_Price r = NaN \/ Margin r = NaN ->
          Selling_Price r = NaN /\ Stock_Value r = NaN)).
Proof.
  intros S I. split.
  - intros i Hi. apply inventory_item_reaches_output. exact Hi.
  - intros r Hin. destruct (enriched_derive _ _ _ Hin) as [m Er]. subst r.
    split; intro H.
    + apply blank_stock_propagates. exact H.
    + apply blank_price_propagates. exact H.
Qed.

(** C7 as stated fails: with a blank stock cell the call returns a table
    that holds the item, its score blank. *)
Lemma blank_stock_returns_a_table :
  enriched [] [item_null_stock] = [never_sold_row item_null_stock] /\
  SKU (never_sold_row item_null_stock) = SkuStr "N1" /\
  Current_Stock (never_sold_row item_null_stock) = NaN /\
  Days_of_Cover (never_sold_row item_null_stock) = NaN /\
  Sell_Through_Rate (never_sold_row item_null_stock) = Fin 0 /\
  Death_Risk_Score (never_sold_row item_null_stock) = NaN.
Proof. repeat split; reflexivity. Qed.

(** ** Effects on the caller's tables *)

Lemma to_datetime_idem (d : date_cell) : to_datetime (to_datetime d) = to_datetime d.
Proof. destruct d; reflexivity. Qed.

Lemma parse_dates_idem (S : list SalesRecord) :
  parse_dates (parse_dates S) = parse_dates S.
Proof.
  unfold parse_dates. rewrite map_map. apply map_ext. intro r. simpl.
  rewrite to_datetime_idem. reflexivity.
Qed.

Lemma inventory_astype_str_idem (I : list InventoryRecord) :
  map inventory_astype_str (map inventory_astype_str I)
  = map inventory_astype_str I.
Proof. rewrite map_map. apply map_ext. intro i. reflexivity. Qed.

Lemma Forall2_map_r {A B : Type} (P : A -> B -> Prop) (f : A -> B)
    (l : list A) :
  (forall a, P a (f a)) -> Forall2 P l (map f l).
Proof. intro H. induction l; simpl; constructor; auto. Qed.

Lemma map_fixed {A : Type} (f : A -> A) (l : list A) :
  (forall a, In a l -> f a = a) -> map f l = l.
Proof.
  intro H. induction l as [|a l IH]; simpl; [reflexivity|].
  rewrite H by (left; reflexivity). rewrite IH; [reflexivity|].
  intros b Hb. apply H. right. exact Hb.
Qed.

(** C8, as the code has it: a call rewrites the [Date] column of the sales
    table (dates parsed, anything else blanked) and the [SKU] column of the
    inventory table (keys as text) in place, and nothing else in them; a
    second call on the rewritten tables returns the same table and leaves
    them as they are; tables whose dates are dates and whose inventory keys
    are text come back unchanged. *)
Theorem process_inventory_effects :
  forall (S : list SalesRecord) (I : list InventoryRecord),
    Forall2 sale_rewritten S (sales_after (process_inventory S I)) /\
    Forall2 item_rewritten I (inventory_after (process_inventory S I)) /\
    process_inventory (sales_after (process_inventory S I))
                      (inventory_after (process_inventory S I))
      = process_inventory S I /\
    ((forall x raw, In x S -> s_Date x <> Unparsed raw) ->
       sales_after (process_inventory S I) = S) /\
    ((forall i, In i I -> exists s, i_SKU i = SkuStr s) ->
       inventory_after (process_inventory S I) = I).
Proof.
  intros S I. simpl sales_after. simpl inventory_after.
  split; [|split; [|split; [|split]]].
  - apply Forall2_map_r. intro r. repeat split.
  - apply Forall2_map_r. intro i. repeat split.
  - unfold process_inventory.
    rewrite parse_dates_idem, inventory_astype_str_idem. reflexivity.
  - intro H. apply map_fixed. intros [k d u v] Hx. simpl.
    f_equal. destruct d as [ns|raw|]; try reflexivity.
    exfalso. exact (H _ raw Hx eq_refl).
  - intro H. apply map_fixed. intros [k s c m] Hi.
    destruct (H _ Hi) as [t Et]. simpl in Et. subst k. reflexivity.
Qed.

(** C8 as stated fails: after a call the caller's inventory table holds the
    key as text and the caller's sales table has lost the cell that was no
    date. *)
Lemma process_inventory_rewrites_inputs :
  map i_SKU raw_inventory = [SkuInt 7] /\
  map i_SKU (inventory_after (process_inventory raw_sales raw_inventory))
    = [SkuStr "7"] /\
  map s_Date raw_sales = [midnight 19723; Unparsed "n/a"] /\
  map s_Date (sales_after (process_inventory raw_sales raw_inventory))
    = [midnight 19723; NaT] /\
  inventory_after (process_inventory raw_sales raw_inventory)
    <> raw_inventory /\
  sales_after (process_inventory raw_sales raw_inventory) <> raw_sales.
Proof.
  repeat split; try reflexivity; intro H; discriminate H.
Qed.

(** ** Scenario A *)

Lemma replace_fin_ne (old new x : R) :
  x <> old -> F.replace old new (Fin x) = Fin x.
Proof.
  intro H. unfold F.replace, F.eqb.
  destruct (Req_dec_T x old); [contradiction | reflexivity].
Qed.

(** The derived columns of a row whose cells are all numbers, the velocity
    not 0 and the margin not 1 *)
Lemma derive_numeric (k : sku_cell) (s c mg t rv v : R)
    (mn mx p : option Z) :
  v <> 0 -> mg <> 1 ->
  let r := derive (mkMerged (mkInv k (Fin s) (Fin c) (Fin mg))
                            (Fin t) (Fin rv) mn mx p (Fin v)) in
  Days_of_Cover r = Fin (s / v) /\
  Sell_Through_Rate r = sell_through (Fin t) (Fin s) /\
  Selling_Price r = Fin (c / (1 - mg)) /\
  Stock_Value r = Fin (s * (c / (1 - mg))) /\
  Risk_Penalty r = risk_penalty (Fin v) /\
  Death_Risk_Base r = Fin (logistic ((s / v - 60) / 30) * 100).
Proof.
  intros Hv Hmg r.
  assert (Hd : Days_of_Cover r = Fin (s / v)).
  { change (Days_of_Cover r)
      with (F.div (Fin s) (F.replace 0 (1 / 1000) (Fin v))).
    rewrite replace_fin_ne, div_fin by assumption. reflexivity. }
  assert (Hp : Selling_Price r = Fin (c / (1 - mg))).
  { change (Selling_Price r) with (F.div (Fin c) (Fin (1 + - mg))).
    rewrite div_fin by lra. reflexivity. }
  split; [exact Hd|]. split; [reflexivity|]. split; [exact Hp|].
  split; [|split; [reflexivity|]].
  - change (Stock_Value r) with (F.mul (Fin s) (Selling_Price r)).
    rewrite Hp. reflexivity.
  - change (Death_Risk_Base r) with
      (F.mul (F.expit (F.div (F.sub (Days_of_Cover r) (Fin 60)) (Fin 30)))
             (Fin 100)).
    rewrite Hd. unfold F.sub, F.neg, F.add. rewrite div_fin by lra.
    reflexivity.
Qed.

Lemma fill_matched (i : InventoryRecord) (g : SkuRollup) :
  fill_sales (matched i (rollup_astype_str g))
  = mkMerged i (F.fillna 0 (g_Total_Units_Sold g))
               (F.fillna 0 (g_Total_Revenue g))
               (g_Min_Date g) (g_Max_Date g) (Some (g_Period_Days g))
               (F.fillna 0 (g_Avg_Daily_Velocity g)).
Proof. reflexivity. Qed.

Lemma scenario_A_rollup (g : SkuRollup) :
  g = rollup (parse_dates scenario_A_sales) (SkuStr "A1") ->
  g_Total_Units_Sold g = Fin 35 /\ g_Total_Revenue g = Fin 350 /\
  g_Period_Days g = 20%Z /\ g_Avg_Daily_Velocity g = Fin (175 / 100).
Proof.
  intro Eg.
  assert (Hu : g_Total_Units_Sold g = Fin 35)
    by (rewrite Eg; cbn; f_equal; lra).
  assert (Hp : g_Period_Days g = 20%Z) by (rewrite Eg; reflexivity).
  assert (Hv : g_Avg_Daily_Velocity g
               = F.div (g_Total_Units_Sold g) (ofZ (g_Period_Days g)))
    by (rewrite Eg; reflexivity).
  split; [exact Hu|]. split; [rewrite Eg; cbn; f_equal; lra|].
  split; [exact Hp|].
  rewrite Hv, Hu, Hp. unfold ofZ. rewrite div_fin by lra. f_equal. lra.
Qed.

Lemma scenario_A_merged :
  exists mn mx,
    scenario_A_row
    = derive (mkMerged (mkInv (SkuStr "A1") (Fin 100) (Fin 40) (Fin (5 / 10)))
                       (Fin 35) (Fin 350) mn mx (Some 20%Z)
                       (Fin (175 / 100))).
Proof.
  destruct (scenario_A_rollup _ eq_refl) as (Hu & Hr & Hp & Hv).
  exists (g_Min_Date (rollup (parse_dates scenario_A_sales) (SkuStr "A1"))),
         (g_Max_Date (rollup (parse_dates scenario_A_sales) (SkuStr "A1"))).
  unfold scenario_A_row. rewrite fill_matched, Hu, Hr, Hp, Hv. reflexivity.
Qed.

Lemma scenario_A_logistic :
  logistic ((100 / (175 / 100) - 60) / 30) = / (1 + exp (2 / 21)) /\
  476 / 1000 < / (1 + exp (2 / 21)) < 4764 / 10000.
Proof.
  split.
  - unfold logistic. f_equal. f_equal. f_equal. lra.
  - pose proof exp_2_21_bounds as [Hlo Hhi].
    pose proof (exp_pos (2 / 21)) as He.
    assert (Hl : / (1 + exp (2 / 21)) * (1 + exp (2 / 21)) = 1)
      by (apply Rinv_l; lra).
    assert (Hp : 0 < / (1 + exp (2 / 21))) by (apply Rinv_0_lt_compat; lra).
    split; nra.
Qed.

(** C9: on the input of Scenario A the output is one row with 35 units
    sold over a period of 20 days, a velocity of 1.75, 400/7 (57.14) days of
    cover, a sell-through of 7/27 (0.2593), a selling price of 80, a stock
    value of 8000, no penalty, and a base and a score of
    [100 / (1 + e^(2/21))], which is 47.6 to one decimal. *)
Theorem scenario_A_values :
  enriched scenario_A_sales scenario_A_inventory = [scenario_A_row] /\
  Total_Units_Sold scenario_A_row = Fin 35 /\
  Total_Revenue scenario_A_row = Fin 350 /\
  Period_Days scenario_A_row = Some 20%Z /\
  Avg_Daily_Velocity scenario_A_row = Fin (175 / 100) /\
  Days_of_Cover scenario_A_row = Fin (400 / 7) /\
  Rabs (400 / 7 - 5714 / 100) < 1 / 100 /\
  Sell_Through_Rate scenario_A_row = Fin (7 / 27) /\
  Rabs (7 / 27 - 2593 / 10000) < 1 / 10000 /\
  Selling_Price scenario_A_row = Fin 80 /\
  Stock_Value scenario_A_row = Fin 8000 /\
  Risk_Penalty scenario_A_row = Fin 0 /\
  Death_Risk_Base scenario_A_row = Fin (100 * / (1 + exp (2 / 21))) /\
  Death_Risk_Score scenario_A_row = Fin (100 * / (1 + exp (2 / 21))) /\
  Rabs (100 * / (1 + exp (2 / 21)) - 476 / 10) < 5 / 100.
Proof.
  destruct scenario_A_merged as (mn & mx & E).
  pose proof (derive_numeric (SkuStr "A1") 100 40 (5 / 10) 35 350 (175 / 100)
                mn mx (Some 20%Z) ltac:(lra) ltac:(lra)) as H.
  cbv zeta in H. rewrite <- E in H.
  destruct H as (Hd & Hst & Hsp & Hsv & Hpen & Hb).
  destruct scenario_A_logistic as [Hlog Hbound].
  assert (Hpen0 : Risk_Penalty scenario_A_row = Fin 0).
  { rewrite Hpen. unfold risk_penalty. rewrite ltb_fin_false by lra.
    reflexivity. }
  assert (Hbase : Death_Risk_Base scenario_A_row
                  = Fin (100 * / (1 + exp (2 / 21)))).
  { rewrite Hb, Hlog. f_equal. lra. }
  split; [reflexivity|].
  split; [rewrite E; reflexivity|]. split; [rewrite E; reflexivity|].
  split; [rewrite E; reflexivity|]. split; [rewrite E; reflexivity|].
  split; [rewrite Hd; f_equal; lra|].
  split; [apply Rabs_def1; lra|].
  split.
  { rewrite Hst. destruct (sell_through_fin 35 100) as [Hpos _].
    rewrite Hpos by lra. f_equal. lra. }
  split; [apply Rabs_def1; lra|].
  split; [rewrite Hsp; f_equal; lra|].
  split; [rewrite Hsv; f_equal; lra|].
  split; [exact Hpen0|]. split; [exact Hbase|]. split.
  - change (Death_Risk_Score scenario_A_row)
      with (F.clip 0 100 (F.add (Death_Risk_Base scenario_A_row)
                                (Risk_Penalty scenario_A_row))).
    rewrite Hbase, Hpen0. simpl. f_equal.
    fold (clamp_0_100 (100 * / (1 + exp (2 / 21)) + 0)).
    rewrite clamp_id by lra. lra.
  - apply Rabs_def1; lra.
Qed.

(** ** Ingestion *)

Import Loader.

Lemma read_sheet_cases (file : workbook) (sheet : string) :
  (forall msg, file sheet 0%nat = Raise msg ->
     read_sheet file sheet = Raise msg) /\
  (forall df0, file sheet 0%nat = Return df0 ->
     has_required_cols df0 = true -> read_sheet file sheet = Return df0) /\
  (forall df0 msg, file sheet 0%nat = Return df0 ->
     has_required_cols df0 = false -> file sheet 1%nat = Raise msg ->
     read_sheet file sheet = Raise msg) /\
  (forall df0 df1, file sheet 0%nat = Return df0 ->
     has_required_cols df0 = false -> file sheet 1%nat = Return df1 ->
     has_required_cols df1 = true -> read_sheet file sheet = Return df1) /\
  (forall df0 df1, file sheet 0%nat = Return df0 ->
     has_required_cols df0 = false -> file sheet 1%nat = Return df1 ->
     has_required_cols df1 = false -> read_sheet file sheet = Return df0).
Proof.
  unfold read_sheet, bind. repeat split.
  - intros msg H. rewrite H. reflexivity.
  - intros df0 H Hc. rewrite H, Hc. reflexivity.
  - intros df0 msg H Hc H1. rewrite H, Hc, H1. reflexivity.
  - intros df0 df1 H Hc H1 Hc1. rewrite H, Hc, H1, Hc1. reflexivity.
  - intros df0 df1 H Hc H1 Hc1. rewrite H, Hc, H1, Hc1. reflexivity.
Qed.

Lemma has_required_cols_spec (df : DataFrame) :
  has_required_cols df = true <-> In "SKU"%string (columns df).
Proof.
  unfold has_required_cols.
  destruct (in_dec string_dec "SKU"%string (columns df)); split;
    intro H; congruence || assumption || contradiction.
Qed.

(** C6: each of the sheets "Sales" and "Inventory" is read with the header
    on row 0; when that reading has no "SKU" column the sheet is read with
    the header on row 1; when that one has none either the row-0 reading is
    returned; a read that raises makes [load_data] return no table and the
    message, and otherwise it returns both tables and no message. *)
Theorem load_data_contract :
  forall (file : workbook),
    (forall sheet,
       (forall df0, file sheet 0%nat = Return df0 ->
          In "SKU"%string (columns df0) -> read_sheet file sheet = Return df0) /\
       (forall df0 df1, file sheet 0%nat = Return df0 ->
          ~ In "SKU"%string (columns df0) -> file sheet 1%nat = Return df1 ->
          In "SKU"%string (columns df1) -> read_sheet file sheet = Return df1) /\
       (forall df0 df1, file sheet 0%nat = Return df0 ->
          ~ In "SKU"%string (columns df0) -> file sheet 1%nat = Return df1 ->
          ~ In "SKU"%string (columns df1) -> read_sheet file sheet = Return df0) /\
       (forall msg, file sheet 0%nat = Raise msg ->
          read_sheet file sheet = Raise msg) /\
       (forall df0 msg, file sheet 0%nat = Return df0 ->
          ~ In "SKU"%string (columns df0) -> file sheet 1%nat = Raise msg ->
          read_sheet file sheet = Raise msg)) /\
    (forall s i, read_sheet file "Sales" = Return s ->
       read_sheet file "Inventory" = Return i ->
       load_data file = (Some s, Some i, None)) /\
    (forall msg, read_sheet file "Sales" = Raise msg ->
       load_data file = (None, None, Some msg)) /\
    (forall s msg, read_sheet file "Sales" = Return s ->
       read_sheet file "Inventory" = Raise msg ->
       load_data file = (None, None, Some msg)) /\
    ((exists s i, load_data file = (Some s, Some i, None)) \/
     (exists msg, load_data file = (None, None, Some msg))).
Proof.
  intro file.
  assert (Hno : forall df, ~ In "SKU"%string (columns df) ->
                           has_required_cols df = false).
  { intros df H. destruct (has_required_cols df) eqn:E; [|reflexivity].
    apply has_required_cols_spec in E. contradiction. }
  split; [|split; [|split; [|split]]].
  - intro sheet.
    destruct (read_sheet_cases file sheet) as (Hr & H0 & Hr1 & H1 & H2).
    repeat split.
    + intros df0 E Hc. apply H0; [exact E | apply has_required_cols_spec; exact Hc].
    + intros df0 df1 E Hc E1 Hc1.
      apply (H1 df0 df1 E (Hno _ Hc) E1).
      apply has_required_cols_spec. exact Hc1.
    + intros df0 df1 E Hc E1 Hc1.
      apply (H2 df0 df1 E (Hno _ Hc) E1 (Hno _ Hc1)).
    + exact Hr.
    + intros df0 msg E Hc E1. apply (Hr1 df0 msg E (Hno _ Hc) E1).
  - intros s i Hs Hi. unfold load_data, bind. rewrite Hs, Hi. reflexivity.
  - intros msg Hs. unfold load_data, bind. rewrite Hs. reflexivity.
  - intros s msg Hs Hi. unfold load_data, bind. rewrite Hs, Hi. reflexivity.
  - unfold load_data, bind.
    destruct (read_sheet file "Sales") as [msg | s];
      [right; exists msg; reflexivity|].
    destruct (read_sheet file "Inventory") as [msg | i];
      [right; exists msg; reflexivity|].
    left. exists s, i. reflexivity.
Qed.

Lemma load_data_contract_witness :
  load_data sample_workbook
  = (Some sample_sales_frame, Some sample_inventory_frame, None) /\
  load_data broken_workbook = (None, None, Some "Worksheet named 'Inventory' not found"%string).
Proof.
  destruct (load_data_contract sample_workbook) as (Hsheet & Hok & _).
  destruct (load_data_contract broken_workbook) as (Hsheet' & _ & _ & Hbad & _).
  split.
  - apply Hok.
    + destruct (Hsheet "Sales"%string) as (_ & H1 & _).
      apply (H1 banner_frame sample_sales_frame eq_refl);
        [intros [H | []]; discriminate H | reflexivity | left; reflexivity].
    + destruct (Hsheet "Inventory"%string) as (H0 & _).
      apply (H0 sample_inventory_frame eq_refl). left; reflexivity.
  - apply Hbad with (s := sample_sales_frame).
    + destruct (Hsheet' "Sales"%string) as (_ & H1 & _).
      apply (H1 banner_frame sample_sales_frame eq_refl);
        [intros [H | []]; discriminate H | reflexivity | left; reflexivity].
    + destruct (Hsheet' "Inventory"%string) as (_ & _ & _ & Hr & _).
      apply Hr. reflexivity.
Defined.

(** * Further properties *)

(** ** From the upload to the call of [process_inventory] *)

Lemma in_missing_columns (req : list string) (df : DataFrame) (c : string) :
  In c (App.missing_columns req df) <-> In c req /\ ~ In c (columns df).
Proof.
  unfold App.missing_columns. rewrite filter_In.
  destruct (in_dec string_dec c (columns df)); intuition congruence.
Qed.

Lemma missing_columns_nil (req : list string) (df : DataFrame) :
  App.missing_columns req df = [] <-> forall c, In c req -> In c (columns df).
Proof.
  split.
  - intros H c Hc. destruct (in_dec string_dec c (columns df)) as [Hin | Hout];
      [exact Hin|].
    exfalso. assert (Hm : In c (App.missing_columns req df))
      by (apply in_missing_columns; split; assumption).
    rewrite H in Hm. destruct Hm.
  - intro H. destruct (App.missing_columns req df) as [|c l] eqn:E;
      [reflexivity|].
    exfalso. assert (Hm : In c (App.missing_columns req df))
      by (rewrite E; left; reflexivity).
    apply in_missing_columns in Hm. destruct Hm as [Hc Hout].
    apply Hout, H, Hc.
Qed.

Lemma nonempty_false (l : list string) : App.nonempty l = false <-> l = [].
Proof. destruct l; simpl; split; congruence. Qed.

Lemma load_data_shape (f : workbook) :
  (exists s i, read_sheet f "Sales" = Return s /\
               read_sheet f "Inventory" = Return i /\
               load_data f = (Some s, Some i, None)) \/
  (exists e, load_data f = (None, None, Some e)).
Proof.
  unfold load_data, bind.
  destruct (read_sheet f "Sales") as [e | s]; [right; exists e; reflexivity|].
  destruct (read_sheet f "Inventory") as [e | i];
    [right; exists e; reflexivity|].
  left. exists s, i. repeat split.
Qed.

(** The page after [load_data] has answered *)
Lemma run_after_load (up : option workbook) (us : bool)
    (sample : option workbook) (f : workbook) :
  up = Some f \/ (up = None /\ us = true /\ sample = Some f) ->
  App.run up us sample
  = (let '(sales_df, inventory_df, error) := load_data f in
     if App.truthy error then
       App.ReadError (match error with Some e => e | None => EmptyString end)
     else
       match sales_df, inventory_df with
       | Some s, Some i =>
           if App.nonempty (App.missing_columns App.req_sales s)
              || App.nonempty (App.missing_columns App.req_inv i)
           then App.MissingColumns (App.missing_columns App.req_sales s)
                                   (App.missing_columns App.req_inv i)
           else App.Process s i
       | _, _ => App.Uncaught
       end).
Proof.
  intros [-> | (-> & -> & ->)]; reflexivity.
Qed.

(** When no workbook is read: nothing was chosen, or the sample file is
    not there. *)
Lemma run_without_workbook (up : option workbook) (us : bool)
    (sample : option workbook) :
  (forall f, ~ (up = Some f \/ (up = None /\ us = true /\ sample = Some f))) ->
  App.run up us sample = App.UploadHint \/
  App.run up us sample = App.ReadError "Sample file not found.".
Proof.
  intro H. destruct up as [f|]; [exfalso; apply (H f); left; reflexivity|].
  destruct us; [|left; reflexivity].
  destruct sample as [f|]; [exfalso; apply (H f); right; repeat split|].
  right. reflexivity.
Qed.

(** Either the run reads a workbook, or there is none to read. *)
Lemma classic_source (up : option workbook) (us : bool)
    (sample : option workbook) :
  (exists f, up = Some f \/ (up = None /\ us = true /\ sample = Some f)) \/
  (forall f, ~ (up = Some f \/ (up = None /\ us = true /\ sample = Some f))).
Proof.
  destruct up as [f|]; [left; exists f; left; reflexivity|].
  destruct us; [|right; intros f [H | (_ & H & _)]; discriminate H].
  destruct sample as [f|]; [left; exists f; right; repeat split|].
  right. intros f [H | (_ & _ & H)]; discriminate H.
Qed.

(** X1: [process_inventory] is called exactly when the workbook that the
    run reads loads without error and its two frames hold every required
    column; it is called on those two frames. *)
Theorem process_called_on_validated_frames :
  forall (up : option workbook) (us : bool) (sample : option workbook)
         (s i : DataFrame),
    App.run up us sample = App.Process s i <->
    exists f,
      (up = Some f \/ (up = None /\ us = true /\ sample = Some f)) /\
      load_data f = (Some s, Some i, None) /\
      (forall c, In c App.req_sales -> In c (columns s)) /\
      (forall c, In c App.req_inv -> In c (columns i)).
Proof.
  intros up us sample s i. split.
  - intro H.
    destruct (classic_source up us sample) as [[f Hf] | Hnone].
    + exists f. split; [exact Hf|].
      rewrite (run_after_load up us sample f Hf) in H.
      destruct (load_data_shape f) as [(s' & i' & _ & _ & E) | [e E]];
        rewrite E in H |- *; cbv beta iota zeta delta [App.truthy] in H.
      * destruct (App.nonempty (App.missing_columns App.req_sales s')) eqn:Es;
          [discriminate H|].
        destruct (App.nonempty (App.missing_columns App.req_inv i')) eqn:Ei;
          [discriminate H|].
        simpl in H. injection H as -> ->.
        apply nonempty_false in Es, Ei.
        split; [reflexivity|]. split; apply missing_columns_nil; assumption.
      * destruct e; discriminate H.
    + destruct (run_without_workbook up us sample Hnone) as [E | E];
        rewrite E in H; discriminate H.
  - intros (f & Hf & E & Hs & Hi).
    rewrite (run_after_load up us sample f Hf), E.
    cbv beta iota zeta delta [App.truthy].
    apply missing_columns_nil in Hs, Hi. rewrite Hs, Hi. reflexivity.
Qed.

Lemma read_sheet_without_sku (f : workbook) (sheet : string) (df : DataFrame) :
  read_sheet f sheet = Return df -> ~ In "SKU"%string (columns df) ->
  f sheet 0%nat = Return df /\
  exists df1, f sheet 1%nat = Return df1 /\ ~ In "SKU"%string (columns df1).
Proof.
  unfold read_sheet, bind. intros H Hno.
  assert (Hc : has_required_cols df = false).
  { destruct (has_required_cols df) eqn:E; [|reflexivity].
    apply has_required_cols_spec in E. contradiction. }
  destruct (f sheet 0%nat) as [e | df0] eqn:E0; [discriminate H|].
  destruct (has_required_cols df0) eqn:Ec0.
  { injection H as ->. congruence. }
  destruct (f sheet 1%nat) as [e | df1] eqn:E1; [discriminate H|].
  destruct (has_required_cols df1) eqn:Ec1.
  { injection H as ->. congruence. }
  split; [exact H|]. exists df1. split; [reflexivity|].
  intro Hin. apply has_required_cols_spec in Hin. congruence.
Qed.

(** X2: a sheet without a "SKU" header in row 0 and in row 1 does not stop
    [load_data]: the frame it returns for that sheet is the row-0 reading,
    and the run ends at the column check, which reports "SKU" among the
    missing columns of that sheet; [process_inventory] is not called. *)
Theorem fail_soft_read_fails_validation :
  forall (f : workbook) (us : bool) (sample : option workbook)
         (s i : DataFrame),
    load_data f = (Some s, Some i, None) ->
    ~ In "SKU"%string (columns s) \/ ~ In "SKU"%string (columns i) ->
    App.run (Some f) us sample
      = App.MissingColumns (App.missing_columns App.req_sales s)
                           (App.missing_columns App.req_inv i) /\
    (~ In "SKU"%string (columns s) ->
       In "SKU"%string (App.missing_columns App.req_sales s) /\
       f "Sales"%string 0%nat = Return s /\
       exists df1, f "Sales"%string 1%nat = Return df1 /\
                   ~ In "SKU"%string (columns df1)) /\
    (~ In "SKU"%string (columns i) ->
       In "SKU"%string (App.missing_columns App.req_inv i) /\
       f "Inventory"%string 0%nat = Return i /\
       exists df1, f "Inventory"%string 1%nat = Return df1 /\
                   ~ In "SKU"%string (columns df1)).
Proof.
  intros f us sample s i E Hno.
  assert (Hreads : read_sheet f "Sales" = Return s /\
                   read_sheet f "Inventory" = Return i).
  { destruct (load_data_shape f) as [(s' & i' & Hs & Hi & E') | [e E']];
      rewrite E in E'; [|discriminate E'].
    injection E' as -> ->. split; assumption. }
  destruct Hreads as [Hs Hi].
  assert (Hms : ~ In "SKU"%string (columns s) ->
                In "SKU"%string (App.missing_columns App.req_sales s)).
  { intro H. apply in_missing_columns. split; [left; reflexivity | exact H]. }
  assert (Hmi : ~ In "SKU"%string (columns i) ->
                In "SKU"%string (App.missing_columns App.req_inv i)).
  { intro H. apply in_missing_columns. split; [left; reflexivity | exact H]. }
  split; [|split].
  - rewrite (run_after_load (Some f) us sample f (or_introl eq_refl)), E.
    cbv beta iota zeta delta [App.truthy].
    destruct Hno as [H | H].
    + apply Hms in H.
      destruct (App.missing_columns App.req_sales s); [destruct H|].
      reflexivity.
    + apply Hmi in H.
      destruct (App.missing_columns App.req_inv i); [destruct H|].
      rewrite orb_true_r. reflexivity.
  - intro H. split; [apply Hms; exact H|].
    apply read_sheet_without_sku; assumption.
  - intro H. split; [apply Hmi; exact H|].
    apply read_sheet_without_sku; assumption.
Qed.

Lemma fail_soft_read_fails_validation_witness :
  App.run (Some headerless_workbook) false None
  = App.MissingColumns ["SKU"; "Date"; "Units_Sold"; "Revenue"]%string [].
Proof.
  refine (proj1 (fail_soft_read_fails_validation headerless_workbook false
                   None banner_frame sample_inventory_frame eq_refl
                   (or_introl _))).
  intros [H | []]. discriminate H.
Defined.

(** X3: a failed read is reported with its message unless the message is
    empty: then the error check lets the run pass on to the column check
    with no table, where it ends in an exception that nothing catches.
    That is the only way the run ends so before [process_inventory]. *)
Theorem empty_error_message_is_not_reported :
  forall (up : option workbook) (us : bool) (sample : option workbook),
    (App.run up us sample = App.Uncaught <->
     exists f, (up = Some f \/ (up = None /\ us = true /\ sample = Some f)) /\
               load_data f = (None, None, Some EmptyString)) /\
    (forall e, App.run up us sample = App.ReadError e ->
       e <> EmptyString /\
       ((exists f, (up = Some f \/
                    (up = None /\ us = true /\ sample = Some f)) /\
                   load_data f = (None, None, Some e)) \/
        (up = None /\ us = true /\ sample = None /\
         e = "Sample file not found."%string))).
Proof.
  intros up us sample. split; [split|].
  - intro H. destruct (classic_source up us sample) as [[f Hf] | Hnone].
    + exists f. split; [exact Hf|].
      rewrite (run_after_load up us sample f Hf) in H.
      destruct (load_data_shape f) as [(s' & i' & _ & _ & E) | [e E]];
        rewrite E in H |- *; cbv beta iota zeta delta [App.truthy] in H.
      * destruct (App.nonempty _ || App.nonempty _); discriminate H.
      * destruct e; [reflexivity | discriminate H].
    + destruct (run_without_workbook up us sample Hnone) as [E | E];
        rewrite E in H; discriminate H.
  - intros (f & Hf & E).
    rewrite (run_after_load up us sample f Hf), E. reflexivity.
  - intros e H. destruct (classic_source up us sample) as [[f Hf] | Hnone].
    + rewrite (run_after_load up us sample f Hf) in H.
      destruct (load_data_shape f) as [(s' & i' & _ & _ & E) | [e' E]];
        rewrite E in H; cbv beta iota zeta delta [App.truthy] in H.
      * destruct (App.nonempty _ || App.nonempty _); discriminate H.
      * destruct e' as [|a e']; [discriminate H|]. injection H as <-.
        split; [discriminate|]. left. exists f. split; assumption.
    + destruct up as [f|]; [exfalso; apply (Hnone f); left; reflexivity|].
      destruct us; [|discriminate H].
      destruct sample as [f|];
        [exfalso; apply (Hnone f); right; repeat split|].
      injection H as <-. split; [discriminate|]. right. repeat split.
Qed.

Lemma empty_error_message_is_not_reported_witness :
  App.run (Some silent_workbook) false None = App.Uncaught.
Proof.
  apply (proj1 (empty_error_message_is_not_reported
                  (Some silent_workbook) false None)).
  exists silent_workbook. split; [left; reflexivity | reflexivity].
Defined.

(** ** The cover at which a row turns high risk *)

Lemma exp_5_6_upper : exp (5 / 6) < 7 / 3.
Proof.
  assert (H0 : 389 / 384 <= exp (5 / 384) <= 384 / 379).
  { pose proof (exp_base_bounds (5 / 384)) as H.
    replace (1 + 5 / 384) with (389 / 384) in H by lra.
    replace (/ (1 - 5 / 384)) with (384 / 379) in H by lra.
    apply H. lra. }
  assert (H1 : 10262112087 / 10000000000 <= exp (5 / 192) <= 10265592693 / 10000000000).
  { replace (5 / 192) with (2 * (5 / 384)) by lra.
    apply exp_square_bounds with (1 := H0); lra. }
  assert (H2 : 658193403 / 625000000 <= exp (5 / 96) <= 5269119667 / 5000000000).
  { replace (5 / 96) with (2 * (5 / 192)) by lra.
    apply exp_square_bounds with (1 := H1); lra. }
  assert (H3 : 11090395027 / 10000000000 <= exp (5 / 48) <= 11105448827 / 10000000000).
  { replace (5 / 48) with (2 * (5 / 96)) by lra.
    apply exp_square_bounds with (1 := H2); lra. }
  assert (H4 : 2459937237 / 2000000000 <= exp (5 / 24) <= 2466619873 / 2000000000).
  { replace (5 / 24) with (2 * (5 / 48)) by lra.
    apply exp_square_bounds with (1 := H3); lra. }
  assert (H5 : 1891028503 / 1250000000 <= exp (5 / 12) <= 3042106799 / 2000000000).
  { replace (5 / 12) with (2 * (5 / 24)) by lra.
    apply exp_square_bounds with (1 := H4); lra. }
  assert (H6 : 11443164157 / 5000000000 <= exp (5 / 6) <= 11568017221 / 5000000000).
  { replace (5 / 6) with (2 * (5 / 12)) by lra.
    apply exp_square_bounds with (1 := H5); lra. }
  lra.
Qed.

Lemma exp_13_15_lower : 7 / 3 < exp (13 / 15).
Proof.
  assert (H0 : 973 / 960 <= exp (13 / 960) <= 960 / 947).
  { pose proof (exp_base_bounds (13 / 960)) as H.
    replace (1 + 13 / 960) with (973 / 960) in H by lra.
    replace (/ (1 - 13 / 960)) with (960 / 947) in H by lra.
    apply H. lra. }
  assert (H1 : 102726671 / 100000000 <= exp (13 / 480) <= 5138217837 / 5000000000).
  { replace (13 / 480) with (2 * (13 / 960)) by lra.
    apply exp_square_bounds with (1 := H0); lra. }
  assert (H2 : 5276384467 / 5000000000 <= exp (13 / 240) <= 10560513017 / 10000000000).
  { replace (13 / 240) with (2 * (13 / 480)) by lra.
    apply exp_square_bounds with (1 := H1); lra. }
  assert (H3 : 11136093217 / 10000000000 <= exp (13 / 120) <= 11152443519 / 10000000000).
  { replace (13 / 120) with (2 * (13 / 240)) by lra.
    apply exp_square_bounds with (1 := H2); lra. }
  assert (H4 : 12401257213 / 10000000000 <= exp (13 / 60) <= 2487539929 / 2000000000).
  { replace (13 / 60) with (2 * (13 / 120)) by lra.
    apply exp_square_bounds with (1 := H3); lra. }
  assert (H5 : 7689559023 / 5000000000 <= exp (13 / 30) <= 7734818623 / 5000000000).
  { replace (13 / 30) with (2 * (13 / 60)) by lra.
    apply exp_square_bounds with (1 := H4); lra. }
  assert (H6 : 23651727187 / 10000000000 <= exp (13 / 15) <= 23930967653 / 10000000000).
  { replace (13 / 15) with (2 * (13 / 30)) by lra.
    apply exp_square_bounds with (1 := H5); lra. }
  lra.
Qed.

Lemma exp_2_5_upper : exp (2 / 5) < 3 / 2.
Proof.
  assert (H0 : 161 / 160 <= exp (2 / 320) <= 160 / 159).
  { pose proof (exp_base_bounds (2 / 320)) as H.
    replace (1 + 2 / 320) with (161 / 160) in H by lra.
    replace (/ (1 - 2 / 320)) with (160 / 159) in H by lra.
    apply H. lra. }
  assert (H1 : 25921 / 25600 <= exp (2 / 160) <= 5063090859 / 5000000000).
  { replace (2 / 160) with (2 * (2 / 320)) by lra.
    apply exp_square_bounds with (1 := H0); lra. }
  assert (H2 : 1025235353 / 1000000000 <= exp (2 / 80) <= 10253955619 / 10000000000).
  { replace (2 / 80) with (2 * (2 / 160)) by lra.
    apply exp_square_bounds with (1 := H1); lra. }
  assert (H3 : 1051107529 / 1000000000 <= exp (2 / 40) <= 1314295073 / 1250000000).
  { replace (2 / 40) with (2 * (2 / 80)) by lra.
    apply exp_square_bounds with (1 := H2); lra. }
  assert (H4 : 88386163 / 80000000 <= exp (2 / 20) <= 221103557 / 200000000).
  { replace (2 / 20) with (2 * (2 / 40)) by lra.
    apply exp_square_bounds with (1 := H3); lra. }
  assert (H5 : 12206427827 / 10000000000 <= exp (2 / 10) <= 1222169573 / 1000000000).
  { replace (2 / 10) with (2 * (2 / 20)) by lra.
    apply exp_square_bounds with (1 := H4); lra. }
  assert (H6 : 14899688029 / 10000000000 <= exp (2 / 5) <= 3734246163 / 2500000000).
  { replace (2 / 5) with (2 * (2 / 10)) by lra.
    apply exp_square_bounds with (1 := H5); lra. }
  lra.
Qed.

Lemma exp_13_30_lower : 3 / 2 < exp (13 / 30).
Proof.
  assert (H0 : 1933 / 1920 <= exp (13 / 1920) <= 1920 / 1907).
  { pose proof (exp_base_bounds (13 / 1920)) as H.
    replace (1 + 13 / 1920) with (1933 / 1920) in H by lra.
    replace (/ (1 - 13 / 1920)) with (1920 / 1907) in H by lra.
    apply H. lra. }
  assert (H1 : 2533968777 / 2500000000 <= exp (13 / 960) <= 2027360903 / 2000000000).
  { replace (13 / 960) with (2 * (13 / 1920)) by lra.
    apply exp_square_bounds with (1 := H0); lra. }
  assert (H2 : 513679821 / 500000000 <= exp (13 / 480) <= 5137740289 / 5000000000).
  { replace (13 / 480) with (2 * (13 / 960)) by lra.
    apply exp_square_bounds with (1 := H1); lra. }
  assert (H3 : 527733917 / 500000000 <= exp (13 / 240) <= 10558550111 / 10000000000).
  { replace (13 / 240) with (2 * (13 / 480)) by lra.
    apply exp_square_bounds with (1 := H2); lra. }
  assert (H4 : 5570061743 / 5000000000 <= exp (13 / 120) <= 2229659609 / 2000000000).
  { replace (13 / 120) with (2 * (13 / 240)) by lra.
    apply exp_square_bounds with (1 := H3); lra. }
  assert (H5 : 1551279391 / 1250000000 <= exp (13 / 60) <= 12428454931 / 10000000000).
  { replace (13 / 60) with (2 * (13 / 120)) by lra.
    apply exp_square_bounds with (1 := H4); lra. }
  assert (H6 : 15401393593 / 10000000000 <= exp (13 / 30) <= 7723324599 / 5000000000).
  { replace (13 / 30) with (2 * (13 / 60)) by lra.
    apply exp_square_bounds with (1 := H5); lra. }
  lra.
Qed.

Lemma gtb_fin_iff (x y : R) : F.gtb (Fin x) (Fin y) = true <-> y < x.
Proof.
  unfold F.gtb, F.ltb. destruct (Rlt_dec y x); split; intro H;
    congruence || assumption || contradiction.
Qed.

Lemma logistic_gt (c x : R) :
  0 < c -> (c / (1 + c) < logistic x <-> ln c < x).
Proof.
  intro Hc.
  assert (Hec : exp (ln c) = c) by (apply exp_ln; exact Hc).
  pose proof (exp_pos x) as He. pose proof (exp_pos (- x)) as Hn.
  assert (Hinv : exp (- x) * exp x = 1).
  { rewrite <- exp_plus. replace (- x + x) with 0 by lra. apply exp_0. }
  assert (Hl : logistic x * (1 + exp (- x)) = 1)
    by (unfold logistic; apply Rinv_l; lra).
  pose proof (logistic_pos x) as Hlp.
  assert (Hq : c / (1 + c) * (1 + c) = c) by (field; lra).
  assert (Hq0 : 0 < c / (1 + c)) by (apply Rdiv_lt_0_compat; lra).
  split; intro H.
  - destruct (Rlt_or_le (ln c) x) as [Hlt | Hle]; [exact Hlt|].
    exfalso.
    assert (Hx : exp x <= c).
    { destruct Hle as [Hle | Heq].
      - apply exp_increasing in Hle. lra.
      - rewrite Heq. lra. }
    assert (H1 : 1 <= c * exp (- x)) by nra.
    assert (H2 : 1 + c <= c * (1 + exp (- x))) by lra.
    assert (H3 : c / (1 + c) * (1 + c) * logistic x
                 <= c / (1 + c) * (c * (1 + exp (- x))) * logistic x).
    { apply Rmult_le_compat_r; [lra|].
      apply Rmult_le_compat_l; lra. }
    replace (c / (1 + c) * (c * (1 + exp (- x))) * logistic x)
      with (c / (1 + c) * c * (logistic x * (1 + exp (- x)))) in H3 by ring.
    rewrite Hl, Hq in H3. nra.
  - apply exp_increasing in H. rewrite Hec in H.
    assert (H1 : c * exp (- x) < 1) by nra.
    assert (H2 : c * (1 + exp (- x)) < 1 + c) by lra.
    assert (H3 : c / (1 + c) * (c * (1 + exp (- x))) * logistic x
                 < c / (1 + c) * (1 + c) * logistic x).
    { apply Rmult_lt_compat_r; [exact Hlp|].
      apply Rmult_lt_compat_l; lra. }
    replace (c / (1 + c) * (c * (1 + exp (- x))) * logistic x)
      with (c / (1 + c) * c * (logistic x * (1 + exp (- x)))) in H3 by ring.
    rewrite Hl, Hq in H3. nra.
Qed.

Lemma clamp_gt_70 (y : R) : 70 < clamp_0_100 y <-> 70 < y.
Proof.
  unfold clamp_0_100, Rmin, Rmax.
  destruct (Rle_dec y 0); destruct (Rle_dec _ 100); lra.
Qed.

Lemma ln_3_2_bounds : 2 / 5 < ln (3 / 2) < 13 / 30.
Proof.
  split; apply exp_lt_inv; rewrite exp_ln by lra.
  - apply exp_2_5_upper.
  - apply exp_13_30_lower.
Qed.

Lemma ln_7_3_bounds : 5 / 6 < ln (7 / 3) < 13 / 15.
Proof.
  split; apply exp_lt_inv; rewrite exp_ln by lra.
  - apply exp_5_6_upper.
  - apply exp_13_15_lower.
Qed.

Lemma cover_threshold_days :
  47 < cover_threshold true < 48 /\ 85 < cover_threshold false < 86.
Proof.
  unfold cover_threshold.
  pose proof ln_3_2_bounds as H32. pose proof ln_7_3_bounds as H73.
  assert (E : ln (2 / 3) = - ln (3 / 2)).
  { replace (2 / 3) with (/ (3 / 2)) by lra. apply ln_Rinv. lra. }
  rewrite E. lra.
Qed.

(** X4: an output row whose stock is a number is counted as high risk
    (score above 70) exactly when its days of cover exceed a threshold that
    depends only on whether it is a slow mover: [60 + 30 ln (2/3)], between
    47 and 48 days, when the velocity is below 0.5, and [60 + 30 ln (7/3)],
    between 85 and 86 days, otherwise. *)
Theorem high_risk_cover_threshold :
  forall (S : list SalesRecord) (I : list InventoryRecord) (r : EnrichedItem)
         (s : R),
    In r (enriched S I) -> Current_Stock r = Fin s ->
    exists d,
      Days_of_Cover r = Fin d /\
      (In r (App.high_risk (enriched S I)) <->
       cover_threshold (F.ltb (Avg_Daily_Velocity r) (Fin (5 / 10))) < d) /\
      47 < cover_threshold true < 48 /\ 85 < cover_threshold false < 86.
Proof.
  intros S I r s Hin Hs.
  destruct (enriched_derive _ _ _ Hin) as [m Er].
  destruct (derive_score (fill_sales m) s) as (d & p & Hd & _ & _ & Hp & Hsc);
    [subst r; exact Hs | apply fillna_not_nan |].
  rewrite <- Er in Hd, Hsc.
  assert (Hv : Avg_Daily_Velocity r = m_Avg_Daily_Velocity (fill_sales m))
    by (subst r; reflexivity).
  rewrite <- Hv in Hp.
  exists d. split; [exact Hd|]. split; [|apply cover_threshold_days].
  unfold App.high_risk. rewrite filter_In, Hsc, gtb_fin_iff, clamp_gt_70.
  destruct Hp as [[Hl ->] | [Hl ->]]; rewrite Hl; unfold cover_threshold.
  - pose proof (logistic_gt (2 / 3) ((d - 60) / 30) ltac:(lra)) as Hlog.
    replace (2 / 3 / (1 + 2 / 3)) with (4 / 10) in Hlog by lra.
    split.
    + intros [_ H]. assert (Hx : ln (2 / 3) < (d - 60) / 30)
        by (apply Hlog; lra). lra.
    + intro H. split; [exact Hin|].
      assert (Hx : 4 / 10 < logistic ((d - 60) / 30)) by (apply Hlog; lra).
      lra.
  - pose proof (logistic_gt (7 / 3) ((d - 60) / 30) ltac:(lra)) as Hlog.
    replace (7 / 3 / (1 + 7 / 3)) with (7 / 10) in Hlog by lra.
    split.
    + intros [_ H]. assert (Hx : ln (7 / 3) < (d - 60) / 30)
        by (apply Hlog; lra). lra.
    + intro H. split; [exact Hin|].
      assert (Hx : 7 / 10 < logistic ((d - 60) / 30)) by (apply Hlog; lra).
      lra.
Qed.

Lemma high_risk_cover_threshold_witness :
  In (never_sold_row item_B2) (App.high_risk (enriched [] scenario_B_inventory)).
Proof.
  assert (Hin : In (never_sold_row item_B2) (enriched [] scenario_B_inventory))
    by (left; reflexivity).
  destruct (high_risk_cover_threshold [] scenario_B_inventory
              (never_sold_row item_B2) 10 Hin eq_refl)
    as (d & Hd & Hiff & Hslow & _).
  apply Hiff.
  assert (Ed : Days_of_Cover (never_sold_row item_B2) = Fin (10 / (1 / 1000))).
  { apply (never_sold_score (inventory_astype_str item_B2) 10 eq_refl). }
  assert (Hl : F.ltb (Avg_Daily_Velocity (never_sold_row item_B2)) (Fin (5 / 10))
               = true) by (apply ltb_fin_true; lra).
  rewrite Hl. rewrite Ed in Hd. injection Hd as <-. lra.
Defined.

(** ** The metric cards *)

Lemma filter_length_bound {A : Type} (p : A -> bool) (l : list A) :
  (List.length (filter p l) <= List.length l)%nat.
Proof.
  induction l as [|a l IH]; simpl; [lia|].
  destruct (p a); simpl; lia.
Qed.

(** X5: the count of high-risk rows never exceeds the number of rows, so
    the share shown beside it lies between 0 and 100; on a table without
    rows the division that computes the share raises. *)
Theorem risk_share_bounds :
  forall (result_df : list EnrichedItem),
    (App.risk_count result_df <= List.length result_df)%nat /\
    (App.risk_share result_df = None <-> result_df = []) /\
    (forall p, App.risk_share result_df = Some p ->
       0 <= p <= 100 /\
       p = INR (App.risk_count result_df)
           / INR (List.length result_df) * 100).
Proof.
  intro rows.
  assert (Hle : (App.risk_count rows <= List.length rows)%nat)
    by apply filter_length_bound.
  split; [exact Hle|]. unfold App.risk_share. split.
  - destruct rows as [|r rows]; simpl; split; intro H;
      reflexivity || discriminate H.
  - intros p H. destruct (List.length rows) as [|n] eqn:En; [discriminate H|].
    injection H as <-.
    change (match n with O => 1 | Datatypes.S _ => INR n + 1 end)
      with (INR (Datatypes.S n)).
    split; [|reflexivity].
    assert (Hn : 0 < INR (Datatypes.S n)) by (apply lt_0_INR; lia).
    assert (Hc : 0 <= INR (App.risk_count rows)) by apply pos_INR.
    assert (Hcn : INR (App.risk_count rows) <= INR (Datatypes.S n))
      by (apply le_INR; exact Hle).
    assert (Hi : 0 < / INR (Datatypes.S n)) by (apply Rinv_0_lt_compat; exact Hn).
    assert (E : INR (Datatypes.S n) * / INR (Datatypes.S n) = 1)
      by (apply Rinv_r; lra).
    assert (H1 : 0 <= INR (App.risk_count rows) * / INR (Datatypes.S n))
      by (apply Rmult_le_pos; lra).
    assert (H2 : INR (App.risk_count rows) * / INR (Datatypes.S n) <= 1)
      by (rewrite <- E; apply Rmult_le_compat_r; lra).
    unfold Rdiv. lra.
Qed.

Lemma color_red_iff (val : fnum) :
  App.color_risk val = "background-color: red; color: white"%string
  <-> F.gtb val (Fin 70) = true.
Proof.
  unfold App.color_risk.
  destruct (F.gtb val (Fin 70)); [split; reflexivity|].
  destruct (F.gtb val (Fin 50)); split; intro H; discriminate H.
Qed.

Lemma score_number_or_blank (S : list SalesRecord) (I : list InventoryRecord)
    (r : EnrichedItem) :
  In r (enriched S I) ->
  Death_Risk_Score r = NaN \/
  exists x, Death_Risk_Score r = Fin x /\ 0 <= x <= 100.
Proof.
  intro Hin. destruct (enriched_derive _ _ _ Hin) as [m ->].
  change (Death_Risk_Score (derive (fill_sales m)))
    with (F.clip 0 100 (F.add (Death_Risk_Base (derive (fill_sales m)))
                              (Risk_Penalty (derive (fill_sales m))))).
  destruct (F.add _ _) as [y| | |]; simpl.
  - right. eexists. split; [reflexivity | apply clamp_bounds].
  - right. exists 100. split; [reflexivity | lra].
  - right. exists 0. split; [reflexivity | lra].
  - left. reflexivity.
Qed.

(** X6: in the table of a run the score cells shown red are those of the
    rows counted as high risk; the row of an item whose stock cell is blank
    is shown green and is not counted; the row of a never-sold item with a
    stock of at least 0.1 is shown red.  Every score cell is a number
    between 0 and 100 or blank. *)
Theorem score_cell_colours :
  forall (S : list SalesRecord) (I : list InventoryRecord) (r : EnrichedItem),
    In r (enriched S I) ->
    (In r (App.high_risk (enriched S I)) <->
     App.color_risk (Death_Risk_Score r)
     = "background-color: red; color: white"%string) /\
    (Current_Stock r = NaN ->
       App.color_risk (Death_Risk_Score r)
       = "background-color: green; color: white"%string /\
       ~ In r (App.high_risk (enriched S I))) /\
    (no_sales S (SKU r) ->
       forall s, Current_Stock r = Fin s -> 1 / 10 <= s ->
       App.color_risk (Death_Risk_Score r)
       = "background-color: red; color: white"%string) /\
    (Death_Risk_Score r = NaN \/
     exists x, Death_Risk_Score r = Fin x /\ 0 <= x <= 100).
Proof.
  intros S I r Hin.
  assert (Hhigh : In r (App.high_risk (enriched S I))
                  <-> F.gtb (Death_Risk_Score r) (Fin 70) = true).
  { unfold App.high_risk. rewrite filter_In. tauto. }
  split; [rewrite Hhigh, color_red_iff; reflexivity|].
  split; [|split; [|apply (score_number_or_blank S I r Hin)]].
  - intro Hs. destruct (enriched_derive _ _ _ Hin) as [m Er].
    assert (Hnan : Death_Risk_Score r = NaN).
    { rewrite Er. apply blank_stock_propagates. rewrite Er in Hs. exact Hs. }
    rewrite Hhigh, Hnan. split; [reflexivity | discriminate].
  - intros Hno s Hs H10.
    destruct (enriched_no_sales S I r Hin Hno) as [i [_ Er]].
    apply color_red_iff.
    assert (H100 : Death_Risk_Score r = Fin 100).
    { rewrite Er. apply (never_sold_saturated (inventory_astype_str i) s).
      - rewrite Er in Hs. exact Hs.
      - pose proof saturation_stock_below_tenth. lra. }
    rewrite H100. apply gtb_fin_iff. lra.
Qed.

Lemma score_cell_colours_witness :
  App.color_risk (Death_Risk_Score (never_sold_row item_B2))
  = "background-color: red; color: white"%string /\
  App.color_risk (Death_Risk_Score (never_sold_row item_null_stock))
  = "background-color: green; color: white"%string.
Proof.
  split.
  - assert (Hin : In (never_sold_row item_B2) (enriched [] scenario_B_inventory))
      by (left; reflexivity).
    destruct (score_cell_colours [] scenario_B_inventory
                (never_sold_row item_B2) Hin) as (_ & _ & Hred & _).
    apply (Hred (no_sales_nil _) 10 eq_refl). lra.
  - assert (Hin : In (never_sold_row item_null_stock)
                     (enriched [] [item_null_stock]))
      by (left; reflexivity).
    destruct (score_cell_colours [] [item_null_stock]
                (never_sold_row item_null_stock) Hin) as (_ & Hgreen & _).
    apply (Hgreen eq_refl).
Defined.

Lemma sum_from_total (l : list fnum) : forall acc : R,
  Forall finite_or_blank l ->
  fold_left (fun a x => if F.isna x then a else F.add a x) l (Fin acc)
  = Fin (acc + total l).
Proof.
  induction l as [|x l IH]; intros acc Hall; simpl.
  - f_equal. lra.
  - inversion Hall as [|? ? Hx Hl]; subst.
    destruct x as [u| | |]; simpl in Hx; try contradiction; simpl.
    + rewrite IH by exact Hl. f_equal. lra.
    + apply IH. exact Hl.
Qed.

Lemma sum_total (l : list fnum) :
  Forall finite_or_blank l -> F.sum l = Fin (total l).
Proof.
  intro H. unfold F.sum. rewrite sum_from_total by exact H. f_equal. lra.
Qed.

Lemma is_nonneg_finite (a : fnum) : is_nonneg a -> finite_or_blank a.
Proof. destruct a; simpl; tauto. Qed.

Lemma total_nonneg (l : list fnum) : Forall is_nonneg l -> 0 <= total l.
Proof.
  induction 1 as [|a l Ha _ IH]; simpl; [lra|].
  destruct a; simpl in Ha; try contradiction. lra.
Qed.

Lemma total_filter_le {A : Type} (f : A -> fnum) (p : A -> bool)
    (l : list A) :
  Forall is_nonneg (map f l) ->
  total (map f (filter p l)) <= total (map f l).
Proof.
  induction l as [|a l IH]; simpl; intro H; [lra|].
  inversion H as [|? ? Ha Hl]; subst. specialize (IH Hl).
  pose proof (total_nonneg _ Hl) as H0.
  destruct (f a) as [x| | |] eqn:E; simpl in Ha; try contradiction.
  destruct (p a); simpl; rewrite ?E; lra.
Qed.

Lemma Forall_filter {A : Type} (P : A -> Prop) (p : A -> bool) (l : list A) :
  Forall P l -> Forall P (filter p l).
Proof.
  rewrite !Forall_forall. intros H a Ha. apply filter_In in Ha. apply H, Ha.
Qed.

(** The inventory cells of an output row are those of an inventory row. *)
Lemma enriched_inventory_cells (S : list SalesRecord)
    (I : list InventoryRecord) (r : EnrichedItem) :
  In r (enriched S I) ->
  exists i, In i I /\ inventory_part r = inventory_astype_str i.
Proof.
  intro Hin. apply in_enriched in Hin.
  destruct Hin as [i [Hi [[_ ->] | [g [_ [_ ->]]]]]]; exists i;
    (split; [exact Hi | reflexivity]).
Qed.

(** Selling price and stock value of a row whose cells are numbers and
    whose margin is not 1 *)
Lemma priced_row (S : list SalesRecord) (I : list InventoryRecord)
    (r : EnrichedItem) (c mg : R) :
  In r (enriched S I) -> Cost_Price r = Fin c -> Margin r = Fin mg ->
  mg <> 1 ->
  Selling_Price r = Fin (c / (1 - mg)) /\
  Stock_Value r = F.mul (Current_Stock r) (Fin (c / (1 - mg))).
Proof.
  intros Hin Hc Hm Hne.
  destruct (enriched_derive _ _ _ Hin) as [m Er].
  assert (Hsp : Selling_Price r
                = F.div (Cost_Price r) (F.sub (Fin 1) (Margin r)))
    by (rewrite Er; reflexivity).
  assert (Hsv : Stock_Value r = F.mul (Current_Stock r) (Selling_Price r))
    by (rewrite Er; reflexivity).
  assert (Hp : Selling_Price r = Fin (c / (1 - mg))).
  { rewrite Hsp, Hc, Hm. unfold F.sub, F.neg, F.add.
    rewrite div_fin by lra. reflexivity. }
  split; [exact Hp | rewrite Hsv, Hp; reflexivity].
Qed.

Lemma stock_values_nonneg (S : list SalesRecord) (I : list InventoryRecord) :
  Forall priced_item I -> Forall is_nonneg (map Stock_Value (enriched S I)).
Proof.
  intro Hall. rewrite Forall_forall. intros v Hv.
  apply in_map_iff in Hv. destruct Hv as [r [<- Hin]].
  destruct (enriched_inventory_cells S I r Hin) as [i [Hi Ei]].
  rewrite Forall_forall in Hall.
  destruct (Hall i Hi) as (s & c & mg & Hs & Hs0 & Hc & Hc0 & Hm & Hm1).
  assert (Es : Current_Stock r = Fin s)
    by (change (Current_Stock r) with (i_Current_Stock (inventory_part r));
        rewrite Ei; exact Hs).
  assert (Ec : Cost_Price r = Fin c)
    by (change (Cost_Price r) with (i_Cost_Price (inventory_part r));
        rewrite Ei; exact Hc).
  assert (Em : Margin r = Fin mg)
    by (change (Margin r) with (i_Margin (inventory_part r));
        rewrite Ei; exact Hm).
  destruct (priced_row S I r c mg Hin Ec Em ltac:(lra)) as [_ Hsv].
  rewrite Hsv, Es. simpl.
  apply Rmult_le_pos; [exact Hs0|].
  unfold Rdiv. apply Rmult_le_pos; [exact Hc0|].
  left. apply Rinv_0_lt_compat. lra.
Qed.

(** X7: when every inventory row has a non-negative stock and cost and a
    margin below 1, the dead-stock value on the first card is a
    non-negative number and does not exceed the stock value of the whole
    table. *)
Theorem total_risk_value_bounds :
  forall (S : list SalesRecord) (I : list InventoryRecord),
    Forall priced_item I ->
    exists t T,
      App.total_risk_value (enriched S I) = Fin t /\
      F.sum (map Stock_Value (enriched S I)) = Fin T /\
      0 <= t <= T.
Proof.
  intros S I Hall.
  pose proof (stock_values_nonneg S I Hall) as Hnn.
  assert (Hhigh : Forall is_nonneg
                    (map Stock_Value (App.high_risk (enriched S I)))).
  { rewrite Forall_forall in Hnn |- *. intros v Hv.
    apply in_map_iff in Hv. destruct Hv as [r [<- Hr]].
    apply filter_In in Hr. apply Hnn, in_map, Hr. }
  exists (total (map Stock_Value (App.high_risk (enriched S I)))),
         (total (map Stock_Value (enriched S I))).
  split; [|split; [|split]].
  - apply sum_total. eapply Forall_impl; [apply is_nonneg_finite | exact Hhigh].
  - apply sum_total. eapply Forall_impl; [apply is_nonneg_finite | exact Hnn].
  - apply total_nonneg. exact Hhigh.
  - apply total_filter_le. exact Hnn.
Qed.

Lemma total_risk_value_bounds_witness :
  exists t T,
    App.total_risk_value (enriched scenario_A_sales scenario_A_inventory)
      = Fin t /\
    F.sum (map Stock_Value (enriched scenario_A_sales scenario_A_inventory))
      = Fin T /\
    0 <= t <= T.
Proof.
  apply total_risk_value_bounds.
  constructor; [|constructor].
  exists 100, 40, (5 / 10). repeat split; try reflexivity; lra.
Defined.

Lemma mean_unit_interval (l : list fnum) :
  l <> [] ->
  Forall (fun a => exists q, a = Fin q /\ 0 <= q <= 1) l ->
  exists m, App.mean l = Fin m /\ 0 <= m <= 1.
Proof.
  intros Hne Hall.
  assert (Hkeep : filter (fun x => negb (F.isna x)) l = l).
  { clear Hne. induction Hall as [|a l [q [-> _]] _ IH]; simpl;
      [reflexivity | rewrite IH; reflexivity]. }
  assert (Hfin : Forall finite_or_blank l).
  { eapply Forall_impl; [|exact Hall]. intros a [q [-> _]]. exact Logic.I. }
  assert (Hbound : 0 <= total l <= INR (List.length l)).
  { clear Hne Hkeep Hfin.
    induction Hall as [|a l [q [-> Hq]] _ IH].
    - simpl. lra.
    - change (total (Fin q :: l)) with (q + total l).
      rewrite length_cons, S_INR. lra. }
  unfold App.mean. rewrite Hkeep.
  destruct l as [|a l']; [contradiction Hne; reflexivity|].
  set (l := a :: l') in *.
  assert (Hn : 0 < INR (List.length l)) by (apply lt_0_INR; simpl; lia).
  rewrite sum_total by exact Hfin. rewrite div_fin by lra.
  exists (total l / INR (List.length l)). split; [reflexivity|].
  assert (Hi : 0 < / INR (List.length l)) by (apply Rinv_0_lt_compat; exact Hn).
  assert (E : INR (List.length l) * / INR (List.length l) = 1)
    by (apply Rinv_r; lra).
  unfold Rdiv. split.
  - apply Rmult_le_pos; lra.
  - rewrite <- E. apply Rmult_le_compat_r; lra.
Qed.

(** X8: when the units of the sales rows and the stocks of the inventory
    rows are non-negative numbers and the inventory has a row, every
    sell-through rate of the output is a number and the average on the
    third card is a number between 0 and 100. *)
Theorem avg_sell_through_bounds :
  forall (S : list SalesRecord) (I : list InventoryRecord),
    Forall is_nonneg (map s_Units_Sold S) ->
    Forall is_nonneg (map i_Current_Stock I) ->
    I <> [] ->
    (forall r, In r (enriched S I) ->
       exists q, Sell_Through_Rate r = Fin q /\ 0 <= q <= 1) /\
    exists a, App.avg_sell_through (enriched S I) = Fin a /\ 0 <= a <= 100.
Proof.
  intros S I Hunits Hstock Hne.
  assert (Hrate : forall r, In r (enriched S I) ->
                    exists q, Sell_Through_Rate r = Fin q /\ 0 <= q <= 1).
  { intros r Hin.
    destruct (enriched_total_units S I r Hin Hunits) as [t [Ht Ht0]].
    destruct (enriched_inventory_cells S I r Hin) as [i [Hi Ei]].
    assert (Hc : is_nonneg (Current_Stock r)).
    { change (Current_Stock r) with (i_Current_Stock (inventory_part r)).
      rewrite Ei. rewrite Forall_forall in Hstock.
      apply Hstock. apply (in_map i_Current_Stock I i Hi). }
    destruct (Current_Stock r) as [c| | |] eqn:Ec; simpl in Hc;
      try contradiction.
    destruct (enriched_derive _ _ _ Hin) as [m Er].
    assert (Hdef : Sell_Through_Rate r
                   = sell_through (Total_Units_Sold r) (Current_Stock r))
      by (rewrite Er; reflexivity).
    rewrite Hdef, Ht, Ec. apply sell_through_unit_interval; assumption. }
  split; [exact Hrate|].
  destruct (mean_unit_interval (map Sell_Through_Rate (enriched S I)))
    as [m [Hm Hb]].
  - intro E. apply map_eq_nil in E.
    pose proof (row_count_at_least S I) as Hlen. rewrite E in Hlen.
    destruct I; [apply Hne; reflexivity | simpl in Hlen; lia].
  - rewrite Forall_forall. intros a Ha. apply in_map_iff in Ha.
    destruct Ha as [r [<- Hin]]. apply Hrate, Hin.
  - exists (m * 100). unfold App.avg_sell_through. rewrite Hm.
    split; [reflexivity | lra].
Qed.

Lemma avg_sell_through_bounds_witness :
  exists a, App.avg_sell_through (enriched [] scenario_B_inventory) = Fin a /\
            0 <= a <= 100.
Proof.
  apply (avg_sell_through_bounds [] scenario_B_inventory).
  - constructor.
  - constructor; [simpl; lra | constructor].
  - discriminate.
Defined.

(** ** The aggregator, continued *)

Lemma total_partition {A : Type} (f : A -> fnum) (p : A -> bool)
    (l : list A) :
  total (map f (filter p l)) + total (map f (filter (fun a => negb (p a)) l))
  = total (map f l).
Proof.
  induction l as [|a l IH]; simpl; [lra|].
  destruct (p a); simpl; destruct (f a); lra.
Qed.

Lemma group_rows_others (k k' : sku_cell) (rows : list SalesRecord) :
  k' <> k ->
  group_rows k' (filter (fun x => negb (sku_eqb (s_SKU x) k)) rows)
  = group_rows k' rows.
Proof.
  intro Hne. unfold group_rows.
  induction rows as [|x rows IH]; simpl; [reflexivity|].
  destruct (sku_eqb (s_SKU x) k) eqn:Ek; simpl.
  - apply sku_eqb_eq in Ek.
    destruct (sku_eqb (s_SKU x) k') eqn:Ek'; [|exact IH].
    apply sku_eqb_eq in Ek'. congruence.
  - rewrite IH. reflexivity.
Qed.

(** The totals of the groups of a key list without repeats add up to the
    total of the rows, when every row has its key in the list. *)
Lemma group_totals_add_up (f : SalesRecord -> fnum) (ks : list sku_cell) :
  forall rows : list SalesRecord,
    NoDup ks -> (forall x, In x rows -> In (s_SKU x) ks) ->
    total (map (fun k => Fin (total (map f (group_rows k rows)))) ks)
    = total (map f rows).
Proof.
  induction ks as [|k ks IH]; intros rows Hnd Hkeys.
  - destruct rows as [|x rows]; [reflexivity|].
    destruct (Hkeys x (or_introl eq_refl)).
  - inversion Hnd as [|? ? Hnotin Hnd']; subst.
    change (total (map (fun k0 => Fin (total (map f (group_rows k0 rows))))
                       (k :: ks)))
      with (total (map f (group_rows k rows))
            + total (map (fun k0 => Fin (total (map f (group_rows k0 rows))))
                         ks)).
    rewrite <- (total_partition f (fun x => sku_eqb (s_SKU x) k) rows).
    fold (group_rows k rows). f_equal.
    rewrite <- (IH (filter (fun x => negb (sku_eqb (s_SKU x) k)) rows) Hnd').
    + f_equal. apply map_ext_in. intros k' Hk'.
      rewrite group_rows_others; [reflexivity|].
      intro E. subst k'. contradiction.
    + intros x Hx. apply filter_In in Hx. destruct Hx as [Hx Hk].
      destruct (Hkeys x Hx) as [E | Hin]; [|exact Hin].
      exfalso. apply negb_true_iff in Hk.
      assert (sku_eqb (s_SKU x) k = true) by (apply sku_eqb_eq; congruence).
      congruence.
Qed.

Lemma group_rows_keyed (k : sku_cell) (rows : list SalesRecord) :
  k <> SkuNaN ->
  group_rows k (filter (fun x => sku_notna (s_SKU x)) rows) = group_rows k rows.
Proof.
  intro Hk. unfold group_rows.
  induction rows as [|x rows IH]; simpl; [reflexivity|].
  destruct (sku_notna (s_SKU x)) eqn:En; simpl; [rewrite IH; reflexivity|].
  destruct (sku_eqb (s_SKU x) k) eqn:Ek; [|exact IH].
  apply sku_eqb_eq in Ek. subst k. destruct (s_SKU x); try discriminate En.
  contradiction Hk; reflexivity.
Qed.

Lemma group_keys_parse (S : list SalesRecord) :
  group_keys (parse_dates S) = group_keys S.
Proof. unfold group_keys. rewrite parse_dates_SKU. reflexivity. Qed.

Lemma Forall_group (f : SalesRecord -> fnum) (P : fnum -> Prop)
    (k : sku_cell) (S : list SalesRecord) :
  Forall P (map f S) -> Forall P (map f (group_rows k S)).
Proof.
  rewrite !Forall_forall. intros H u Hu.
  apply in_map_iff in Hu. destruct Hu as [x [Ex Hx]].
  apply in_group_rows in Hx. apply H. apply in_map_iff. exists x. tauto.
Qed.

Lemma rollup_totals_add_up (f : SalesRecord -> fnum) (S : list SalesRecord) :
  total (map (fun k => Fin (total (map f (group_rows k S)))) (group_keys S))
  = total (map f (filter (fun x => sku_notna (s_SKU x)) S)).
Proof.
  rewrite <- (group_totals_add_up f (group_keys S)
                (filter (fun x => sku_notna (s_SKU x)) S)).
  - f_equal. apply map_ext_in. intros k Hk.
    apply group_keys_spec in Hk. destruct Hk as [_ Hk].
    rewrite group_rows_keyed by exact Hk. reflexivity.
  - apply group_keys_NoDup.
  - intros x Hx. apply filter_In in Hx. destruct Hx as [Hx Hn].
    apply group_keys_spec. split; [apply in_map; exact Hx|].
    intro E. rewrite E in Hn. discriminate Hn.
Qed.

(** X9: the rollup has exactly one row per distinct non-blank key of the
    sales table.  When the units and revenues of the sales rows are numbers
    or blank, each rollup row holds the totals of the rows of its key, and
    the rollup totals add up to the units and the revenue of all sales rows
    that have a key; the rows with a blank key are left out. *)
Theorem aggregation_conserves_totals :
  forall (S : list SalesRecord),
    Forall finite_or_blank (map s_Units_Sold S) ->
    Forall finite_or_blank (map s_Revenue S) ->
    NoDup (map g_SKU (sales_grouped (parse_dates S))) /\
    (forall k, In k (map g_SKU (sales_grouped (parse_dates S)))
               <-> In k (map s_SKU S) /\ k <> SkuNaN) /\
    (forall g, In g (sales_grouped (parse_dates S)) ->
       g_Total_Units_Sold g
         = Fin (total (map s_Units_Sold (group_rows (g_SKU g) S))) /\
       g_Total_Revenue g
         = Fin (total (map s_Revenue (group_rows (g_SKU g) S)))) /\
    total (map g_Total_Units_Sold (sales_grouped (parse_dates S)))
      = total (map s_Units_Sold (filter (fun x => sku_notna (s_SKU x)) S)) /\
    total (map g_Total_Revenue (sales_grouped (parse_dates S)))
      = total (map s_Revenue (filter (fun x => sku_notna (s_SKU x)) S)).
Proof.
  intros S Hu Hr.
  assert (Hkeys : map g_SKU (sales_grouped (parse_dates S)) = group_keys S).
  { unfold sales_grouped. rewrite map_map. simpl.
    rewrite map_id. apply group_keys_parse. }
  assert (Hunits : forall k,
            g_Total_Units_Sold (rollup (parse_dates S) k)
            = Fin (total (map s_Units_Sold (group_rows k S)))).
  { intro k. simpl. rewrite group_rows_parse, parse_dates_units.
    apply sum_total, Forall_group, Hu. }
  assert (Hrev : forall k,
            g_Total_Revenue (rollup (parse_dates S) k)
            = Fin (total (map s_Revenue (group_rows k S)))).
  { intro k. simpl. rewrite group_rows_parse, parse_dates_revenue.
    apply sum_total, Forall_group, Hr. }
  split; [rewrite Hkeys; apply group_keys_NoDup|].
  split; [intro k; rewrite Hkeys; apply group_keys_spec|].
  split; [|split].
  - intros g Hg. apply in_sales_grouped in Hg. destruct Hg as [k [_ ->]].
    split; [apply Hunits | apply Hrev].
  - unfold sales_grouped. rewrite map_map, group_keys_parse.
    rewrite (map_ext _ _ Hunits). apply rollup_totals_add_up.
  - unfold sales_grouped. rewrite map_map, group_keys_parse.
    rewrite (map_ext _ _ Hrev). apply rollup_totals_add_up.
Qed.

Lemma aggregation_conserves_totals_witness :
  total (map g_Total_Units_Sold (sales_grouped (parse_dates mixed_key_sales)))
  = total (map s_Units_Sold
             (filter (fun x => sku_notna (s_SKU x)) mixed_key_sales)).
Proof.
  apply (aggregation_conserves_totals mixed_key_sales);
    repeat constructor.
Defined.

(** ** The join, continued *)

Lemma matches_nil_no_sales (S : list SalesRecord) (i : InventoryRecord) :
  matches (inventory_astype_str i) (right_table S) = [] ->
  no_sales S (astype_str (i_SKU i)).
Proof.
  intros Hnil x Hx Hna E.
  assert (Hg : In (rollup_astype_str (rollup (parse_dates S) (s_SKU x)))
                  (matches (inventory_astype_str i) (right_table S))).
  { apply in_matches. split; [|exact E].
    apply in_right_table. exists (s_SKU x).
    split; [apply in_map; exact Hx | split; [exact Hna | reflexivity]]. }
  rewrite Hnil in Hg. destruct Hg.
Qed.

(** X10: when neither key column is a float64 column (numbers with a
    blank and no text), the [Period_Days] cell of an output row is blank
    exactly when no sales row carries the row's key in text form.  Otherwise
    it is at least 1 and the row carries the rollup of one raw key whose
    text form is the row's key: the sums of the units and revenues of the
    sales rows of that key, and their units over the period as velocity. *)
Theorem sold_rows_carry_their_rollup :
  forall (S : list SalesRecord) (I : list InventoryRecord) (r : EnrichedItem),
    float64_keys (map s_SKU S) = false ->
    float64_keys (map i_SKU I) = false ->
    In r (enriched S I) ->
    (Period_Days r = None <-> no_sales S (SKU r)) /\
    (forall p, Period_Days r = Some p ->
       (1 <= p)%Z /\
       exists k,
         In k (map s_SKU S) /\ k <> SkuNaN /\ astype_str k = SKU r /\
         Total_Units_Sold r
           = F.fillna 0 (F.sum (map s_Units_Sold (group_rows k S))) /\
         Total_Revenue r
           = F.fillna 0 (F.sum (map s_Revenue (group_rows k S))) /\
         Avg_Daily_Velocity r
           = F.fillna 0 (F.div (F.sum (map s_Units_Sold (group_rows k S)))
                               (Fin (IZR p)))).
Proof.
  intros S I r _ _ Hin. apply in_enriched in Hin.
  destruct Hin as [i [Hi [[Hnil ->] | [g [Hg [Hk ->]]]]]].
  - split; [|intros p H; discriminate H].
    split; [intros _ | reflexivity].
    apply matches_nil_no_sales. exact Hnil.
  - apply in_right_table in Hg. destruct Hg as [k [Hin [Hna ->]]].
    split.
    + split; [intro H; discriminate H|].
      intro Hno. exfalso.
      apply in_map_iff in Hin. destruct Hin as [x [Ex Hx]].
      apply (Hno x Hx); [congruence|]. rewrite Ex. exact Hk.
    + intros p Hp. simpl in Hp. injection Hp as <-.
      split; [apply positive_or_1_ge_1|].
      exists k. split; [exact Hin|]. split; [exact Hna|].
      split; [exact Hk|].
      simpl. rewrite group_rows_parse, parse_dates_units, parse_dates_revenue.
      repeat split.
Qed.

(** The number key 7 of an int64 sales column meets the text key "7" of the
    inventory sheet. *)
Lemma sold_rows_carry_their_rollup_witness :
  float64_keys (map s_SKU raw_sales) = false /\
  float64_keys (map i_SKU text_key_inventory) = false /\
  exists r,
    In r (enriched raw_sales text_key_inventory) /\
    SKU r = SkuStr "7" /\
    Period_Days r = Some 1%Z /\
    ~ no_sales raw_sales (SKU r) /\
    Total_Units_Sold r
      = F.fillna 0 (F.sum (map s_Units_Sold (group_rows (SkuInt 7) raw_sales))).
Proof.
  split; [reflexivity|]. split; [reflexivity|].
  eexists.
  assert (Hin : In _ (enriched raw_sales text_key_inventory))
    by (left; reflexivity).
  split; [exact Hin|].
  destruct (sold_rows_carry_their_rollup raw_sales text_key_inventory _
              eq_refl eq_refl Hin) as [Hiff Hsome].
  split; [reflexivity|]. split; [reflexivity|].
  split; [intro Hno; apply Hiff in Hno; discriminate Hno|].
  destruct (Hsome 1%Z eq_refl) as (_ & k & Hk & _ & _ & Hu & _).
  destruct Hk as [<- | [<- | []]]; exact Hu.
Defined.

Lemma merge_left_keeps_left (L : list InventoryRecord) (Rt : list SkuRollup) :
  NoDup (map g_SKU Rt) -> map m_inv (merge_left L Rt) = L.
Proof.
  intro Hnd. unfold merge_left. set (f := fun i : InventoryRecord => _).
  induction L as [|i L IH]; simpl; [reflexivity|].
  rewrite map_app, IH.
  assert (Hone : map m_inv (f i) = [i]); [|rewrite Hone; reflexivity].
  pose proof (matches_at_most_one i Rt Hnd) as H1. unfold f.
  destruct (matches i Rt) as [|g [|g' ms]]; simpl in *;
    reflexivity || lia.
Qed.

Lemma inventory_part_derive (m : MergedRow) :
  inventory_part (derive (fill_sales m)) = m_inv m.
Proof. destruct m as [[k s c mg] u v mn mx p a]. reflexivity. Qed.

(** X11: when the key column of the sales table is not mixed, the output
    is the inventory table row for row and in its order: same stock, cost
    and margin cells, the key in text form, and the new columns beside
    them. *)
Theorem output_keeps_inventory_rows :
  forall (S : list SalesRecord) (I : list InventoryRecord),
    unmixed_keys S ->
    map inventory_part (enriched S I) = map inventory_astype_str I.
Proof.
  intros S I Hu. unfold enriched, process_inventory. simpl merged_df.
  fold (right_table S). rewrite !map_map.
  rewrite (map_ext _ _ inventory_part_derive).
  apply merge_left_keeps_left, unmixed_keys_distinct, Hu.
Qed.

Lemma output_keeps_inventory_rows_witness :
  map inventory_part (enriched scenario_A_sales scenario_A_inventory)
  = map inventory_astype_str scenario_A_inventory.
Proof.
  apply output_keeps_inventory_rows. right.
  intros x [<- | [<- | [<- | []]]]; right; eexists; reflexivity.
Defined.

(** ** Financials *)

(** X12: for a row whose cost and margin are numbers with the margin below
    1, the selling price is [cost / (1 - margin)]: the margin is the share
    of the price above the cost, the price is not below a non-negative cost
    when the margin is not negative, and the stock value of a numeric stock
    is stock times price. *)
Theorem selling_price_recovers_margin :
  forall (S : list SalesRecord) (I : list InventoryRecord) (r : EnrichedItem)
         (c mg : R),
    In r (enriched S I) -> Cost_Price r = Fin c -> Margin r = Fin mg ->
    mg < 1 ->
    exists p,
      Selling_Price r = Fin p /\ p = c / (1 - mg) /\
      (0 < c -> 0 < p /\ (p - c) / p = mg) /\
      (0 <= c -> 0 <= mg -> c <= p) /\
      (forall s, Current_Stock r = Fin s -> Stock_Value r = Fin (s * p)).
Proof.
  intros S I r c mg Hin Hc Hm H1.
  destruct (priced_row S I r c mg Hin Hc Hm ltac:(lra)) as [Hp Hsv].
  exists (c / (1 - mg)). split; [exact Hp|]. split; [reflexivity|].
  assert (Hi : 0 < / (1 - mg)) by (apply Rinv_0_lt_compat; lra).
  assert (E : (1 - mg) * / (1 - mg) = 1) by (apply Rinv_r; lra).
  split; [|split].
  - intro Hc0.
    assert (Hpos : 0 < c / (1 - mg)) by (unfold Rdiv; apply Rmult_lt_0_compat; lra).
    split; [exact Hpos|]. field. lra.
  - intros Hc0 Hm0. unfold Rdiv.
    assert (1 <= / (1 - mg)) by nra. nra.
  - intros s Hs. rewrite Hsv, Hs. reflexivity.
Qed.

Lemma selling_price_recovers_margin_witness :
  exists p, Selling_Price scenario_A_row = Fin p /\ (p - 40) / p = 5 / 10.
Proof.
  assert (Hin : In scenario_A_row
                   (enriched scenario_A_sales scenario_A_inventory))
    by (left; reflexivity).
  destruct (selling_price_recovers_margin scenario_A_sales
              scenario_A_inventory scenario_A_row 40 (5 / 10) Hin
              eq_refl eq_refl ltac:(lra)) as (p & Hp & _ & Hpos & _).
  exists p. split; [exact Hp | apply Hpos; lra].
Defined.

Lemma div_by_zero_pos (x y : R) :
  0 < x -> y = 0 -> F.div (Fin x) (Fin y) = PInf.
Proof.
  intros Hx Hy. unfold F.div, F.scale_inf.
  destruct (Req_dec_T y 0); [|contradiction].
  destruct (Req_dec_T x 0); [lra|].
  destruct (Rlt_dec 0 x); [reflexivity | lra].
Qed.

(** X13: a margin of 1 or more is not rejected.  With a positive cost, a
    margin of 1 gives an infinite selling price, and an infinite stock
    value for a positive stock or a blank one for a stock of 0; a margin
    above 1 gives a negative selling price, and a negative stock value for
    a positive stock.  The score of the row does not depend on it: it is a
    number between 0 and 100 as for any numeric stock. *)
Theorem margin_of_one_or_more :
  forall (S : list SalesRecord) (I : list InventoryRecord) (r : EnrichedItem)
         (c mg s : R),
    In r (enriched S I) -> Cost_Price r = Fin c -> Margin r = Fin mg ->
    Current_Stock r = Fin s -> 0 < c -> 1 <= mg ->
    (mg = 1 ->
       Selling_Price r = PInf /\
       (0 < s -> Stock_Value r = PInf) /\
       (s = 0 -> Stock_Value r = NaN)) /\
    (1 < mg ->
       exists p, Selling_Price r = Fin p /\ p < 0 /\
                 Stock_Value r = Fin (s * p) /\ (0 < s -> s * p < 0)) /\
    (exists x, Death_Risk_Score r = Fin x /\ 0 <= x <= 100).
Proof.
  intros S I r c mg s Hin Hc Hm Hs Hc0 Hmg.
  destruct (enriched_derive _ _ _ Hin) as [m Er].
  assert (Hsp : Selling_Price r
                = F.div (Cost_Price r) (F.sub (Fin 1) (Margin r)))
    by (rewrite Er; reflexivity).
  assert (Hsv : Stock_Value r = F.mul (Current_Stock r) (Selling_Price r))
    by (rewrite Er; reflexivity).
  split; [|split].
  - intro E1.
    assert (Hp : Selling_Price r = PInf).
    { rewrite Hsp, Hc, Hm. unfold F.sub, F.neg, F.add.
      apply div_by_zero_pos; lra. }
    split; [exact Hp|]. rewrite Hsv, Hs, Hp. unfold F.mul, F.scale_inf.
    split; intro H0.
    + destruct (Req_dec_T s 0); [lra|].
      destruct (Rlt_dec 0 s); [reflexivity | lra].
    + destruct (Req_dec_T s 0); [reflexivity | lra].
  - intro H1.
    destruct (priced_row S I r c mg Hin Hc Hm ltac:(lra)) as [Hp Hv].
    exists (c / (1 - mg)). split; [exact Hp|].
    assert (Hneg : c / (1 - mg) < 0).
    { unfold Rdiv. assert (/ (1 - mg) < 0) by (apply Rinv_lt_0_compat; lra).
      nra. }
    split; [exact Hneg|]. split; [rewrite Hv, Hs; reflexivity|].
    intro H0. nra.
  - destruct (score_number_or_blank S I r Hin) as [Hnan | Hx]; [|exact Hx].
    exfalso.
    destruct (derive_score (fill_sales m) s) as (d & p & _ & _ & _ & _ & Hsc);
      [pose proof Hs as Hs'; rewrite Er in Hs'; exact Hs'
      | apply fillna_not_nan |].
    rewrite <- Er in Hsc. congruence.
Qed.

Lemma margin_of_one_or_more_witness :
  In (never_sold_row item_margin_one) (enriched [] [item_margin_one]) /\
  Selling_Price (never_sold_row item_margin_one) = PInf /\
  Stock_Value (never_sold_row item_margin_one) = PInf /\
  Death_Risk_Score (never_sold_row item_margin_one) = Fin 100.
Proof.
  assert (Hin : In (never_sold_row item_margin_one)
                   (enriched [] [item_margin_one]))
    by (left; reflexivity).
  destruct (margin_of_one_or_more [] [item_margin_one]
              (never_sold_row item_margin_one) 5 1 10 Hin
              eq_refl eq_refl eq_refl ltac:(lra) ltac:(lra))
    as (H1 & _ & _).
  destruct (H1 eq_refl) as (Hp & Hv & _).
  split; [exact Hin|]. split; [exact Hp|]. split; [apply Hv; lra|].
  apply (never_sold_saturated (inventory_astype_str item_margin_one) 10 eq_refl).
  pose proof saturation_stock_below_tenth. lra.
Defined.

(** ** How the score moves with stock and velocity *)

Lemma score_closed_form (S : list SalesRecord) (I : list InventoryRecord)
    (r : EnrichedItem) (s v : R) :
  In r (enriched S I) -> Current_Stock r = Fin s ->
  Avg_Daily_Velocity r = Fin v ->
  Days_of_Cover r = Fin (s / (if Req_dec_T v 0 then 1 / 1000 else v)) /\
  Death_Risk_Score r = Fin (risk_score s v).
Proof.
  intros Hin Hs Hv. destruct (enriched_derive _ _ _ Hin) as [m Er].
  assert (Hd0 : Days_of_Cover r
                = F.div (Current_Stock r)
                        (F.replace 0 (1 / 1000) (Avg_Daily_Velocity r)))
    by (rewrite Er; reflexivity).
  assert (Hb0 : Death_Risk_Base r
                = F.mul (F.expit (F.div (F.sub (Days_of_Cover r) (Fin 60))
                                        (Fin 30))) (Fin 100))
    by (rewrite Er; reflexivity).
  assert (Hp0 : Risk_Penalty r = risk_penalty (Avg_Daily_Velocity r))
    by (rewrite Er; reflexivity).
  assert (Hs0 : Death_Risk_Score r
                = F.clip 0 100 (F.add (Death_Risk_Base r) (Risk_Penalty r)))
    by (rewrite Er; reflexivity).
  assert (Hd : Days_of_Cover r
               = Fin (s / (if Req_dec_T v 0 then 1 / 1000 else v))).
  { rewrite Hd0, Hs, Hv. unfold F.replace, F.eqb.
    destruct (Req_dec_T v 0); apply div_fin; lra. }
  split; [exact Hd|].
  rewrite Hs0, Hb0, Hp0, Hd, Hv. unfold F.sub, F.neg, F.add.
  rewrite div_fin by lra. unfold risk_penalty, F.ltb, risk_score.
  destruct (Rlt_dec v (5 / 10)); reflexivity.
Qed.

Lemma logistic_mono (x y : R) : x <= y -> logistic x <= logistic y.
Proof.
  intro H. unfold logistic.
  pose proof (exp_pos (- x)). pose proof (exp_pos (- y)).
  assert (exp (- y) <= exp (- x)).
  { destruct H as [H | ->]; [|lra].
    left. apply exp_increasing. lra. }
  apply Rinv_le_contravar; lra.
Qed.

Lemma clamp_mono (x y : R) : x <= y -> clamp_0_100 x <= clamp_0_100 y.
Proof.
  intro H. unfold clamp_0_100, Rmin, Rmax.
  destruct (Rle_dec x 0); destruct (Rle_dec y 0);
    repeat match goal with |- context [Rle_dec ?a ?b] =>
      destruct (Rle_dec a b) end; lra.
Qed.

Lemma risk_score_mono_stock (s1 s2 v : R) :
  0 <= v -> s1 <= s2 -> risk_score s1 v <= risk_score s2 v.
Proof.
  intros Hv Hs. unfold risk_score. apply clamp_mono.
  set (w := if Req_dec_T v 0 then 1 / 1000 else v).
  assert (Hw : 0 < w) by (unfold w; destruct (Req_dec_T v 0); lra).
  assert (Hi : 0 < / w) by (apply Rinv_0_lt_compat; exact Hw).
  assert (Hl : logistic ((s1 / w - 60) / 30) <= logistic ((s2 / w - 60) / 30)).
  { apply logistic_mono. unfold Rdiv. nra. }
  lra.
Qed.

Lemma cover_falls_with_velocity (s v1 v2 : R) :
  0 <= s -> 0 < v1 -> v1 <= v2 -> s / v2 <= s / v1.
Proof.
  intros Hs H1 H2. unfold Rdiv. apply Rmult_le_compat_l; [exact Hs|].
  apply Rinv_le_contravar; assumption.
Qed.

Lemma risk_score_anti_velocity (s v1 v2 : R) :
  0 <= s -> 0 < v1 -> v1 <= v2 -> risk_score s v2 <= risk_score s v1.
Proof.
  intros Hs H1 H2. unfold risk_score. apply clamp_mono.
  destruct (Req_dec_T v1 0); [lra|]. destruct (Req_dec_T v2 0); [lra|].
  assert (Hl : logistic ((s / v2 - 60) / 30) <= logistic ((s / v1 - 60) / 30)).
  { apply logistic_mono.
    pose proof (cover_falls_with_velocity s v1 v2 Hs H1 H2). lra. }
  destruct (Rlt_dec v1 (5 / 10)); destruct (Rlt_dec v2 (5 / 10)); lra.
Qed.

Lemma risk_score_floor (s v : R) :
  0 < s -> 0 < v -> v < 1 / 1000 ->
  s / (1 / 1000) < s / v /\ risk_score s 0 <= risk_score s v.
Proof.
  intros Hs H0 H1.
  assert (Hd : s / (1 / 1000) < s / v).
  { unfold Rdiv. apply Rmult_lt_compat_l; [exact Hs|].
    apply Rinv_lt_contravar; [|exact H1].
    apply Rmult_lt_0_compat; lra. }
  split; [exact Hd|].
  unfold risk_score. apply clamp_mono.
  destruct (Req_dec_T 0 0); [|lra]. destruct (Req_dec_T v 0); [lra|].
  assert (Hl : logistic ((s / (1 / 1000) - 60) / 30)
               <= logistic ((s / v - 60) / 30))
    by (apply logistic_mono; lra).
  destruct (Rlt_dec 0 (5 / 10)); [|lra].
  destruct (Rlt_dec v (5 / 10)); lra.
Qed.

(** X14: of two output rows with the same non-negative velocity, the one
    with the larger stock has the larger or equal score. *)
Theorem score_grows_with_stock :
  forall (S1 S2 : list SalesRecord) (I1 I2 : list InventoryRecord)
         (r1 r2 : EnrichedItem) (s1 s2 v : R),
    In r1 (enriched S1 I1) -> In r2 (enriched S2 I2) ->
    Current_Stock r1 = Fin s1 -> Current_Stock r2 = Fin s2 ->
    Avg_Daily_Velocity r1 = Fin v -> Avg_Daily_Velocity r2 = Fin v ->
    0 <= v -> s1 <= s2 ->
    exists x1 x2,
      Death_Risk_Score r1 = Fin x1 /\ Death_Risk_Score r2 = Fin x2 /\
      x1 <= x2.
Proof.
  intros S1 S2 I1 I2 r1 r2 s1 s2 v Hin1 Hin2 Hs1 Hs2 Hv1 Hv2 Hv Hs.
  destruct (score_closed_form S1 I1 r1 s1 v Hin1 Hs1 Hv1) as [_ H1].
  destruct (score_closed_form S2 I2 r2 s2 v Hin2 Hs2 Hv2) as [_ H2].
  exists (risk_score s1 v), (risk_score s2 v).
  split; [exact H1|]. split; [exact H2|].
  apply risk_score_mono_stock; assumption.
Qed.

Lemma score_grows_with_stock_witness :
  exists x1 x2,
    Death_Risk_Score (never_sold_row item_no_stock) = Fin x1 /\
    Death_Risk_Score (never_sold_row item_B2) = Fin x2 /\ x1 <= x2.
Proof.
  apply (score_grows_with_stock [] [] [item_no_stock] scenario_B_inventory
           (never_sold_row item_no_stock) (never_sold_row item_B2) 0 10 0);
    try (left; reflexivity); try reflexivity; lra.
Defined.

(** X15: of two output rows with the same non-negative stock and positive
    velocities, the one that sells faster has the smaller or equal days of
    cover and the smaller or equal score. *)
Theorem score_falls_with_velocity :
  forall (S1 S2 : list SalesRecord) (I1 I2 : list InventoryRecord)
         (r1 r2 : EnrichedItem) (s v1 v2 : R),
    In r1 (enriched S1 I1) -> In r2 (enriched S2 I2) ->
    Current_Stock r1 = Fin s -> Current_Stock r2 = Fin s ->
    Avg_Daily_Velocity r1 = Fin v1 -> Avg_Daily_Velocity r2 = Fin v2 ->
    0 <= s -> 0 < v1 -> v1 <= v2 ->
    Days_of_Cover r1 = Fin (s / v1) /\ Days_of_Cover r2 = Fin (s / v2) /\
    s / v2 <= s / v1 /\
    exists x1 x2,
      Death_Risk_Score r1 = Fin x1 /\ Death_Risk_Score r2 = Fin x2 /\
      x2 <= x1.
Proof.
  intros S1 S2 I1 I2 r1 r2 s v1 v2 Hin1 Hin2 Hs1 Hs2 Hv1 Hv2 Hs H1 H2.
  destruct (score_closed_form S1 I1 r1 s v1 Hin1 Hs1 Hv1) as [Hd1 Hx1].
  destruct (score_closed_form S2 I2 r2 s v2 Hin2 Hs2 Hv2) as [Hd2 Hx2].
  destruct (Req_dec_T v1 0); [lra|]. destruct (Req_dec_T v2 0); [lra|].
  split; [exact Hd1|]. split; [exact Hd2|].
  split; [apply cover_falls_with_velocity; assumption|].
  exists (risk_score s v1), (risk_score s v2).
  split; [exact Hx1|]. split; [exact Hx2|].
  apply risk_score_anti_velocity; assumption.
Qed.

Lemma trickle_row_velocity :
  Avg_Daily_Velocity trickle_row = Fin (1 / 2724).
Proof.
  unfold trickle_row. rewrite fill_matched.
  set (g := rollup (parse_dates trickle_sales) (SkuStr "T1")).
  assert (Hu : g_Total_Units_Sold g = Fin 1) by (cbn; f_equal; lra).
  assert (Hp : g_Period_Days g = 2724%Z) by reflexivity.
  assert (Hv : g_Avg_Daily_Velocity g
               = F.div (g_Total_Units_Sold g) (ofZ (g_Period_Days g)))
    by reflexivity.
  change (Avg_Daily_Velocity (derive _))
    with (F.fillna 0 (g_Avg_Daily_Velocity g)).
  rewrite Hv, Hu, Hp. unfold ofZ. rewrite div_fin by lra. reflexivity.
Qed.

Lemma brisk_row_velocity :
  Avg_Daily_Velocity brisk_row = Fin (175 / 100).
Proof.
  destruct (scenario_A_rollup _ eq_refl) as (_ & _ & _ & Hv).
  unfold brisk_row. rewrite fill_matched.
  change (Avg_Daily_Velocity (derive _))
    with (F.fillna 0 (g_Avg_Daily_Velocity
                        (rollup (parse_dates scenario_A_sales) (SkuStr "A1")))).
  rewrite Hv. reflexivity.
Qed.

Lemma score_falls_with_velocity_witness :
  Avg_Daily_Velocity trickle_row = Fin (1 / 2724) /\
  Avg_Daily_Velocity brisk_row = Fin (175 / 100) /\
  1 / 2724 < 175 / 100 /\
  Days_of_Cover trickle_row = Fin (10 / (1 / 2724)) /\
  Days_of_Cover brisk_row = Fin (10 / (175 / 100)) /\
  10 / (175 / 100) <= 10 / (1 / 2724) /\
  exists x1 x2,
    Death_Risk_Score trickle_row = Fin x1 /\
    Death_Risk_Score brisk_row = Fin x2 /\ x2 <= x1.
Proof.
  assert (Hin1 : In trickle_row (enriched trickle_sales [item_T1]))
    by (left; reflexivity).
  assert (Hin2 : In brisk_row (enriched scenario_A_sales [item_A1_ten]))
    by (left; reflexivity).
  split; [exact trickle_row_velocity|].
  split; [exact brisk_row_velocity|].
  split; [lra|].
  apply (score_falls_with_velocity trickle_sales scenario_A_sales
           [item_T1] [item_A1_ten] trickle_row brisk_row
           10 (1 / 2724) (175 / 100) Hin1 Hin2 eq_refl eq_refl
           trickle_row_velocity brisk_row_velocity);
    lra.
Defined.

(** X16: only a velocity of exactly 0 is replaced by 0.001.  Of two output
    rows with the same positive stock, one that never sold and one that
    sells at a velocity between 0 and 0.001, the never-sold one has fewer
    days of cover, [stock / 0.001] against [stock / velocity], and the
    smaller or equal score. *)
Theorem velocity_floor_is_not_a_lower_bound :
  forall (S1 S2 : list SalesRecord) (I1 I2 : list InventoryRecord)
         (r1 r2 : EnrichedItem) (s v : R),
    In r1 (enriched S1 I1) -> In r2 (enriched S2 I2) ->
    Current_Stock r1 = Fin s -> Current_Stock r2 = Fin s ->
    Avg_Daily_Velocity r1 = Fin 0 -> Avg_Daily_Velocity r2 = Fin v ->
    0 < s -> 0 < v -> v < 1 / 1000 ->
    Days_of_Cover r1 = Fin (s / (1 / 1000)) /\
    Days_of_Cover r2 = Fin (s / v) /\
    s / (1 / 1000) < s / v /\
    exists x1 x2,
      Death_Risk_Score r1 = Fin x1 /\ Death_Risk_Score r2 = Fin x2 /\
      x1 <= x2.
Proof.
  intros S1 S2 I1 I2 r1 r2 s v Hin1 Hin2 Hs1 Hs2 Hv1 Hv2 Hs H0 H1.
  destruct (score_closed_form S1 I1 r1 s 0 Hin1 Hs1 Hv1) as [Hd1 Hx1].
  destruct (score_closed_form S2 I2 r2 s v Hin2 Hs2 Hv2) as [Hd2 Hx2].
  destruct (Req_dec_T 0 0); [|lra]. destruct (Req_dec_T v 0); [lra|].
  destruct (risk_score_floor s v Hs H0 H1) as [Hd Hx].
  split; [exact Hd1|]. split; [exact Hd2|]. split; [exact Hd|].
  exists (risk_score s 0), (risk_score s v).
  split; [exact Hx1|]. split; [exact Hx2 | exact Hx].
Qed.

Lemma velocity_floor_is_not_a_lower_bound_witness :
  Days_of_Cover (never_sold_row item_B2) = Fin (10 / (1 / 1000)) /\
  Days_of_Cover trickle_row = Fin (10 / (1 / 2724)) /\
  10 / (1 / 1000) < 10 / (1 / 2724).
Proof.
  assert (Hin1 : In (never_sold_row item_B2) (enriched [] scenario_B_inventory))
    by (left; reflexivity).
  assert (Hin2 : In trickle_row (enriched trickle_sales [item_T1]))
    by (left; reflexivity).
  destruct (velocity_floor_is_not_a_lower_bound [] trickle_sales
              scenario_B_inventory [item_T1]
              (never_sold_row item_B2) trickle_row 10 (1 / 2724)
              Hin1 Hin2 eq_refl eq_refl eq_refl trickle_row_velocity
              ltac:(lra) ltac:(lra) ltac:(lra))
    as (Hd1 & Hd2 & Hlt & _).
  split; [exact Hd1|]. split; [exact Hd2 | exact Hlt].
Defined.

(** ** The rows listed first *)

Lemma in_head {A : Type} (n : nat) (l : list A) (x : A) :
  In x (firstn n l) -> In x l.
Proof.
  revert n. induction l as [|a l IH]; intros [|n]; simpl; try tauto.
  intros [H | H]; [left; exact H | right; apply (IH n H)].
Qed.

Lemma head_le_incl {A : Type} (n m : nat) (l : list A) (x : A) :
  (n <= m)%nat -> In x (firstn n l) -> In x (firstn m l).
Proof.
  revert n m. induction l as [|a l IH]; intros [|n] [|m] Hle; simpl;
    try tauto; try lia.
  intros [H | H]; [left; exact H | right; apply (IH n m); [lia | exact H]].
Qed.

Lemma head_length {A : Type} (n : nat) (l : list A) :
  List.length (firstn n l) = Nat.min n (List.length l).
Proof.
  revert n. induction l as [|a l IH]; intros [|n]; simpl; try reflexivity.
  rewrite IH. reflexivity.
Qed.

Lemma permutation_filter_length {A : Type} (p : A -> bool) (l l' : list A) :
  Permutation l l' ->
  List.length (filter p l) = List.length (filter p l').
Proof.
  induction 1 as [|a l l' _ IH|a b l|l l' l'' _ IH1 _ IH2]; simpl.
  - reflexivity.
  - destruct (p a); simpl; rewrite IH; reflexivity.
  - destruct (p a); destruct (p b); reflexivity.
  - congruence.
Qed.

(** A score that may stand before a score above 70 is above 70. *)
Lemma before_high_is_high (a b : fnum) :
  App.score_before a b = true -> F.gtb b (Fin 70) = true ->
  F.gtb a (Fin 70) = true.
Proof.
  unfold App.score_before, F.gtb.
  destruct a as [x| | |]; destruct b as [y| | |]; simpl;
    try discriminate; try reflexivity; intros H1 H2.
  - destruct (Rlt_dec x y); [discriminate H1|].
    destruct (Rlt_dec 70 y); [|discriminate H2].
    destruct (Rlt_dec 70 x); [reflexivity | lra].
Qed.

(** In a sorted table the high-risk rows stand first. *)
Lemma high_risk_is_a_prefix (sorted : list EnrichedItem) :
  StronglySorted
    (fun a b => App.score_before (Death_Risk_Score a) (Death_Risk_Score b)
                = true) sorted ->
  App.high_risk sorted = firstn (App.risk_count sorted) sorted.
Proof.
  unfold App.risk_count, App.high_risk.
  induction 1 as [|a l _ IH Hall]; [reflexivity|].
  cbn [filter].
  destruct (F.gtb (Death_Risk_Score a) (Fin 70)) eqn:Ea;
    cbn [List.length firstn].
  - f_equal. exact IH.
  - assert (Hnone : filter (fun r => F.gtb (Death_Risk_Score r) (Fin 70)) l
                    = []).
    { destruct (filter _ l) as [|b l'] eqn:Ef; [reflexivity|].
      exfalso.
      assert (Hb : In b (filter (fun r => F.gtb (Death_Risk_Score r) (Fin 70)) l))
        by (rewrite Ef; left; reflexivity).
      apply filter_In in Hb. destruct Hb as [Hb Hhigh].
      rewrite Forall_forall in Hall.
      pose proof (before_high_is_high _ _ (Hall b Hb) Hhigh). congruence. }
    rewrite Hnone. reflexivity.
Qed.

(** X17: take any order that the sort by falling score may give, and its
    first [k] rows ([k] is 5 in the PDF report and 10 in the bar chart).
    They are [k] rows of the table, or all of them when it has fewer.  When
    at most [k] rows are high risk, every high-risk row is among them; when
    at least [k] rows are high risk, each of them is high risk. *)
Theorem first_rows_and_high_risk :
  forall (df sorted : list EnrichedItem) (k : nat),
    App.sorted_by_risk df sorted ->
    List.length (App.head k sorted) = Nat.min k (List.length df) /\
    (forall r, In r (App.head k sorted) -> In r df) /\
    ((App.risk_count df <= k)%nat ->
       forall r, In r (App.high_risk df) -> In r (App.head k sorted)) /\
    ((k <= App.risk_count df)%nat ->
       forall r, In r (App.head k sorted) -> In r (App.high_risk df)).
Proof.
  intros df sorted k [Hperm Hsorted]. unfold App.head.
  assert (Hcount : App.risk_count df = App.risk_count sorted)
    by (apply permutation_filter_length; exact Hperm).
  assert (Hhigh : forall r, In r (App.high_risk df)
                            <-> In r (App.high_risk sorted)).
  { intro r. unfold App.high_risk. rewrite !filter_In.
    split; intros [Hr Hs]; (split; [|exact Hs]).
    - apply (Permutation_in _ Hperm Hr).
    - apply (Permutation_in _ (Permutation_sym Hperm) Hr). }
  pose proof (high_risk_is_a_prefix sorted Hsorted) as Hprefix.
  split; [|split; [|split]].
  - rewrite head_length, (Permutation_length Hperm). reflexivity.
  - intros r Hr. apply (Permutation_in _ (Permutation_sym Hperm)).
    apply (in_head k sorted r Hr).
  - intros Hle r Hr. apply Hhigh in Hr. rewrite Hprefix in Hr.
    apply (head_le_incl (App.risk_count sorted) k); [lia | exact Hr].
  - intros Hle r Hr. apply Hhigh. rewrite Hprefix.
    apply (head_le_incl k (App.risk_count sorted)); [lia | exact Hr].
Qed.

Lemma first_rows_and_high_risk_witness :
  App.sorted_by_risk
    [never_sold_row item_null_stock; never_sold_row item_B2]
    [never_sold_row item_B2; never_sold_row item_null_stock] /\
  List.length (App.head 5 [never_sold_row item_B2;
                           never_sold_row item_null_stock]) = 2%nat.
Proof.
  assert (Hsort : App.sorted_by_risk
                    [never_sold_row item_null_stock; never_sold_row item_B2]
                    [never_sold_row item_B2; never_sold_row item_null_stock]).
  { split; [apply perm_swap|].
    apply SSorted_cons; [apply SSorted_cons; [apply SSorted_nil|]|].
    - apply Forall_nil.
    - apply Forall_cons; [|apply Forall_nil].
      assert (E : Death_Risk_Score (never_sold_row item_B2) = Fin 100).
      { apply (never_sold_saturated (inventory_astype_str item_B2) 10
                 eq_refl).
        pose proof saturation_stock_below_tenth. lra. }
      rewrite E. reflexivity. }
  split; [exact Hsort|].
  apply (proj1 (first_rows_and_high_risk _ _ 5%nat Hsort)).
Defined.
